(** * CGATPipelines.PipelineMapping: the mapping-statement builder

    A shallow embedding of [class Mapper] and of several of its subclasses
    ([FastQc], [Counter], [Sailfish], [BWA], [Butter], [Tophat]) from
    [CGATPipelines/PipelineMapping.py], with theorems about the four-phase
    statement that [Mapper.build] assembles.

    Python strings are [string]; a raised exception is a value of [exn];
    the attributes of [self] are a record that is threaded through the
    methods; what the module asks of the file system and of the modules
    that are imported ([os.path.exists], [Fastq.guessFormat], [Sra.peek],
    [Sra.extract], [P.getTempDir], [P.snip]) is a record of oracles. *)

From Stdlib Require Import String Ascii List Bool Arith PeanoNat Lia.
From Stdlib Require Import ZArith Sorting.Sorted.
From Stdlib Require Import Numbers.DecimalString.
Import ListNotations.
Local Open Scope list_scope.
Local Open Scope string_scope.

(** ** Exceptions and results *)

Inductive exn : Type :=
| AssertionError (msg : string)
| ValueError (msg : string)
| NotImplementedError (msg : string)
| KeyError (key : string)
| TypeError (msg : string)
| AttributeError (name : string)
| UnboundLocalError (name : string)
| IndexError (msg : string)
| IOError (msg : string).

Inductive result (A : Type) : Type :=
| Ok (a : A)
| Raise (e : exn).
Arguments Ok {A} a.
Arguments Raise {A} e.

Definition rbind {A B} (r : result A) (k : A -> result B) : result B :=
  match r with
  | Ok a => k a
  | Raise e => Raise e
  end.

Definition is_ok {A} (r : result A) : bool :=
  match r with Ok _ => true | Raise _ => false end.

(** ** Python values and the operations on strings that the module uses *)

Inductive pyval : Type :=
| PStr (s : string)
| PInt (n : nat)
| PNone
| PObj (repr : string).

Definition str_of_nat (n : nat) : string :=
  NilEmpty.string_of_uint (Nat.to_uint n).

(** [str(v)], as the conversion [%s] applies it. *)
Definition py_str (v : pyval) : string :=
  match v with
  | PStr s => s
  | PInt n => str_of_nat n
  | PNone => "None"
  | PObj repr => repr
  end.

(** Truth value of a string: [if s:] *)
Definition truthy (s : string) : bool :=
  match s with EmptyString => false | String _ _ => true end.

Definition dq : string := String (ascii_of_nat 34) EmptyString.
Definition nl : string := String (ascii_of_nat 10) EmptyString.
Definition bs : string := String (ascii_of_nat 92) EmptyString.

Fixpoint rev_string (acc s : string) : string :=
  match s with
  | EmptyString => acc
  | String c r => rev_string (String c acc) r
  end.

(** [s.startswith(p)] *)
Fixpoint startswith (s p : string) : bool :=
  match p, s with
  | EmptyString, _ => true
  | String _ _, EmptyString => false
  | String a p', String b s' => Ascii.eqb a b && startswith s' p'
  end.

(** [s.endswith(suf)] *)
Definition endswith (s suf : string) : bool :=
  startswith (rev_string EmptyString s) (rev_string EmptyString suf).

(** [string.whitespace]: space, tab, line feed, vertical tab, form feed,
    carriage return. *)
Definition is_space (c : ascii) : bool :=
  let n := nat_of_ascii c in
  Nat.eqb n 32 || (Nat.leb 9 n && Nat.leb n 13).

Fixpoint lstrip (s : string) : string :=
  match s with
  | EmptyString => EmptyString
  | String c r => if is_space c then lstrip r else s
  end.

Fixpoint rstrip (s : string) : string :=
  match s with
  | EmptyString => EmptyString
  | String c r =>
      match rstrip r with
      | EmptyString => if is_space c then EmptyString else String c EmptyString
      | r' => String c r'
      end
  end.

(** [s.strip()] *)
Definition strip (s : string) : string := lstrip (rstrip s).

(** [sep.join(l)] *)
Definition join (sep : string) (l : list string) : string :=
  String.concat sep l.

(** [x in l] for a list of strings. *)
Definition str_in (x : string) (l : list string) : bool :=
  existsb (String.eqb x) l.

(** [s[:n]] for [0 <= n]. *)
Fixpoint take (n : nat) (s : string) : string :=
  match n, s with
  | S n', String c r => String c (take n' r)
  | _, _ => EmptyString
  end.

(** [s[n:]] for [0 <= n]. *)
Fixpoint drop (n : nat) (s : string) : string :=
  match n, s with
  | S n', String _ r => drop n' r
  | _, _ => s
  end.

(** [s.rfind(c)]: the position of the last occurrence of the character. *)
Fixpoint rfind (c : ascii) (s : string) : option nat :=
  match s with
  | EmptyString => None
  | String d r =>
      match rfind c r with
      | Some i => Some (S i)
      | None => if Ascii.eqb c d then Some 0 else None
      end
  end.

(** [os.path.basename(p)] on a POSIX path: what follows the last slash. *)
Definition basename (p : string) : string :=
  match rfind "/" p with
  | Some i => drop (S i) p
  | None => p
  end.

(** The loop of [genericpath._splitext] that skips leading dots: is there,
    among the [n] characters at the head of [s], one that is not a dot? *)
Fixpoint has_non_dot (n : nat) (s : string) : bool :=
  match n, s with
  | S n', String c r => negb (Ascii.eqb c ".") || has_non_dot n' r
  | _, _ => false
  end.

(** [os.path.splitext(p)[0]] *)
Definition splitext_root (p : string) : string :=
  match rfind "." p with
  | None => p
  | Some dot =>
      let start := match rfind "/" p with Some i => S i | None => 0 end in
      if Nat.leb start dot && has_non_dot (dot - start) (drop start p)
      then take dot p
      else p
  end.

(** [s.split(".")[:-1]] joined again by ["."], as [Butter.mapper] does:
    the string up to its last dot, and the empty string when it has none. *)
Definition drop_last_field (s : string) : string :=
  match rfind "." s with
  | Some i => take i s
  | None => EmptyString
  end.

(** [re.sub] of [FastQc.mapper], which replaces the pattern [.fastq.*]
    by the empty string: every match of one
    character other than a line feed, then [fastq], then the rest of the
    line, is removed.  [skipping] says that a match is being consumed. *)
Fixpoint re_sub_fastq (skipping : bool) (x : string) : string :=
  match x with
  | EmptyString => EmptyString
  | String c r =>
      if Ascii.eqb c (ascii_of_nat 10)
      then String c (re_sub_fastq false r)
      else if skipping then re_sub_fastq true r
      else if startswith r "fastq" then re_sub_fastq true r
      else String c (re_sub_fastq false r)
  end.

(** ** The formatting operator [template % locals()]

    The right operand is the dictionary of the local variables of the
    calling function: the names that are bound, each with its value.  The
    template is read from left to right: [%%] gives a percent sign,
    [%(name)s] the string of the value of [name] and [%(name)i] its
    decimal form.  A name that is not bound raises [KeyError] when its
    closing parenthesis is read, and a template that ends inside a
    conversion raises [ValueError], as CPython does.  The templates of
    the module have no flags, widths or conversions without a name; the
    model refuses a conversion without a name. *)

Definition locals : Type := list (string * pyval).

Fixpoint lookup (name : string) (d : locals) : option pyval :=
  match d with
  | [] => None
  | (k, v) :: d' => if String.eqb k name then Some v else lookup name d'
  end.

Inductive fmt_state : Type :=
| FText
| FPercent
| FKey (name : string)
| FConv (v : pyval).

Definition convert_value (c : ascii) (v : pyval) : result string :=
  if Ascii.eqb c "s" then Ok (py_str v)
  else if Ascii.eqb c "i" || Ascii.eqb c "d" then
    match v with
    | PInt n => Ok (str_of_nat n)
    | _ => Raise (TypeError "%d format: a number is required")
    end
  else Raise (ValueError "unsupported format character").

Fixpoint format_with (st : fmt_state) (template : string) (d : locals)
  : result string :=
  match template with
  | EmptyString =>
      match st with
      | FText => Ok EmptyString
      | FKey _ => Raise (ValueError "incomplete format key")
      | _ => Raise (ValueError "incomplete format")
      end
  | String c rest =>
      match st with
      | FText =>
          if Ascii.eqb c "%" then format_with FPercent rest d
          else rbind (format_with FText rest d) (fun s => Ok (String c s))
      | FPercent =>
          if Ascii.eqb c "%" then
            rbind (format_with FText rest d) (fun s => Ok (String c s))
          else if Ascii.eqb c "(" then format_with (FKey EmptyString) rest d
          else Raise (TypeError "format requires a mapping key")
      | FKey name =>
          if Ascii.eqb c ")" then
            match lookup name d with
            | Some v => format_with (FConv v) rest d
            | None => Raise (KeyError name)
            end
          else format_with (FKey (name ++ String c EmptyString)) rest d
      | FConv v =>
          rbind (convert_value c v) (fun piece =>
          rbind (format_with FText rest d) (fun s => Ok (piece ++ s)))
      end
  end.

Definition format (template : string) (d : locals) : result string :=
  format_with FText template d.

(** ** The collaborators outside the module *)

Record Env : Type := {
  (** [os.path.exists] *)
  path_exists : string -> bool;
  (** [Fastq.guessFormat(IOTools.openFile(f), raises=False)] *)
  guessFormat : string -> result (list string);
  (** [Sra.peek(infile, outdir)]: the files of the archive and their
      quality formats *)
  sra_peek : string -> string -> result (list string * list string);
  (** [Sra.extract(infile, tmpdir)]: the extraction command *)
  sra_extract : string -> string -> string;
  (** the name that the [n]-th call of [P.getTempDir] returns *)
  tempdir_name : nat -> string;
  (** [P.snip(filename, extension)] *)
  snip : string -> string -> result string
}.

(** ** The attributes of a mapper object *)

Record Self : Type := mkSelf {
  executable : string;
  datatype : string;
  preserve_colourspace : bool;
  compress : bool;
  convert : bool;
  strip_sequence : bool;
  remove_non_unique : bool;
  tmpdir_fastq : option string;
  tmpdir : option string;
  tmpdir_tophat : option string;
  (* FastQc *)
  nogroup : bool;
  outdir : string;
  contaminants : option string;
  (* Sailfish *)
  strand : string;
  orient : string;
  threads : string;
  (* BWA *)
  remove_unique : bool;
  set_nh : bool
}.

Definition set_datatype (v : string) (o : Self) : Self :=
  mkSelf (executable o) v (preserve_colourspace o) (compress o) (convert o)
    (strip_sequence o) (remove_non_unique o) (tmpdir_fastq o) (tmpdir o)
    (tmpdir_tophat o) (nogroup o) (outdir o) (contaminants o) (strand o)
    (orient o) (threads o) (remove_unique o) (set_nh o).

Definition set_tmpdir_fastq (v : string) (o : Self) : Self :=
  mkSelf (executable o) (datatype o) (preserve_colourspace o) (compress o)
    (convert o) (strip_sequence o) (remove_non_unique o) (Some v) (tmpdir o)
    (tmpdir_tophat o) (nogroup o) (outdir o) (contaminants o) (strand o)
    (orient o) (threads o) (remove_unique o) (set_nh o).

Definition set_tmpdir (v : string) (o : Self) : Self :=
  mkSelf (executable o) (datatype o) (preserve_colourspace o) (compress o)
    (convert o) (strip_sequence o) (remove_non_unique o) (tmpdir_fastq o)
    (Some v) (tmpdir_tophat o) (nogroup o) (outdir o) (contaminants o)
    (strand o) (orient o) (threads o) (remove_unique o) (set_nh o).

Definition set_tmpdir_tophat (v : string) (o : Self) : Self :=
  mkSelf (executable o) (datatype o) (preserve_colourspace o) (compress o)
    (convert o) (strip_sequence o) (remove_non_unique o) (tmpdir_fastq o)
    (tmpdir o) (Some v) (nogroup o) (outdir o) (contaminants o) (strand o)
    (orient o) (threads o) (remove_unique o) (set_nh o).

(** The state that a method can change: the object and the number of
    temporary directories handed out so far. *)
Record State : Type := mkState {
  self : Self;
  ntemp : nat
}.

(** A method body: it reads and changes the state, and returns or raises. *)
Definition M (A : Type) : Type := State -> result (A * State).

Definition ret {A} (a : A) : M A := fun st => Ok (a, st).

Definition bind {A B} (m : M A) (k : A -> M B) : M B :=
  fun st =>
    match m st with
    | Ok (a, st') => k a st'
    | Raise e => Raise e
    end.

Definition raise {A} (e : exn) : M A := fun _ => Raise e.

Definition lift {A} (r : result A) : M A :=
  fun st => match r with Ok a => Ok (a, st) | Raise e => Raise e end.

Definition get_self : M Self := fun st => Ok (self st, st).

Definition modify_self (f : Self -> Self) : M unit :=
  fun st => Ok (tt, mkState (f (self st)) (ntemp st)).

(** Reading an attribute that no assignment has set yet. *)
Definition attr (name : string) (v : option string) : M string :=
  match v with
  | Some s => ret s
  | None => raise (AttributeError name)
  end.

(** [assert cond, msg] *)
Definition assert (cond : bool) (msg : string) : M unit :=
  if cond then ret tt else raise (AssertionError msg).

Declare Scope py_scope.
Delimit Scope py_scope with py.
Notation "x <- m ;; k" := (bind m (fun x => k))
  (at level 61, m at next level, right associativity) : py_scope.
Notation "m ;;; k" := (bind m (fun _ => k))
  (at level 61, right associativity) : py_scope.
Local Open Scope py_scope.

(** [P.getTempDir()] *)
Definition getTempDir (env : Env) : M string :=
  fun st => Ok (tempdir_name env (ntemp st), mkState (self st) (S (ntemp st))).

(** [for x in l: body], the body changing the loop variables [V]. *)
Fixpoint for_each {A V : Type} (body : V -> A -> M V) (l : list A) (v : V)
  : M V :=
  match l with
  | [] => ret v
  | x :: l' => v' <- body v x ;; for_each body l' v'
  end.

(** [sorted(l)] on strings. *)
Fixpoint insert_sorted (x : string) (l : list string) : list string :=
  match l with
  | [] => [x]
  | y :: l' => if String.leb x y then x :: l else y :: insert_sorted x l'
  end.

Definition sorted (l : list string) : list string :=
  fold_right insert_sorted [] l.

(** ** The command templates of [Mapper.preprocess] *)

(** single end illumina export ([*.export.txt.gz]) *)
Definition tpl_export : string :=
  "gunzip < %(infile)s
                | awk '$11 != " ++ dq ++ "QC" ++ dq ++ " || $10 ~ /(\d+):(\d+):(\d+)/                 {if ($1 != " ++ dq ++ dq ++ ")
                {readname=sprintf(" ++ dq ++ "%%%%s_%%%%s:%%%%s:%%%%s:%%%%s:%%%%s" ++ dq ++ ",
                $1, $2, $3, $4, $5, $6);}
                else {readname=sprintf(" ++ dq ++ "%%%%s:%%%%s:%%%%s:%%%%s:%%%%s" ++ dq ++ ",
                $1, $3, $4, $5, $6);}
                printf(" ++ dq ++ "@%%%%s\n%%%%s\n+\n%%%%s\n" ++ dq ++ ",readname,$9,$10);}'
                %(compress_cmd)s
                > %(tmpdir_fastq)s/%(track)s.fastq%(extension)s".

(** [*.fa.gz] *)
Definition tpl_fa : string :=
  "gunzip < %(infile)s %(compress_cmd)s
                    > %(tmpdir_fastq)s/%(track)s.fa".

(** [*.sra], one extracted file, converted *)
Definition tpl_sra_single : string :=
  "gunzip < %(infile)s
                        | python %%(scriptsdir)s/fastq2fastq.py
                        --method=change-format --target-format=sanger
                        --guess-format=phred64
                        --log=%(outfile)s.log
                        %(compress_cmd)s
                        > %(tmpdir_fastq)s/%(track)s_converted.fastq%(extension)s
                        ".

(** [*.sra], two extracted files, converted *)
Definition tpl_sra_paired : string :=
  "gunzip < %(infile)s
                        | python %%(scriptsdir)s/fastq2fastq.py
                        --method=change-format --target-format=sanger
                        --guess-format=phred64
                        --log=%(outfile)s.log %(compress_cmd)s
                        > %(tmpdir_fastq)s/%(track)s_converted.1.fastq%(extension)s;
                        gunzip < %(infile2)s
                        | python %%(scriptsdir)s/fastq2fastq.py
                        --method=change-format --target-format=sanger
                        --guess-format=phred64
                        --log=%(outfile)s.log %(compress_cmd)s
                        > %(tmpdir_fastq)s/%(track)s_converted.2.fastq%(extension)s
                        ".

(** [*.fastq.gz], converted *)
Definition tpl_fastq_convert : string :=
  "gunzip < %(infile)s
                    | python %%(scriptsdir)s/fastq2fastq.py
                    --method=change-format --target-format=sanger
                    --guess-format=phred64
                    --log=%(outfile)s.log
                    %(compress_cmd)s
                    > %(tmpdir_fastq)s/%(track)s.fastq%(extension)s".

(** [*.csfasta.gz], colour space preserved: the reads *)
Definition tpl_csfasta : string :=
  "gunzip < %(infile)s
                    > %(tmpdir_fastq)s/%(track)s.csfasta%(extension)s".

(** [*.csfasta.gz], colour space preserved: the qualities *)
Definition tpl_qual : string :=
  "gunzip < %(quality)s
                    > %(tmpdir_fastq)s/%(track)s.qual%(extension)s".

(** [*.csfasta.gz], converted.  The last conversion of the source
    template has no type character: it ends in [%(extension)] *)
Definition tpl_solid2fastq_single : string :=
  "solid2fastq
                    <(gunzip < %(infile)s) <(gunzip < %(quality)s)
                    %(compress_cmd)s
                    > %(tmpdir_fastq)s/%(track)s.fastq%(extension)".

(** [*.csfasta.F3.gz], colour space preserved: one of the four files *)
Definition tpl_colour_paired : string :=
  "gunzip < %(fn)s.gz
                        %(compress_cmd)s
                        > %(tmpdir_fastq)s/%(track)s.%(suffix)s%(extension)s
                        ".

(** [*.csfasta.F3.gz], converted *)
Definition tpl_solid2fastq_f3 : string :=
  "solid2fastq
                    <(gunzip < %(infile)s) <(gunzip < %(quality)s)
                    %(compress_cmd)s
                    > %(tmpdir_fastq)s/%(track)s.fastq%(extension)s".

(** [*.fastq.1.gz], converted *)
Definition tpl_paired_convert : string :=
  "gunzip < %(infile)s
                    | python %%(scriptsdir)s/fastq2fastq.py
                    --method=change-format --target-format=sanger
                    --guess-format=phred64
                    --log=%(outfile)s.log
                    %(compress_cmd)s
                    > %(tmpdir_fastq)s/%(track)s.1.fastq%(extension)s;
                    gunzip < %(infile2)s
                    | python %%(scriptsdir)s/fastq2fastq.py
                    --method=change-format --target-format=sanger
                    --guess-format=phred64
                    --log=%(outfile)s.log
                    %(compress_cmd)s
                    > %(tmpdir_fastq)s/%(track)s.2.fastq%(extension)s
                    ".

(** ** [Mapper.quoteFile] *)

Definition quoteFile (o : Self) (filename : string) : string :=
  if endswith filename ".gz" && negb (compress o)
  then "<( gunzip < " ++ filename ++ " )"
  else filename.

(** ** [Mapper.preprocess] *)

(** The variables of [preprocess] that the loop over [infiles] changes. *)
Record PreVars : Type := mkPreVars {
  statement : list string;
  fastqfiles : list (list string);
  track : string
}.

Section Preprocess.

Variable env : Env.
Variable outfile : string.
(** Assigned once, before the loop. *)
Variables tmpdir_fastq compress_cmd extension : string.

(** [locals()] inside the loop.  [more] holds the variables that only
    the branch at hand has assigned.  The values of [self] and of the
    lists are objects that no template of the method names. *)
Definition pre_locals (v : PreVars) (infile : string) (more : locals)
  : locals :=
  ([ ("self", PObj "<Mapper>"); ("infiles", PObj "<list>");
    ("outfile", PStr outfile); ("tmpdir_fastq", PStr tmpdir_fastq);
    ("statement", PObj "<list>"); ("fastqfiles", PObj "<list>");
    ("track", PStr (track v)); ("compress_cmd", PStr compress_cmd);
    ("extension", PStr extension); ("infile", PStr infile) ] ++ more)%list.

(** [statement.append(s)] *)
Definition add_statement (s : string) (v : PreVars) : PreVars :=
  mkPreVars (statement v ++ [s])%list (fastqfiles v) (track v).

(** [fastqfiles.append(g)] *)
Definition add_fastqfiles (g : list string) (v : PreVars) : PreVars :=
  mkPreVars (statement v) (fastqfiles v ++ [g])%list (track v).

Definition set_track (t : string) (v : PreVars) : PreVars :=
  mkPreVars (statement v) (fastqfiles v) t.

(** The body of [for suffix in ("csfasta.F3", ...)]: the loop changes
    [statement] and the list [f]. *)
Definition colour_paired_body (infile bn : string)
    (vf : PreVars * list string) (suffix : string)
  : M (PreVars * list string) :=
  let (v, f) := vf in
  let fn := bn ++ "." ++ suffix in
  if negb (path_exists env (fn ++ ".gz")) then
    raise (ValueError ("expected file " ++ fn ++ ".gz missing"))
  else
    let d := pre_locals v infile
               [("bn", PStr bn); ("f", PObj "<list>");
                ("suffix", PStr suffix); ("fn", PStr fn)] in
    cmd <- lift (format tpl_colour_paired d) ;;
    name <- lift (format
              "%(tmpdir_fastq)s/%(track)s.%(suffix)s%(extension)s" d) ;;
    ret (add_statement cmd v, (f ++ [name])%list).

(** The branch [infile.endswith(".sra")]. *)
Definition preprocess_sra (v : PreVars) (infile : string) : M PreVars :=
  outdir <- getTempDir env ;;
  peeked <- lift (sra_peek env infile outdir) ;;
  let (f, fmt) := peeked : list string * list string in
  let v := add_statement (sra_extract env infile tmpdir_fastq) v in
  let sra_extraction_files :=
    map (fun x => tmpdir_fastq ++ "/" ++ basename x) (sorted f) in
  o <- get_self ;;
  if str_in "sanger" fmt && convert o then
    match sra_extraction_files with
    | [infile] =>
        let v := set_track (splitext_root (basename infile)) v in
        let d := pre_locals v infile
                   [("outdir", PStr outdir); ("f", PObj "<list>");
                    ("format", PObj "<list>");
                    ("sra_extraction_files", PObj "<list>")] in
        cmd <- lift (format tpl_sra_single d) ;;
        name <- lift (format
          "%(tmpdir_fastq)s/%(track)s_converted.fastq%(extension)s" d) ;;
        ret (add_fastqfiles [name] (add_statement cmd v))
    | [infile; infile2] =>
        let v := set_track (splitext_root (basename infile)) v in
        let d := pre_locals v infile
                   [("outdir", PStr outdir); ("f", PObj "<list>");
                    ("format", PObj "<list>");
                    ("sra_extraction_files", PObj "<list>");
                    ("infile2", PStr infile2)] in
        cmd <- lift (format tpl_sra_paired d) ;;
        ret (add_fastqfiles
               [tmpdir_fastq ++ "/" ++ track v ++ "_converted.1.fastq"
                  ++ extension;
                tmpdir_fastq ++ "/" ++ track v ++ "_converted.2.fastq"
                  ++ extension]
               (add_statement cmd v))
    | _ => ret v
    end
  else ret (add_fastqfiles sra_extraction_files v).

(** The branch [infile.endswith(".csfasta.gz")]: single end SOLiD data. *)
Definition preprocess_csfasta (v : PreVars) (infile : string) : M PreVars :=
  o <- get_self ;;
  if preserve_colourspace o then
    stem <- lift (snip env infile ".csfasta.gz") ;;
    let quality := stem ++ ".qual.gz" in
    if negb (path_exists env quality) then
      raise (ValueError ("no quality file for " ++ infile))
    else
      let d := pre_locals v infile [("quality", PStr quality)] in
      cmd1 <- lift (format tpl_csfasta d) ;;
      cmd2 <- lift (format tpl_qual d) ;;
      modify_self (set_datatype "solid") ;;;
      ret (add_fastqfiles
             [tmpdir_fastq ++ "/" ++ track v ++ ".csfasta" ++ extension;
              tmpdir_fastq ++ "/" ++ track v ++ ".qual" ++ extension]
             (add_statement cmd2 (add_statement cmd1 v)))
  else
    stem <- lift (snip env infile ".csfasta.gz") ;;
    let quality := stem ++ ".qual.gz" in
    let d := pre_locals v infile [("quality", PStr quality)] in
    cmd <- lift (format tpl_solid2fastq_single d) ;;
    ret (add_fastqfiles
           [tmpdir_fastq ++ "/" ++ track v ++ ".fastq" ++ extension]
           (add_statement cmd v)).

(** The branch [infile.endswith(".csfasta.F3.gz")]: paired end SOLiD
    data. *)
Definition preprocess_csfasta_F3 (v : PreVars) (infile : string)
  : M PreVars :=
  o <- get_self ;;
  if preserve_colourspace o then
    bn <- lift (snip env infile ".csfasta.F3.gz") ;;
    vf <- for_each (colour_paired_body infile bn)
            ["csfasta.F3"; "csfasta.F5"; "qual.F3"; "qual.F5"] (v, []) ;;
    modify_self (set_datatype "solid") ;;;
    ret (add_fastqfiles (snd vf) (fst vf))
  else
    stem <- lift (snip env infile ".csfasta.gz") ;;
    let quality := stem ++ ".qual.gz" in
    let d := pre_locals v infile [("quality", PStr quality)] in
    cmd <- lift (format tpl_solid2fastq_f3 d) ;;
    ret (add_fastqfiles
           [tmpdir_fastq ++ "/" ++ track v ++ ".fastq" ++ extension]
           (add_statement cmd v)).

(** The branch [infile.endswith(".fastq.1.gz")]: the first file of a
    pair; the second one is looked up by its name. *)
Definition preprocess_paired (v : PreVars) (infile : string) : M PreVars :=
  bn <- lift (snip env infile ".fastq.1.gz") ;;
  let infile2 := bn ++ ".fastq.2.gz" in
  if negb (path_exists env infile2) then
    raise (ValueError ("can not find paired ended file '" ++ infile2
                         ++ "' for '" ++ infile ++ "'"))
  else
    fmt <- lift (guessFormat env infile) ;;
    if negb (str_in "sanger" fmt) then
      let d := pre_locals v infile
                 [("bn", PStr bn); ("infile2", PStr infile2);
                  ("format", PObj "<list>")] in
      cmd <- lift (format tpl_paired_convert d) ;;
      ret (add_fastqfiles
             [tmpdir_fastq ++ "/" ++ track v ++ ".1.fastq" ++ extension;
              tmpdir_fastq ++ "/" ++ track v ++ ".2.fastq" ++ extension]
             (add_statement cmd v))
    else ret (add_fastqfiles [infile; infile2] v).

(** The body of [for infile in infiles]. *)
Definition preprocess_step (v : PreVars) (infile : string) : M PreVars :=
  if endswith infile ".export.txt.gz" then
    cmd <- lift (format tpl_export (pre_locals v infile [])) ;;
    ret (add_fastqfiles
           [tmpdir_fastq ++ "/" ++ track v ++ ".fastq" ++ extension]
           (add_statement cmd v))
  else if endswith infile ".fa.gz" then
    cmd <- lift (format tpl_fa (pre_locals v infile [])) ;;
    modify_self (set_datatype "fasta") ;;;
    ret (add_fastqfiles [tmpdir_fastq ++ "/" ++ track v ++ ".fa"]
           (add_statement cmd v))
  else if endswith infile ".sra" then preprocess_sra v infile
  else if endswith infile ".fastq.gz" then
    fmt <- lift (guessFormat env infile) ;;
    o <- get_self ;;
    if negb (str_in "sanger" fmt) && convert o then
      cmd <- lift (format tpl_fastq_convert
                     (pre_locals v infile [("format", PObj "<list>")])) ;;
      ret (add_fastqfiles
             [tmpdir_fastq ++ "/" ++ track v ++ ".fastq" ++ extension]
             (add_statement cmd v))
    else ret (add_fastqfiles [infile] v)
  else if endswith infile ".csfasta.gz" then preprocess_csfasta v infile
  else if endswith infile ".csfasta.F3.gz" then
    preprocess_csfasta_F3 v infile
  else if endswith infile ".fastq.1.gz" then preprocess_paired v infile
  else raise (NotImplementedError ("unknown file format " ++ infile)).

End Preprocess.

Definition preprocess (env : Env) (infiles : list string) (outfile : string)
  : M (string * list (list string)) :=
  assert (Nat.ltb 0 (List.length infiles)) "no input files for mapping" ;;;
  tmpdir_fastq <- getTempDir env ;;
  o <- get_self ;;
  let compress_cmd := if compress o then "| gzip" else EmptyString in
  let extension := if compress o then ".gz" else EmptyString in
  v <- for_each (preprocess_step env outfile tmpdir_fastq compress_cmd
                   extension)
         infiles
         (mkPreVars ["mkdir -p " ++ tmpdir_fastq] []
            (splitext_root (basename outfile))) ;;
  modify_self (set_tmpdir_fastq tmpdir_fastq) ;;;
  assert (Nat.ltb 0 (List.length (fastqfiles v)))
    "no fastq files for mapping" ;;;
  ret (join "; " (statement v) ++ ";", fastqfiles v).

(** ** [Mapper.mapper], [Mapper.postprocess], [Mapper.cleanup] *)

Definition Mapper_mapper (env : Env) (infiles : list (list string))
    (outfile : string) : M string :=
  ret EmptyString.

Definition Mapper_postprocess (env : Env) (infiles : list string)
    (outfile : string) : M string :=
  ret EmptyString.

Definition Mapper_cleanup (env : Env) (outfile : string) : M string :=
  o <- get_self ;;
  d <- attr "tmpdir_fastq" (tmpdir_fastq o) ;;
  ret ("rm -rf " ++ d ++ ";").

(** ** The four methods of a class, and [Mapper.build]

    [build] calls the methods through [self]: a subclass that overrides
    one of them changes what [build] calls.  A class is the record of
    its four methods. *)

Record Strategy : Type := mkStrategy {
  s_preprocess : Env -> list string -> string
                 -> M (string * list (list string));
  s_mapper : Env -> list (list string) -> string -> M string;
  s_postprocess : Env -> list string -> string -> M string;
  s_cleanup : Env -> string -> M string
}.

(** The separator of the four statements. *)
Definition checkpoint : string := " checkpoint; ".

Definition build (C : Strategy) (env : Env) (infiles : list string)
    (outfile : string) : M string :=
  pre <- s_preprocess C env infiles outfile ;;
  let cmd_preprocess := fst pre in
  let mapfiles := snd pre in
  cmd_mapper <- s_mapper C env mapfiles outfile ;;
  cmd_postprocess <- s_postprocess C env infiles outfile ;;
  cmd_clean <- s_cleanup C env outfile ;;
  assert (endswith (strip cmd_preprocess) ";") EmptyString ;;;
  assert (endswith (strip cmd_mapper) ";") EmptyString ;;;
  (if truthy cmd_postprocess
   then assert (endswith (strip cmd_postprocess) ";") EmptyString
   else ret tt) ;;;
  (if truthy cmd_clean
   then assert (endswith (strip cmd_clean) ";") EmptyString
   else ret tt) ;;;
  ret (join checkpoint
         [cmd_preprocess; cmd_mapper; cmd_postprocess; cmd_clean]).

Definition Mapper : Strategy :=
  mkStrategy preprocess Mapper_mapper Mapper_postprocess Mapper_cleanup.

(** ** What the mappers of the aligners share *)

(** [max(l)] and [min(l)] on a list of numbers. *)
Definition py_max (l : list nat) : result nat :=
  match l with
  | [] => Raise (ValueError "max() arg is an empty sequence")
  | x :: r => Ok (fold_left Nat.max r x)
  end.

Definition py_min (l : list nat) : result nat :=
  match l with
  | [] => Raise (ValueError "min() arg is an empty sequence")
  | x :: r => Ok (fold_left Nat.min r x)
  end.

(** The lines that open the mapper of every aligner:
[[
    num_files = [len(x) for x in infiles]
    if max(num_files) != min(num_files):
        raise ValueError(
            "mixing single and paired-ended data not possible.")
    nfiles = max(num_files)
]] *)
Definition count_files (infiles : list (list string)) : result nat :=
  let num_files := map (@List.length string) infiles in
  rbind (py_max num_files) (fun hi =>
  rbind (py_min num_files) (fun lo =>
  if negb (Nat.eqb hi lo) then
    Raise (ValueError "mixing single and paired-ended data not possible.")
  else py_max num_files)).

(** [x[i]] *)
Definition item {A} (x : list A) (i : nat) : result A :=
  match nth_error x i with
  | Some s => Ok s
  | None => Raise (IndexError "list index out of range")
  end.

(** [[f(x) for x in l]] where [f] can raise. *)
Fixpoint comprehension {A B} (f : A -> result B) (l : list A)
  : result (list B) :=
  match l with
  | [] => Ok []
  | x :: l' =>
      rbind (f x) (fun y =>
      rbind (comprehension f l') (fun ys => Ok (y :: ys)))
  end.

(** [enumerate(l)] *)
Definition enumerate {A} (l : list A) : list (nat * A) :=
  combine (seq 0 (List.length l)) l.

(** [str(v)] of an attribute that is [None] or a string. *)
Definition opt_val (v : option string) : pyval :=
  match v with Some s => PStr s | None => PNone end.

(** ** [class FastQc] *)

(** [FastQc.mapper], [self.nogroup] set *)
Definition tpl_fastqc_nogroup : string :=
  "fastqc --extract --outdir=%(outdir)s --nogroup %(x)s
                        %(contaminants_cmd)s >& %(outfile)s ;
                        rm -f %(contaminats)s ; ".

(** [FastQc.mapper], [self.nogroup] not set *)
Definition tpl_fastqc : string :=
  "fastqc --extract --outdir=%(outdir)s %(x)s
                        %(contaminants_cmd)s >& %(outfile)s ;
                        rm -f %(contaminants)s ; ".

(** The body of [for i, x in enumerate(f)].  The loop changes the list
    [statement]; [locals()] holds every name that the method binds. *)
Definition FastQc_body (o : Self) (infiles : list (list string))
    (outfile : string) (f : list string)
    (statement : list string) (ix : nat * string) : M (list string) :=
  let i := fst ix in
  let x := snd ix in
  let track := basename (re_sub_fastq false x) in
  let contaminants_cmd :=
    match contaminants o with
    | Some c => if truthy c then "-a " ++ c else EmptyString
    | None => EmptyString
    end in
  let d := [ ("self", PObj "<FastQc>"); ("infiles", PObj "<list>");
             ("outfile", PStr outfile);
             ("contaminants", opt_val (contaminants o));
             ("outdir", PStr (outdir o)); ("statement", PObj "<list>");
             ("f", PObj "<list>"); ("i", PInt i); ("x", PStr x);
             ("track", PStr track);
             ("contaminants_cmd", PStr contaminants_cmd) ] in
  if nogroup o then
    cmd <- lift (format tpl_fastqc_nogroup d) ;;
    ret (statement ++ [cmd])%list
  else
    cmd <- lift (format tpl_fastqc d) ;;
    ret (statement ++ [cmd])%list.

Definition FastQc_mapper (env : Env) (infiles : list (list string))
    (outfile : string) : M string :=
  o <- get_self ;;
  statement <- for_each
                 (fun statement f =>
                    for_each (FastQc_body o infiles outfile f)
                      (enumerate f) statement)
                 infiles [] ;;
  ret (join " " statement).

Definition FastQc : Strategy :=
  mkStrategy preprocess FastQc_mapper Mapper_postprocess Mapper_cleanup.

(** ** [class Counter] *)

(** [Counter.mapper] *)
Definition tpl_counter : string :=
  "zcat %(x)s
                | awk '{n+=1;} END {printf(" ++ dq ++ "nreads\t%%%%i\n" ++ dq ++ ",n/4);}'
                >> %(outfile)s;".
Definition Counter_mapper (env : Env) (infiles : list (list string))
    (outfile : string) : M string :=
  statement <- for_each
                 (fun statement f =>
                    let x := join " " f in
                    let d := [ ("self", PObj "<Counter>");
                               ("infiles", PObj "<list>");
                               ("outfile", PStr outfile);
                               ("statement", PObj "<list>");
                               ("f", PObj "<list>"); ("x", PStr x) ] in
                    cmd <- lift (format tpl_counter d) ;;
                    ret (statement ++ [cmd])%list)
                 infiles [] ;;
  ret (join " " statement).

Definition Counter : Strategy :=
  mkStrategy preprocess Counter_mapper Mapper_postprocess Mapper_cleanup.

(** ** [class Sailfish] *)

(** [Sailfish.mapper]: the command *)
Definition tpl_sailfish_quant : string :=
  "sailfish quant -i %%(index)s".

(** [Sailfish.mapper]: the two files of a pair *)
Definition tpl_sailfish_paired_input : string :=
  "-1 <(zcat %(infile1)s)
                            -2 <(zcat %(infile2)s)".

(** [Sailfish.mapper]: library type, input and output *)
Definition tpl_sailfish_run : string :=
  "-l %(library)s %(input_file)s -o %%(outdir)s
                             -f --threads %(threads)s;".

(** [Sailfish.postprocess] *)
Definition tpl_sailfish_post : string :=
  "sed -i " ++ dq ++ "s/# Transcript/Transcript/g" ++ dq ++ "
                     %%(outdir)s/quant.sf;
                     mv %%(outdir)s/quant.sf
                     %%(outdir)s/%%(sample)s_quant.sf;".

(** [infile1, infile2 = infiles[0]] *)
Definition unpack_pair (infiles : list (list string))
  : result (string * string) :=
  match infiles with
  | [] => Raise (IndexError "list index out of range")
  | [a; b] :: _ => Ok (a, b)
  | [] :: _ | [_] :: _ => Raise (ValueError "need more values to unpack")
  | _ :: _ => Raise (ValueError "too many values to unpack")
  end.

Definition Sailfish_mapper (env : Env) (infiles : list (list string))
    (outfile : string) : M string :=
  o <- get_self ;;
  let threads := threads o in
  let base := [ ("self", PObj "<Sailfish>"); ("infiles", PObj "<list>");
                ("outfile", PStr outfile); ("threads", PStr threads) ] in
  quant <- lift (format tpl_sailfish_quant base) ;;
  nfiles <- lift (count_files infiles) ;;
  if Nat.eqb nfiles 1 then
    first <- lift (rbind (item infiles 0) (fun g => item g 0)) ;;
    let input_file := "-r <(zcat " ++ first ++ ")" in
    strandedness <-
      (if String.eqb (strand o) "sense" then ret ("S=S" ++ dq)
       else if String.eqb (strand o) "antisense" then ret ("S=A" ++ dq)
       else if String.eqb (strand o) "unknown" then ret ("S=U" ++ dq)
       else raise (UnboundLocalError "strandedness")) ;;
    let library := join EmptyString [dq ++ "T=SE:"; strandedness] in
    run <- lift (format tpl_sailfish_run
                   (base ++ [ ("statement", PObj "<list>");
                              ("num_files", PObj "<list>");
                              ("nfiles", PInt nfiles);
                              ("input_file", PStr input_file);
                              ("library", PStr library);
                              ("strandedness", PStr strandedness) ])%list) ;;
    ret (join " " [quant; run])
  else if Nat.eqb nfiles 2 then
    pair <- lift (unpack_pair infiles) ;;
    let more := [ ("statement", PObj "<list>"); ("num_files", PObj "<list>");
                  ("nfiles", PInt nfiles); ("infile1", PStr (fst pair));
                  ("infile2", PStr (snd pair)) ] in
    input_file <- lift (format tpl_sailfish_paired_input
                          (base ++ more)%list) ;;
    orientation <-
      (if String.eqb (orient o) "towards" then ret "O=><:"
       else if String.eqb (orient o) "away" then ret "O=<>:"
       else if String.eqb (orient o) "same" then ret "O=>>:"
       else raise (UnboundLocalError "orientation")) ;;
    strandedness <-
      (if String.eqb (strand o) "sense" then ret ("S=SA" ++ dq)
       else if String.eqb (strand o) "antisense" then ret ("S=AS" ++ dq)
       else if String.eqb (strand o) "unknown" then ret ("S=U" ++ dq)
       else raise (UnboundLocalError "strandedness")) ;;
    let library :=
      join EmptyString [dq ++ "T=PE:"; orientation; strandedness] in
    run <- lift (format tpl_sailfish_run
                   (base ++ more ++
                    [ ("input_file", PStr input_file);
                      ("library", PStr library);
                      ("orientation", PStr orientation);
                      ("strandedness", PStr strandedness) ])%list) ;;
    ret (join " " [quant; run])
  else raise (ValueError "incorrect number of input files").

Definition Sailfish_postprocess (env : Env) (infiles : list string)
    (outfile : string) : M string :=
  lift (format tpl_sailfish_post
          [ ("self", PObj "<Sailfish>"); ("infiles", PObj "<list>");
            ("outfile", PStr outfile) ]).

Definition Sailfish : Strategy :=
  mkStrategy preprocess Sailfish_mapper Sailfish_postprocess Mapper_cleanup.

(** ** [class BWA] *)

(** [BWA.mapper], one file per group *)
Definition tpl_bwa_single : string :=
  "
            bwa aln %%(bwa_aln_options)s -t %%(bwa_threads)i
            %(index_prefix)s %(infiles)s
            > %(tmpdir)s/%(track)s.sai 2>>%(outfile)s.bwa.log;
            bwa samse %%(bwa_index_dir)s/%%(genome)s
            %(tmpdir)s/%(track)s.sai %(infiles)s
            > %(tmpdir)s/%(track)s.sam 2>>%(outfile)s.bwa.log;
            ".

(** [BWA.mapper], two files per group *)
Definition tpl_bwa_paired : string :=
  "
            bwa aln %%(bwa_aln_options)s -t %%(bwa_threads)i
            %(index_prefix)s %(infiles1)s
            > %(tmpdir)s/%(track1)s.sai 2>>%(outfile)s.bwa.log; checkpoint;
            bwa aln %%(bwa_aln_options)s -t %%(bwa_threads)i
            %(index_prefix)s %(infiles2)s
            > %(tmpdir)s/%(track2)s.sai 2>>%(outfile)s.bwa.log; checkpoint;
            bwa sampe %%(bwa_sampe_options)s %(index_prefix)s
                      %(tmpdir)s/%(track1)s.sai %(tmpdir)s/%(track2)s.sai
                      %(infiles1)s %(infiles2)s
            > %(tmpdir)s/%(track)s.sam 2>>%(outfile)s.bwa.log;
            ".

(** [BWA.postprocess]: [remove_non_unique] *)
Definition tpl_bwa_unique : string :=
  "| python %%(scriptsdir)s/bam2bam.py
            --method=filter
            --filter-method=unique, mapped
            --log=%(outfile)s.log".

(** [BWA.postprocess]: [strip_sequence] *)
Definition tpl_bwa_strip : string :=
  "| python %%(scriptsdir)s/bam2bam.py
            --strip-method=all
            --method=strip-sequence
            --log=%(outfile)s.log".

(** [BWA.postprocess]: [set_nh] *)
Definition tpl_bwa_set_nh : string :=
  "| python %%(scriptsdir)s/bam2bam.py
            --method=set-nh
            --log=%(outfile)s.log".

(** [BWA.postprocess] *)
Definition tpl_bwa_post : string :=
  "
                samtools view -uS %(tmpdir)s/%(track)s.sam
                %(unique_cmd)s
                %(strip_cmd)s
                %(set_nh_cmd)s
                | samtools sort - %(outf)s 2>>%(outfile)s.bwa.log;
                samtools index %(outfile)s;".

(** [",".join([self.quoteFile(x[i]) for x in infiles])] *)
Definition quoted_column (o : Self) (i : nat) (infiles : list (list string))
  : result string :=
  rbind (comprehension (fun x => rbind (item x i) (fun s => Ok (quoteFile o s)))
           infiles)
        (fun l => Ok (join "," l)).

Definition BWA_mapper (env : Env) (infiles : list (list string))
    (outfile : string) : M string :=
  nfiles <- lift (count_files infiles) ;;
  o <- get_self ;;
  tmpdir_fastq <- attr "tmpdir_fastq" (tmpdir_fastq o) ;;
  let tmpdir := tmpdir_fastq ++ "bwa" in
  let statement := ["mkdir -p " ++ tmpdir ++ ";"] in
  let data_options0 := ["%(bwa_aln_options)s"] in
  let data_options1 :=
    if String.eqb (datatype o) "solid" then (data_options0 ++ ["-c"])%list
    else data_options0 in
  let index_prefix :=
    if String.eqb (datatype o) "solid" then "%(bwa_index_dir)s/%(genome)s_cs"
    else if String.eqb (datatype o) "fasta" then "%(bwa_index_dir)s/%(genome)s"
    else "%(bwa_index_dir)s/%(genome)s" in
  let data_options := join " " data_options1 in
  track <- lift (snip env (basename outfile) ".bam") ;;
  let base := [ ("self", PObj "<BWA>"); ("outfile", PStr outfile);
                ("num_files", PObj "<list>"); ("nfiles", PInt nfiles);
                ("tmpdir", PStr tmpdir); ("statement", PObj "<list>");
                ("tmpdir_fastq", PStr tmpdir_fastq);
                ("data_options", PStr data_options);
                ("index_prefix", PStr index_prefix);
                ("track", PStr track) ] in
  statement <-
    (if Nat.eqb nfiles 1 then
       infiles <- lift (quoted_column o 0 infiles) ;;
       cmd <- lift (format tpl_bwa_single
                      (base ++ [("infiles", PStr infiles)])%list) ;;
       ret (statement ++ [cmd])%list
     else if Nat.eqb nfiles 2 then
       let track1 := track ++ ".1" in
       let track2 := track ++ ".2" in
       infiles1 <- lift (quoted_column o 0 infiles) ;;
       infiles2 <- lift (quoted_column o 1 infiles) ;;
       cmd <- lift (format tpl_bwa_paired
                      (base ++ [ ("infiles", PObj "<list>");
                                 ("track1", PStr track1);
                                 ("track2", PStr track2);
                                 ("infiles1", PStr infiles1);
                                 ("infiles2", PStr infiles2) ])%list) ;;
       ret (statement ++ [cmd])%list
     else
       raise (ValueError ("unexpected number read files to map: "
                            ++ str_of_nat nfiles ++ " "))) ;;
  modify_self (set_tmpdir tmpdir) ;;;
  ret (join " " statement).

Definition BWA_postprocess (env : Env) (infiles : list string)
    (outfile : string) : M string :=
  track <- lift (snip env (basename outfile) ".bam") ;;
  outf <- lift (snip env outfile ".bam") ;;
  o <- get_self ;;
  tmpdir <- attr "tmpdir" (tmpdir o) ;;
  let d0 := [ ("self", PObj "<BWA>"); ("infiles", PObj "<list>");
              ("outfile", PStr outfile); ("track", PStr track);
              ("outf", PStr outf); ("tmpdir", PStr tmpdir) ] in
  let none := [ ("strip_cmd", PStr EmptyString);
                ("unique_cmd", PStr EmptyString);
                ("set_nh_cmd", PStr EmptyString) ] in
  unique_cmd <- (if remove_non_unique o
                 then lift (format tpl_bwa_unique (d0 ++ none)%list)
                 else ret EmptyString) ;;
  strip_cmd <- (if strip_sequence o
                then lift (format tpl_bwa_strip (d0 ++ none)%list)
                else ret EmptyString) ;;
  set_nh_cmd <- (if set_nh o
                 then lift (format tpl_bwa_set_nh (d0 ++ none)%list)
                 else ret EmptyString) ;;
  lift (format tpl_bwa_post
          (d0 ++ [ ("strip_cmd", PStr strip_cmd);
                   ("unique_cmd", PStr unique_cmd);
                   ("set_nh_cmd", PStr set_nh_cmd) ])%list).

Definition BWA : Strategy :=
  mkStrategy preprocess BWA_mapper BWA_postprocess Mapper_cleanup.

(** ** [class Butter(BWA)] *)

(** [Butter.mapper]: a compressed input *)
Definition tpl_butter_zcat : string :=
  "
                zcat %(infiles)s > %(track_fastq)s; ".

(** [Butter.mapper]: a plain input *)
Definition tpl_butter_cat : string :=
  "
                cat %(infiles)s > %(track_fastq)s; ".

(** [Butter.mapper] *)
Definition tpl_butter_run : string :=
  "
            butter %%(butter_options)s
            %(track_fastq)s
            %%(butter_index_dir)s/%%(genome)s.fa
            --aln_cores=%%(job_threads)s
            --bam2wig=none
            >%(outfile)s.log;
            samtools view -h %(track)s.bam >
            %(tmpdir)s/%(track)s.sam;
            rm -rf ./%(track)s.bam ./%(track)s.bam.bai ./%(track_fastq)s;
            ".

Definition Butter_mapper (env : Env) (infiles : list (list string))
    (outfile : string) : M string :=
  if Nat.ltb 1 (List.length infiles) then
    raise (ValueError "butter can only operate on one fastq file at a time")
  else
    nfiles <- lift (count_files infiles) ;;
    o <- get_self ;;
    tmpdir_fastq <- attr "tmpdir_fastq" (tmpdir_fastq o) ;;
    let tmpdir := tmpdir_fastq ++ "butter" in
    let statement := ["mkdir -p " ++ tmpdir ++ ";"] in
    track <- lift (snip env (basename outfile) ".bam") ;;
    statement <-
      (if Nat.eqb nfiles 1 then
         infiles <- lift (rbind (item infiles 0) (fun g => item g 0)) ;;
         let track_infile := drop_last_field infiles in
         let track_fastq := track ++ ".fastq" in
         let d := [ ("self", PObj "<Butter>"); ("outfile", PStr outfile);
                    ("num_files", PObj "<list>"); ("nfiles", PInt nfiles);
                    ("tmpdir", PStr tmpdir); ("statement", PObj "<list>");
                    ("tmpdir_fastq", PStr tmpdir_fastq);
                    ("track", PStr track); ("infiles", PStr infiles);
                    ("track_infile", PStr track_infile);
                    ("track_fastq", PStr track_fastq) ] in
         copy <- lift (format (if endswith infiles ".gz"
                               then tpl_butter_zcat else tpl_butter_cat) d) ;;
         cmd <- lift (format tpl_butter_run d) ;;
         ret (statement ++ [copy; cmd])%list
       else if Nat.eqb nfiles 2 then
         raise (ValueError "Butter does not support paired end reads ")
       else
         raise (ValueError ("unexpected number of read files to map: "
                              ++ str_of_nat nfiles ++ " "))) ;;
    modify_self (set_tmpdir tmpdir) ;;;
    ret (join " " statement).

Definition Butter_cleanup (env : Env) (outfile : string) : M string :=
  o <- get_self ;;
  d1 <- attr "tmpdir_fastq" (tmpdir_fastq o) ;;
  d2 <- attr "tmpdir" (tmpdir o) ;;
  ret ("rm -rf " ++ d1 ++ " " ++ d2 ++ ";").

Definition Butter : Strategy :=
  mkStrategy preprocess Butter_mapper BWA_postprocess Butter_cleanup.

(** ** [class Tophat] *)

(** [Tophat.mapper], one file per group *)
Definition tpl_tophat_single : string :=
  "
            %(executable)s --output-dir %(tmpdir_tophat)s
                   --num-threads %%(tophat_threads)i
                   --library-type %%(tophat_library_type)s
                   %(data_options)s
                   %%(tophat_options)s
                   %(index_prefix)s
                   %(infiles)s
                   >> %(outfile)s.log 2>&1 ;
            ".

(** [Tophat.mapper], two files per group *)
Definition tpl_tophat_paired : string :=
  "
            %(executable)s --output-dir %(tmpdir_tophat)s
                   --mate-inner-dist %%(tophat_mate_inner_dist)i
                    --num-threads %%(tophat_threads)i
                   --library-type %%(tophat_library_type)s
                   %(data_options)s
                   %%(tophat_options)s
                   %(index_prefix)s
                   %(infiles1)s %(infiles2)s
                   >> %(outfile)s.log 2>&1 ;
            ".

(** [Tophat.mapper], four files per group *)
Definition tpl_tophat_colour_paired : string :=
  "%(executable)s
                   --output-dir %(tmpdir_tophat)s
                   --mate-inner-dist %%(tophat_mate_inner_dist)i
                   --num-threads %%(tophat_threads)i
                   --library-type %%(tophat_library_type)s
                   %(data_options)s
                   %%(tophat_options)s
                   %(index_prefix)s
                   %(infiles1)s %(infiles2)s
                   %(infiles3)s %(infiles4)s
                   >> %(outfile)s.log 2>&1 ;
            ".

(** [Tophat.postprocess] *)
Definition tpl_tophat_post : string :=
  "
        gzip < %(tmpdir_tophat)s/junctions.bed
        > %(track)s.junctions.bed.gz;
        mv %(tmpdir_tophat)s/logs %(outfile)s.logs;
        mv %(tmpdir_tophat)s/accepted_hits.bam %(outfile)s;
        samtools index %(outfile)s;
        ".

(** [",".join([x[i] for x in infiles])] *)
Definition column (i : nat) (infiles : list (list string)) : result string :=
  rbind (comprehension (fun x => item x i) infiles)
        (fun l => Ok (join "," l)).

Definition Tophat_mapper (env : Env) (infiles : list (list string))
    (outfile : string) : M string :=
  o <- get_self ;;
  let executable := executable o in
  nfiles <- lift (count_files infiles) ;;
  tmpdir_fastq <- attr "tmpdir_fastq" (tmpdir_fastq o) ;;
  let tmpdir_tophat := tmpdir_fastq ++ "tophat" in
  let data_options0 :=
    if String.eqb (datatype o) "solid"
    then ["--quals --integer-quals --color"] else [] in
  let index_prefix :=
    if String.eqb (datatype o) "solid"
    then "%(bowtie_index_dir)s/%(genome)s_cs"
    else "%(bowtie_index_dir)s/%(genome)s" in
  let data_options := join " " data_options0 in
  let base := [ ("self", PObj "<Tophat>"); ("outfile", PStr outfile);
                ("executable", PStr executable);
                ("num_files", PObj "<list>"); ("nfiles", PInt nfiles);
                ("tmpdir_tophat", PStr tmpdir_tophat);
                ("tmpdir_fastq", PStr tmpdir_fastq);
                ("data_options", PStr data_options);
                ("index_prefix", PStr index_prefix) ] in
  statement <-
    (if Nat.eqb nfiles 1 then
       infiles <- lift (column 0 infiles) ;;
       lift (format tpl_tophat_single
               (base ++ [("infiles", PStr infiles)])%list)
     else if Nat.eqb nfiles 2 then
       infiles1 <- lift (column 0 infiles) ;;
       infiles2 <- lift (column 1 infiles) ;;
       lift (format tpl_tophat_paired
               (base ++ [ ("infiles", PObj "<list>");
                          ("infiles1", PStr infiles1);
                          ("infiles2", PStr infiles2) ])%list)
     else if Nat.eqb nfiles 4 then
       infiles1 <- lift (column 0 infiles) ;;
       infiles2 <- lift (column 1 infiles) ;;
       infiles3 <- lift (column 2 infiles) ;;
       infiles4 <- lift (column 3 infiles) ;;
       lift (format tpl_tophat_colour_paired
               (base ++ [ ("infiles", PObj "<list>");
                          ("infiles1", PStr infiles1);
                          ("infiles2", PStr infiles2);
                          ("infiles3", PStr infiles3);
                          ("infiles4", PStr infiles4) ])%list)
     else
       raise (ValueError ("unexpected number reads to map: "
                            ++ str_of_nat nfiles ++ " "))) ;;
  modify_self (set_tmpdir_tophat tmpdir_tophat) ;;;
  ret statement.

Definition Tophat_postprocess (env : Env) (infiles : list string)
    (outfile : string) : M string :=
  track <- lift (snip env outfile ".bam") ;;
  o <- get_self ;;
  tmpdir_tophat <- attr "tmpdir_tophat" (tmpdir_tophat o) ;;
  lift (format tpl_tophat_post
          [ ("self", PObj "<Tophat>"); ("infiles", PObj "<list>");
            ("outfile", PStr outfile); ("track", PStr track);
            ("tmpdir_tophat", PStr tmpdir_tophat) ]).

Definition Tophat : Strategy :=
  mkStrategy preprocess Tophat_mapper Tophat_postprocess Mapper_cleanup.

(** ** The objects that the constructors make *)

(** [Mapper(strip_sequence=..., remove_non_unique=...)], with the
    attributes of the class. *)
Definition new_Mapper (strip_sequence remove_non_unique : bool) : Self :=
  {| executable := EmptyString; datatype := "fastq";
     preserve_colourspace := false; compress := false; convert := false;
     strip_sequence := strip_sequence;
     remove_non_unique := remove_non_unique;
     tmpdir_fastq := None; tmpdir := None; tmpdir_tophat := None;
     nogroup := false; outdir := "."; contaminants := None;
     strand := EmptyString; orient := EmptyString; threads := EmptyString;
     remove_unique := false; set_nh := false |}.

(** [FastQc(nogroup, outdir, contaminants)]: [compress = True]; the
    attribute [contaminants] is the file that [parse_contaminants] wrote,
    or [None]. *)
Definition new_FastQc (nogroup : bool) (outdir : string)
    (contaminants : option string) : Self :=
  {| executable := EmptyString; datatype := "fastq";
     preserve_colourspace := false; compress := true; convert := false;
     strip_sequence := false; remove_non_unique := false;
     tmpdir_fastq := None; tmpdir := None; tmpdir_tophat := None;
     nogroup := nogroup; outdir := outdir; contaminants := contaminants;
     strand := EmptyString; orient := EmptyString; threads := EmptyString;
     remove_unique := false; set_nh := false |}.

(** [Counter()]: [compress = True]. *)
Definition new_Counter : Self := new_FastQc false "." None.

(** [Sailfish(compress, strand, orient, threads)] *)
Definition new_Sailfish (compress : bool) (strand orient threads : string)
  : Self :=
  {| executable := EmptyString; datatype := "fastq";
     preserve_colourspace := false; compress := compress; convert := false;
     strip_sequence := false; remove_non_unique := false;
     tmpdir_fastq := None; tmpdir := None; tmpdir_tophat := None;
     nogroup := false; outdir := "."; contaminants := None;
     strand := strand; orient := orient; threads := threads;
     remove_unique := false; set_nh := false |}.

(** [BWA(remove_unique, strip_sequence, set_nh)]; [Butter] inherits the
    constructor. *)
Definition new_BWA (remove_unique strip_sequence set_nh : bool) : Self :=
  {| executable := EmptyString; datatype := "fastq";
     preserve_colourspace := false; compress := false; convert := false;
     strip_sequence := strip_sequence; remove_non_unique := false;
     tmpdir_fastq := None; tmpdir := None; tmpdir_tophat := None;
     nogroup := false; outdir := "."; contaminants := None;
     strand := EmptyString; orient := EmptyString; threads := EmptyString;
     remove_unique := remove_unique; set_nh := set_nh |}.

(** [Tophat()]: [preserve_colourspace = True], [compress = True],
    [executable = "tophat"]. *)
Definition new_Tophat : Self :=
  {| executable := "tophat"; datatype := "fastq";
     preserve_colourspace := true; compress := true; convert := false;
     strip_sequence := false; remove_non_unique := false;
     tmpdir_fastq := None; tmpdir := None; tmpdir_tophat := None;
     nogroup := false; outdir := "."; contaminants := None;
     strand := EmptyString; orient := EmptyString; threads := EmptyString;
     remove_unique := false; set_nh := false |}.

(** An object before the first call of [preprocess]. *)
Definition start (o : Self) : State := mkState o 0.

(** ** The vocabulary of the specification *)

(** The error kinds that the specification names, and the [raise] and
    [assert] statements of the module that they stand for. *)
Inductive ErrorKind : Type :=
| UnsupportedFormat
| MissingMate
| ArityMismatch
| UnsupportedArity
| MalformedFragment
| EmptyInput.

Definition error_kind (e : exn) : option ErrorKind :=
  match e with
  | NotImplementedError _ => Some UnsupportedFormat
  | ValueError msg =>
      if startswith msg "can not find paired ended file"
         || startswith msg "no quality file for"
         || startswith msg "expected file "
      then Some MissingMate
      else if String.eqb msg
                "mixing single and paired-ended data not possible."
      then Some ArityMismatch
      else if startswith msg "unexpected number"
              || String.eqb msg "incorrect number of input files"
              || startswith msg "Butter does not support paired end reads"
      then Some UnsupportedArity
      else None
  | AssertionError msg =>
      if String.eqb msg "no input files for mapping" then Some EmptyInput
      else if String.eqb msg EmptyString then Some MalformedFragment
      else None
  | _ => None
  end.

(** The four method calls of [build] all return: the statements [p], [m],
    [q] and [c] of the four phases, and the state after the last call. *)
Definition phases (C : Strategy) (env : Env) (infiles : list string)
    (outfile : string) (st : State) (p m q c : string) (st4 : State)
  : Prop :=
  exists mapfiles st1 st2 st3,
    s_preprocess C env infiles outfile st = Ok ((p, mapfiles), st1)
    /\ s_mapper C env mapfiles outfile st1 = Ok (m, st2)
    /\ s_postprocess C env infiles outfile st2 = Ok (q, st3)
    /\ s_cleanup C env outfile st3 = Ok (c, st4).

(** What the assertions of [build] accept. *)
Definition accepted (p m q c : string) : bool :=
  endswith (strip p) ";" && endswith (strip m) ";"
  && (negb (truthy q) || endswith (strip q) ";")
  && (negb (truthy c) || endswith (strip c) ";").

(** The plan in the words of the specification: the statements that are
    not empty, joined by the checkpoint separator. *)
Definition plan_of_nonempty (fragments : list string) : string :=
  join checkpoint (filter truthy fragments).

(** The malformed plan in the words of the specification: some statement
    is not empty and does not end with the terminator. *)
Definition some_unterminated (fragments : list string) : bool :=
  existsb (fun s => truthy s && negb (endswith s ";")) fragments.

(** [sub in s] *)
Fixpoint occurs (sub s : string) : bool :=
  startswith s sub
  || match s with
     | EmptyString => false
     | String _ r => occurs sub r
     end.

(** The groups of a read set do not all have one size. *)
Definition mixed (mapfiles : list (list string)) : Prop :=
  exists g1 g2, In g1 mapfiles /\ In g2 mapfiles
                /\ List.length g1 <> List.length g2.

(** The size of a group that [preprocess] returns for the inputs
    [infiles]: one, two or four files, or as many as [Sra.peek] finds in
    an archive among the inputs. *)
Definition group_size_ok (env : Env) (infiles : list string)
    (g : list string) : Prop :=
  List.length g = 1 \/ List.length g = 2 \/ List.length g = 4
  \/ exists infile outdir f fmt,
       In infile infiles /\ endswith infile ".sra" = true
       /\ sra_peek env infile outdir = Ok (f, fmt)
       /\ List.length g = List.length f.

(** ** The statements of [BWA.mapper], written out *)

(** The [i]-th files of all groups, each as [quoteFile] writes it, with
    commas between them. *)
Definition mates (o : Self) (i : nat) (infiles : list (list string))
  : string :=
  join "," (map (fun g => quoteFile o (nth i g EmptyString)) infiles).

(** The index that [BWA.mapper] names for the data type of the reads. *)
Definition bwa_index (o : Self) : string :=
  if String.eqb (datatype o) "solid" then "%(bwa_index_dir)s/%(genome)s_cs"
  else "%(bwa_index_dir)s/%(genome)s".

(** The commands in the statement of [BWA.mapper], as the templates
    [tpl_bwa_paired] and [tpl_bwa_single] lay them out.  [sai] and
    [track] name files in the directory [tmpdir]. *)
Definition pad : string := "            ".

Definition BWA_aln (index reads tmpdir sai outfile : string) : string :=
  "bwa aln %(bwa_aln_options)s -t %(bwa_threads)i" ++ nl
  ++ pad ++ index ++ " " ++ reads ++ nl
  ++ pad ++ "> " ++ tmpdir ++ "/" ++ sai ++ ".sai 2>>" ++ outfile
  ++ ".bwa.log;".

Definition BWA_sampe (index reads1 reads2 tmpdir sai1 sai2 track outfile
    : string) : string :=
  "bwa sampe %(bwa_sampe_options)s " ++ index ++ nl
  ++ pad ++ "          " ++ tmpdir ++ "/" ++ sai1 ++ ".sai "
  ++ tmpdir ++ "/" ++ sai2 ++ ".sai" ++ nl
  ++ pad ++ "          " ++ reads1 ++ " " ++ reads2 ++ nl
  ++ pad ++ "> " ++ tmpdir ++ "/" ++ track ++ ".sam 2>>" ++ outfile
  ++ ".bwa.log;".

Definition BWA_samse (reads tmpdir track outfile : string) : string :=
  "bwa samse %(bwa_index_dir)s/%(genome)s" ++ nl
  ++ pad ++ tmpdir ++ "/" ++ track ++ ".sai " ++ reads ++ nl
  ++ pad ++ "> " ++ tmpdir ++ "/" ++ track ++ ".sam 2>>" ++ outfile
  ++ ".bwa.log;".

(** The statement for groups of two files: the work directory is made,
    then come three commands with a checkpoint after the first and after
    the second: the alignment of the first files, the alignment of the
    second files, and the merge of the two alignments. *)
Definition BWA_paired_statement (index reads1 reads2 tmpdir track outfile
    : string) : string :=
  join " "
    [ "mkdir -p " ++ tmpdir ++ ";";
      nl ++ pad
      ++ join (" checkpoint;" ++ nl ++ pad)
           [ BWA_aln index reads1 tmpdir (track ++ ".1") outfile;
             BWA_aln index reads2 tmpdir (track ++ ".2") outfile;
             BWA_sampe index reads1 reads2 tmpdir (track ++ ".1")
               (track ++ ".2") track outfile ]
      ++ nl ++ pad ].

(** The statement for groups of one file: one alignment, and its
    conversion. *)
Definition BWA_single_statement (index reads tmpdir track outfile : string)
  : string :=
  join " "
    [ "mkdir -p " ++ tmpdir ++ ";";
      nl ++ pad
      ++ join (nl ++ pad)
           [ BWA_aln index reads tmpdir track outfile;
             BWA_samse reads tmpdir track outfile ]
      ++ nl ++ pad ].

(** ** The loop of [preprocess], one run at a time *)

(** The first run of the body of the loop of [preprocess], on the input
    [infile]: the temporary directory has been made and the variables
    have their first values. *)
Definition first_step (env : Env) (infile outfile : string) (st : State)
  : result (PreVars * State) :=
  preprocess_step env outfile (tempdir_name env (ntemp st))
    (if compress (self st) then "| gzip" else EmptyString)
    (if compress (self st) then ".gz" else EmptyString)
    (mkPreVars ["mkdir -p " ++ tempdir_name env (ntemp st)] []
       (splitext_root (basename outfile)))
    infile (mkState (self st) (S (ntemp st))).

(** What one run of the body of the loop does to [fastqfiles] on the
    input [infile]: nothing, or one more group. *)
Definition step_adds (env : Env) (infile : string) (v v' : PreVars) : Prop :=
  fastqfiles v' = fastqfiles v
  \/ exists g,
       fastqfiles v' = (fastqfiles v ++ [g])%list
       /\ (List.length g = 1 \/ List.length g = 2 \/ List.length g = 4
           \/ (endswith infile ".sra" = true
               /\ exists outdir f fmt,
                    sra_peek env infile outdir = Ok (f, fmt)
                    /\ List.length g = List.length f)).

(** ** A concrete world for the examples *)

(** Modelled from the spec: [P.snip] is defined in
    [CGATPipelines/Pipeline.py], which is not among the sources.  The
    mate of a file is found by "deterministic name substitution": the
    suffix that the name ends with is cut off, and a name that does not
    end with it is refused. *)
Definition snip_model (filename extension : string) : result string :=
  if endswith filename extension
  then Ok (take (String.length filename - String.length extension) filename)
  else Raise (ValueError ("'" ++ filename ++ "' expected to end in '"
                            ++ extension ++ "'")).

(** A directory with the files of a second mate and of a quality file,
    reads with Sanger qualities, an archive that holds one file. *)
Definition example_env : Env := {|
  path_exists := fun p => str_in p ["b.fastq.2.gz"; "c.qual.gz"];
  guessFormat := fun _ => Ok ["sanger"];
  sra_peek := fun _ outdir => Ok ([outdir ++ "/reads_1.fastq.gz"], ["sanger"]);
  sra_extract := fun infile dir =>
    "fastq-dump --split-files --gzip --outdir " ++ dir ++ " " ++ infile;
  tempdir_name := fun n => "/tmp/tmp" ++ str_of_nat n;
  snip := snip_model
|}.

(** The same directory, with an archive in which [Sra.peek] finds three
    files. *)
Definition three_files_env : Env := {|
  path_exists := path_exists example_env;
  guessFormat := guessFormat example_env;
  sra_peek := fun _ outdir =>
    Ok ([outdir ++ "/r_1.fastq.gz"; outdir ++ "/r_2.fastq.gz";
         outdir ++ "/r_3.fastq.gz"], ["illumina-1.8"]);
  sra_extract := sra_extract example_env;
  tempdir_name := tempdir_name example_env;
  snip := snip_model
|}.

(** * More of the module *)

(** ** [class FastqScreen] *)

(** [FastqScreen.mapper]: the two files of a pair *)
Definition tpl_screen_paired : string :=
  "-- paired %(infile1)s %(infile2)s".

(** [FastqScreen.mapper] *)
Definition tpl_screen : string :=
  "fastq_screen %%(fastq_screen_options)s
                    --outdir %%(outdir)s --conf %%(tempdir)s/fastq_screen.conf
                    %(input_files)s;".

Definition FastqScreen_mapper (env : Env) (infiles : list (list string))
    (outfile : string) : M string :=
  if Nat.ltb 1 (List.length infiles) then
    raise (ValueError
             "Fastq_screen can only operate on one fastq file at a time")
  else
    nfiles <- lift (count_files infiles) ;;
    let base := [ ("self", PObj "<FastqScreen>"); ("infiles", PObj "<list>");
                  ("outfile", PStr outfile); ("num_files", PObj "<list>");
                  ("nfiles", PInt nfiles) ] in
    input_files <-
      (if Nat.eqb nfiles 1 then
         lift (rbind (item infiles 0) (fun g => item g 0))
       else if Nat.eqb nfiles 2 then
         pair <- lift (unpack_pair infiles) ;;
         lift (format tpl_screen_paired
                 (base ++ [ ("infile1", PStr (fst pair));
                            ("infile2", PStr (snd pair)) ])%list)
       else
         raise (ValueError ("unexpected number read files to map: "
                              ++ str_of_nat nfiles ++ " "))) ;;
    lift (format tpl_screen
            (base ++ [("input_files", PStr input_files)])%list).

Definition FastqScreen : Strategy :=
  mkStrategy preprocess FastqScreen_mapper Mapper_postprocess Mapper_cleanup.

(** ** [class BWAMEM(BWA)] *)

(** [BWAMEM.mapper], one file per group *)
Definition tpl_bwamem_single : string :=
  "
            bwa mem %%(bwa_mem_options)s -t %%(bwa_threads)i
            %(index_prefix)s %(infiles)s
            > %(tmpdir)s/%(track)s.sam 2>>%(outfile)s.bwa.log;
            ".

(** [BWAMEM.mapper], two files per group *)
Definition tpl_bwamem_paired : string :=
  "
            bwa mem %%(bwa_mem_options)s -t %%(bwa_threads)i
            %(index_prefix)s %(infiles1)s
            %(infiles2)s > %(tmpdir)s/%(track)s.sam 2>>%(outfile)s.bwa.log;
            ".

Definition BWAMEM_mapper (env : Env) (infiles : list (list string))
    (outfile : string) : M string :=
  nfiles <- lift (count_files infiles) ;;
  o <- get_self ;;
  tmpdir_fastq <- attr "tmpdir_fastq" (tmpdir_fastq o) ;;
  let tmpdir := tmpdir_fastq ++ "bwa" in
  let statement := ["mkdir -p " ++ tmpdir ++ ";"] in
  let data_options0 := ["%(bwa_mem_options)s"] in
  let data_options1 :=
    if String.eqb (datatype o) "solid" then (data_options0 ++ ["-c"])%list
    else data_options0 in
  let index_prefix :=
    if String.eqb (datatype o) "solid" then "%(bwa_index_dir)s/%(genome)s_cs"
    else if String.eqb (datatype o) "fasta" then "%(bwa_index_dir)s/%(genome)s"
    else "%(bwa_index_dir)s/%(genome)s" in
  let data_options := join " " data_options1 in
  track <- lift (snip env (basename outfile) ".bam") ;;
  let base := [ ("self", PObj "<BWAMEM>"); ("outfile", PStr outfile);
                ("num_files", PObj "<list>"); ("nfiles", PInt nfiles);
                ("tmpdir", PStr tmpdir); ("statement", PObj "<list>");
                ("tmpdir_fastq", PStr tmpdir_fastq);
                ("data_options", PStr data_options);
                ("index_prefix", PStr index_prefix);
                ("track", PStr track) ] in
  statement <-
    (if Nat.eqb nfiles 1 then
       infiles <- lift (quoted_column o 0 infiles) ;;
       cmd <- lift (format tpl_bwamem_single
                      (base ++ [("infiles", PStr infiles)])%list) ;;
       ret (statement ++ [cmd])%list
     else if Nat.eqb nfiles 2 then
       infiles1 <- lift (quoted_column o 0 infiles) ;;
       infiles2 <- lift (quoted_column o 1 infiles) ;;
       cmd <- lift (format tpl_bwamem_paired
                      (base ++ [ ("infiles", PObj "<list>");
                                 ("infiles1", PStr infiles1);
                                 ("infiles2", PStr infiles2) ])%list) ;;
       ret (statement ++ [cmd])%list
     else
       raise (ValueError ("unexpected number read files to map: "
                            ++ str_of_nat nfiles ++ " "))) ;;
  modify_self (set_tmpdir tmpdir) ;;;
  ret (join " " statement).

Definition BWAMEM : Strategy :=
  mkStrategy preprocess BWAMEM_mapper BWA_postprocess Mapper_cleanup.

(** ** [class Tophat2(Tophat)] *)

(** [re.sub(pattern, repl, s)] for a pattern that stands for one literal
    string [pat], not empty, and a replacement without escapes: from left
    to right, every occurrence of [pat] that does not overlap an earlier
    one becomes [repl].  [skip] counts the characters of an occurrence
    that are still to be passed over. *)
Fixpoint sub_literal (pat repl : string) (skip : nat) (s : string) : string :=
  match s with
  | EmptyString => EmptyString
  | String c r =>
      match skip with
      | S k => sub_literal pat repl k r
      | O =>
          if startswith s pat
          then repl ++ sub_literal pat repl (String.length pat - 1) r
          else String c (sub_literal pat repl 0 r)
      end
  end.

(** [Tophat2.mapper]: the statement of [Tophat.mapper] with the options
    of [tophat] renamed. *)
Definition Tophat2_mapper (env : Env) (infiles : list (list string))
    (outfile : string) : M string :=
  statement <- Tophat_mapper env infiles outfile ;;
  ret (sub_literal "%(tophat_" "%(tophat2_" 0 statement).

Definition Tophat2 : Strategy :=
  mkStrategy preprocess Tophat2_mapper Tophat_postprocess Mapper_cleanup.

(** [Tophat2_fusion.mapper]: the options of the fusion search take the
    place of [%(tophat_options)s], then the other options are renamed. *)
Definition Tophat2_fusion_mapper (env : Env) (infiles : list (list string))
    (outfile : string) : M string :=
  statement <- Tophat_mapper env infiles outfile ;;
  let statement :=
    sub_literal "%(tophat_options)s"
      ("%(tophat2_fusion_options)s --fusion-search "
       ++ "--bowtie1 --no-coverage-search") 0 statement in
  ret (sub_literal "%(tophat_" "%(tophat2_fusion_" 0 statement).

(** [Tophat2()] and [Tophat2_fusion()]: [executable = "tophat2"]. *)
Definition new_Tophat2 : Self :=
  {| executable := "tophat2"; datatype := "fastq";
     preserve_colourspace := true; compress := true; convert := false;
     strip_sequence := false; remove_non_unique := false;
     tmpdir_fastq := None; tmpdir := None; tmpdir_tophat := None;
     nogroup := false; outdir := "."; contaminants := None;
     strand := EmptyString; orient := EmptyString; threads := EmptyString;
     remove_unique := false; set_nh := false |}.

(** ** Words for the properties of [preprocess] and of [build] *)

(** Every character of the string is white space. *)
Fixpoint all_space (s : string) : bool :=
  match s with
  | EmptyString => true
  | String c r => is_space c && all_space r
  end.

(** The name ends with one of the suffixes that the loop of [preprocess]
    tests. *)
Definition recognised (infile : string) : bool :=
  endswith infile ".export.txt.gz" || endswith infile ".fa.gz"
  || endswith infile ".sra" || endswith infile ".fastq.gz"
  || endswith infile ".csfasta.gz" || endswith infile ".csfasta.F3.gz"
  || endswith infile ".fastq.1.gz".

(** The number of archives among the inputs. *)
Definition count_sra (infiles : list string) : nat :=
  List.length (filter (fun f => endswith f ".sra") infiles).

(** The attributes that [preprocess] leaves as they are. *)
Definition same_options (o o' : Self) : Prop :=
  executable o' = executable o
  /\ preserve_colourspace o' = preserve_colourspace o
  /\ compress o' = compress o /\ convert o' = convert o
  /\ strip_sequence o' = strip_sequence o
  /\ remove_non_unique o' = remove_non_unique o
  /\ tmpdir o' = tmpdir o /\ tmpdir_tophat o' = tmpdir_tophat o
  /\ nogroup o' = nogroup o /\ outdir o' = outdir o
  /\ contaminants o' = contaminants o
  /\ strand o' = strand o /\ orient o' = orient o /\ threads o' = threads o
  /\ remove_unique o' = remove_unique o /\ set_nh o' = set_nh o.

(** What the loop of [preprocess] keeps, from the state [st0] and the
    variables [v0] at its start to the inputs [done] that it has read. *)
Definition loop_keeps (st0 : State) (v0 : PreVars) (done : list string)
    (v : PreVars) (st : State) : Prop :=
  same_options (self st0) (self st)
  /\ tmpdir_fastq (self st) = tmpdir_fastq (self st0)
  /\ (datatype (self st) = datatype (self st0)
      \/ datatype (self st) = "fasta"
      \/ (datatype (self st) = "solid"
          /\ preserve_colourspace (self st0) = true))
  /\ ntemp st = ntemp st0 + count_sra done
  /\ (exists more, statement v = (statement v0 ++ more)%list)
  /\ List.length (fastqfiles v)
     <= List.length (fastqfiles v0) + List.length done
  /\ (convert (self st0) = false ->
      List.length (fastqfiles v)
      = List.length (fastqfiles v0) + List.length done).

(** [s * k] for the string [s]. *)
Fixpoint repeat_string (s : string) (k : nat) : string :=
  match k with
  | O => EmptyString
  | S k' => s ++ repeat_string s k'
  end.

(** ** [mergeAndFilterGTF]: the loop that merges the exons of a transcript

    An entry of a GTF file, as far as the loop reads and writes it: the
    coordinates [start] and [end]. *)
Record Exon : Type := mkExon {
  ex_start : Z;
  ex_end : Z
}.

(** [sorted(list(exons), key=lambda x: x.start)]: a stable sort. *)
Fixpoint insert_by_start (x : Exon) (l : list Exon) : list Exon :=
  match l with
  | [] => [x]
  | y :: l' =>
      if (ex_start x <=? ex_start y)%Z then x :: l
      else y :: insert_by_start x l'
  end.

Definition sorted_by_start (l : list Exon) : list Exon :=
  fold_right insert_by_start [] l.

(** [max_intron_size and d > max_intron_size]: [None] and zero are
    false. *)
Definition intron_too_long (max_intron_size : option Z) (d : Z) : bool :=
  match max_intron_size with
  | None => false
  | Some m => negb (m =? 0)%Z && (m <? d)%Z
  end.

(** The loop [for e in tmp[1:]] with the statement [n.append(l)] that
    follows it.  [l] is the exon that grows, [n] the exons that are
    finished and [merged] the counter [c.merged]; the result holds [n],
    [is_ok] and the counter.
[[
    for e in tmp[1:]:
        d = e.start - l.end
        if max_intron_size and d > max_intron_size:
            is_ok = False
            break
        elif d < 5:
            l.end = max(e.end, l.end)
            c.merged += 1
            continue
        n.append(l)
        l = e
    n.append(l)
]] *)
Fixpoint merge_loop (max_intron_size : option Z) (l : Exon) (n : list Exon)
    (merged : nat) (rest : list Exon) : list Exon * bool * nat :=
  match rest with
  | [] => ((n ++ [l])%list, true, merged)
  | e :: rest' =>
      let d := (ex_start e - ex_end l)%Z in
      if intron_too_long max_intron_size d then
        ((n ++ [l])%list, false, merged)
      else if (d <? 5)%Z then
        merge_loop max_intron_size
          (mkExon (ex_start l) (Z.max (ex_end e) (ex_end l)))
          n (S merged) rest'
      else merge_loop max_intron_size e (n ++ [l])%list merged rest'
  end.

(** The exons of one feature of a transcript: sorted, then merged.
    [tmp[0]] raises on an empty list. *)
Definition merge_exons (max_intron_size : option Z) (exons : list Exon)
  : result (list Exon * bool * nat) :=
  match sorted_by_start exons with
  | [] => Raise (IndexError "list index out of range")
  | first :: rest => Ok (merge_loop max_intron_size first [] 0 rest)
  end.

(** The distance from the end of [a] to the start of [b]. *)
Definition gap (a b : Exon) : Z := (ex_start b - ex_end a)%Z.

(** [P] holds of the gap between every two neighbours of the list. *)
Fixpoint neighbours (P : Z -> Prop) (l : list Exon) : Prop :=
  match l with
  | a :: ((b :: _) as t) => P (gap a b) /\ neighbours P t
  | _ => True
  end.

(** The exon [e] lies within the exon [o]. *)
Definition within (e o : Exon) : Prop :=
  (ex_start o <= ex_start e)%Z /\ (ex_end e <= ex_end o)%Z.

(** ** [resetGTFAttributes]: the local function [_map]

    The dictionaries [map_tss2gene] and [map_pid2gene]: a list of
    bindings in which the first binding of a key is the one that
    counts. *)
Definition dict : Type := list (string * string).

(** [m.get(k)], and [k in m] when it is not [None]. *)
Fixpoint dict_get (k : string) (m : dict) : option string :=
  match m with
  | [] => None
  | (k', v) :: m' => if String.eqb k' k then Some v else dict_get k m'
  end.

(** [m[k] = v] *)
Definition dict_set (k v : string) (m : dict) : dict := (k, v) :: m.

(** The value of [val] when the loop of [_map] is left:
[[
    if val in m:
        while gene_id != m[val]:
            val += "a"
            if val not in m:
                break
]]
    [fuel] bounds the number of times that [a] is appended. *)
Fixpoint map_val (fuel : nat) (gene_id : string) (m : dict) (val : string)
  : option string :=
  match dict_get val m with
  | None => Some val
  | Some g =>
      if String.eqb gene_id g then Some val
      else match fuel with
           | O => None
           | S fuel' => map_val fuel' gene_id m (val ++ "a")
           end
  end.

(** [_map(gtf, key, val, m)] for the gene [gene_id] of the enclosing
    loop: the value that [gtf.setAttribute(key, val)] stores, and the
    dictionary after [m[val] = gene_id]. *)
Definition _map (fuel : nat) (gene_id : string) (val : string) (m : dict)
  : option (string * dict) :=
  match map_val fuel gene_id m val with
  | Some val' => Some (val', dict_set val' gene_id m)
  | None => None
  end.

(** ** [getReadLengthFromFastq] and [getSequencingInformation] *)

(** The exceptions of these two functions. *)
Inductive seq_exn : Type :=
| SeqNameError (name : string)
| SeqUnboundLocalError (name : string)
| SeqIOError (msg : string).

Record SequenceInformation : Type := mkSequenceInformation {
  paired_end : bool;
  filename_first : string;
  filename_second : option string;
  readlength_first : nat;
  readlength_second : option nat;
  is_colour : bool
}.

(** The file system: [os.path.exists], and whether [IOTools.openFile]
    opens a file. *)
Record Files : Type := {
  file_exists : string -> bool;
  file_opens : string -> bool
}.

(** [getReadLengthFromFastq]: the file is opened, and the first read is
    asked of [iterate], a name that the module neither defines nor
    imports. *)
Definition getReadLengthFromFastq (fs : Files) (filename : string)
  : seq_exn + nat :=
  if file_opens fs filename then inl (SeqNameError "iterate")
  else inl (SeqIOError filename).

Definition getSequencingInformation (fs : Files) (track : string)
  : seq_exn + SequenceInformation :=
  let found :=
    if file_exists fs (track ++ ".fastq.gz")
    then Some (track ++ ".fastq.gz", None, false)
    else if file_exists fs (track ++ ".fastq.1.gz")
    then Some (track ++ ".fastq.1.gz", Some (track ++ ".fastq.2.gz"), false)
    else if file_exists fs (track ++ ".csfasta.gz")
    then Some (track ++ ".csfasta.gz", None, true)
    else None in
  match found with
  | None => inl (SeqUnboundLocalError "second_pair")
  | Some (first_pair, second_pair, colour) =>
      let second :=
        match second_pair with
        | Some second =>
            if truthy second then
              if negb (file_exists fs second) then
                inl (SeqIOError ("could not find second pair " ++ second
                                   ++ " for " ++ first_pair))
              else
                match getReadLengthFromFastq fs second with
                | inl e => inl e
                | inr n => inr (Some n)
                end
            else inr None
        | None => inr None
        end in
      match second with
      | inl e => inl e
      | inr second_length =>
          match getReadLengthFromFastq fs first_pair with
          | inl e => inl e
          | inr n =>
              inr (mkSequenceInformation
                     (match second_pair with Some _ => true | None => false end)
                     first_pair second_pair n second_length colour)
          end
      end
  end.

(** ** Words for the statements of the phases *)

(** The statement ends with the terminator [;], followed at most by
    white space. *)
Definition terminated (s : string) : Prop :=
  exists b ws, all_space ws = true /\ s = b ++ ";" ++ ws.

(** The classes whose four methods are modelled here and whose [mapper]
    always ends its statement. *)
Definition closing_classes : list Strategy :=
  [BWA; BWAMEM; Butter; Tophat; Sailfish; FastqScreen; Counter].

(** Every group of [infiles] has [n] files, and there is a group. *)
Definition groups_of (n : nat) (infiles : list (list string)) : Prop :=
  infiles <> [] /\ Forall (fun g => List.length g = n) infiles.

(** The order of [sorted(..., key=lambda x: x.start)]. *)
Definition le_start (a b : Exon) : Prop := (ex_start a <= ex_start b)%Z.

(** The number of the bindings of [m] whose key has [n] characters or
    more. *)
Definition long_keys (n : nat) (m : dict) : nat :=
  List.length (filter (fun kv => Nat.leb n (String.length (fst kv))) m).

(** ** [splitGeneSet] *)

(** [line.split("\t")[0]] *)
Fixpoint first_field (line : string) : string :=
  match line with
  | EmptyString => EmptyString
  | String c r =>
      if Ascii.eqb c "009" then EmptyString else String c (first_field r)
  end.

(** The files that the function writes: the name of a file and its
    lines; the first binding of a name is the one that counts. *)
Definition disk : Type := list (string * list string).

Fixpoint disk_get (name : string) (d : disk) : option (list string) :=
  match d with
  | [] => None
  | (n, content) :: d' =>
      if String.eqb n name then Some content else disk_get name d'
  end.

(** The variables [last] and [outfile] of the loop, the latter the name
    of the file that is open, and the files. *)
Record SplitVars : Type := mkSplitVars {
  last : option string;
  open_file : option string;
  written : disk
}.

(** ["%s.%s.gtf.gz" % (outprefix, this)] *)
Definition split_name (outprefix this : string) : string :=
  outprefix ++ "." ++ this ++ ".gtf.gz".

(** [outfile.write(line)] *)
Definition write_line (v : SplitVars) (line : string) : result SplitVars :=
  match open_file v with
  | None => Raise (AttributeError "write")
  | Some f =>
      let content :=
        match disk_get f (written v) with Some c => c | None => [] end in
      Ok (mkSplitVars (last v) (open_file v)
            ((f, (content ++ [line])%list) :: written v))
  end.

(** The body of the loop: a line whose first column is the one of the
    line before goes to the open file; another one opens its file for
    writing, which empties a file of that name. *)
Definition split_step (outprefix : string) (v : SplitVars) (line : string)
  : result SplitVars :=
  let this := first_field line in
  if match last v with Some l => String.eqb this l | None => false end
  then write_line v line
  else
    let f := split_name outprefix this in
    write_line (mkSplitVars (Some this) (Some f) ((f, []) :: written v)) line.

Fixpoint split_loop (outprefix : string) (lines : list string)
    (v : SplitVars) : result SplitVars :=
  match lines with
  | [] => Ok v
  | line :: rest =>
      rbind (split_step outprefix v line) (split_loop outprefix rest)
  end.

(** [splitGeneSet(infile)], for the lines of [infile] and the files
    [d]: the files afterwards. *)
Definition splitGeneSet (env : Env) (infile : string) (lines : list string)
    (d : disk) : result disk :=
  rbind (snip env infile ".gtf.gz") (fun outprefix =>
  rbind (split_loop outprefix lines (mkSplitVars None None d)) (fun v =>
  Ok (written v))).

(** The first column of the line is [k]. *)
Definition has_key (k : string) (line : string) : bool :=
  String.eqb (first_field line) k.

Fixpoint take_while {A} (p : A -> bool) (l : list A) : list A :=
  match l with
  | [] => []
  | x :: r => if p x then x :: take_while p r else []
  end.

Fixpoint drop_while {A} (p : A -> bool) (l : list A) : list A :=
  match l with
  | [] => []
  | x :: r => if p x then drop_while p r else l
  end.

(** The last run of lines with the first column [k]: the lines with
    [k] that follow the last line with another first column that has a
    line with [k] after it. *)
Definition last_run (k : string) (lines : list string) : list string :=
  rev (take_while (has_key k)
         (drop_while (fun l => negb (has_key k l)) (rev lines))).

(** The lines with the same first column follow each other: a first
    column that comes again later is the one of the next line. *)
Fixpoint grouped (keys : list string) : Prop :=
  match keys with
  | [] => True
  | k :: r => (In k r -> hd_error r = Some k) /\ grouped r
  end.

(** The character that separates the columns. *)
Definition tab : string := String "009" EmptyString.

(** ** Words for [Tophat2.mapper] *)

(** The character [c] is in [s]. *)
Fixpoint has_char (c : ascii) (s : string) : bool :=
  match s with
  | EmptyString => false
  | String d r => Ascii.eqb c d || has_char c r
  end.

(** ** Words for reads that need no conversion *)

(** The input is a file of single-end reads whose quality format
    [Fastq.guessFormat] can tell. *)
Definition plain_fastq (env : Env) (infile : string) : Prop :=
  endswith infile ".fastq.gz" = true
  /\ exists fmt, guessFormat env infile = Ok fmt.

(** ** [class Bismark(Mapper)] *)

(** [Bismark.mapper], one file per group *)
Definition tpl_bismark_single : string :=
  "
            bismark %%(bismark_options)s -q --bowtie2
            --output_dir %(tmpdir_fastq)s
            -p %%(bismark_threads)s --bam --phred33-quals %(bismark_index)s
            %(infiles)s;
            ".

(** [Bismark.mapper], two files per group *)
Definition tpl_bismark_paired : string :=
  "
            bismark %%(bismark_options)s -q --bowtie2
            --output_dir %(tmpdir_fastq)s
            -p %%(bismark_threads)s --bam --non_directional
            --phred33-quals %(bismark_index)s -1 %(infiles1)s -2 %(infiles2)s;
            ".

(** [Bismark.postprocess], an input [.fastq.gz] *)
Definition tpl_bismark_post_single : string :=
  "samtools view -h
            %(tmpdir_fastq)s/%(base)s.fastq.gz_bismark_bt2.bam|
            awk -F" ++ dq ++ " " ++ dq ++ " '$14!~/^XM:Z:[zZhxUu\.]*[HX][zZhxUu\.]*[HX]/ ||
            $1==" ++ dq ++ "@SQ" ++ dq ++ " || $1==" ++ dq ++ "@PG" ++ dq ++ "' | samtools view -b - >
            %%(outdir)s/%(track)s.bam;
            mv %(tmpdir_fastq)s/%(base)s.fastq.gz_bismark_bt2_SE_report.txt
            %%(outdir)s/%(track)s_bismark_bt2_SE_report.txt;".

(** [Bismark.postprocess], an input [.fastq.1.gz] *)
Definition tpl_bismark_post_paired : string :=
  "samtools view -h
            %(tmpdir_fastq)s/%(base)s.fastq.1.gz_bismark_bt2_pe.bam|
            awk -F" ++ dq ++ " " ++ dq ++ " '$14!~/^XM:Z:[zZhxUu\.]*[HX][zZhxUu\.]*[HX]/ ||
            $1==" ++ dq ++ "@SQ" ++ dq ++ " || $1==" ++ dq ++ "@PG" ++ dq ++ "' | samtools view -b - >
            %%(outdir)s/%(track)s.bam;
            mv %(tmpdir_fastq)s/%(base)s.fastq.gz_bismark_bt2_PE_report.txt
            %%(outdir)s/%(track)s_bismark_bt2_SE_report.txt;".

(** [Bismark.postprocess], an archive with the files of a pair *)
Definition tpl_bismark_post_sra_paired : string :=
  "samtools view -h
                    %(tmpdir_fastq)s/%(mapfile)s_bismark_bt2_pe.bam|
                    awk -F" ++ dq ++ " " ++ dq ++ " '$14!~/^XM:Z:[zZhxUu\.]*[HX][zZhxUu\.]*[HX]/ ||
                    $1==" ++ dq ++ "@SQ" ++ dq ++ " || $1==" ++ dq ++ "@PG" ++ dq ++ "' | samtools view -b - >
                    %%(outdir)s/%(track)s.bam;
                    mv %(tmpdir_fastq)s/%(mapfile)s_bismark_bt2_PE_report.txt
                    %%(outdir)s/%(track)s_PE_report.txt;".

(** [Bismark.postprocess], another archive *)
Definition tpl_bismark_post_sra_single : string :=
  "samtools view -h
                    %(tmpdir_fastq)s/%(mapfile)s_bismark_bt2.bam|
                    awk -F" ++ dq ++ " " ++ dq ++ " '$14!~/^XM:Z:[zZhxUu\.]*[HX][zZhxUu\.]*[HX]/||
                    $1==" ++ dq ++ "@SQ" ++ dq ++ " || $1==" ++ dq ++ "@PG" ++ dq ++ "' | samtools view -b - >
                    %%(outdir)s/%(track)s.bam;
                    mv %(tmpdir_fastq)s/%(mapfile)s_bismark_bt2_SE_report.txt
                    %%(outdir)s/%(track)s_SE_report.txt;".

(** [s.split(".")[0]] *)
Fixpoint before_dot (s : string) : string :=
  match s with
  | EmptyString => EmptyString
  | String c r =>
      if Ascii.eqb c "." then EmptyString else String c (before_dot r)
  end.

(** [Bismark.mapper]: the attribute [tmpdir_fastq] is read, and the
    directory of the output is [.] whatever it holds. *)
Definition Bismark_mapper (env : Env) (infiles : list (list string))
    (outfile : string) : M string :=
  nfiles <- lift (count_files infiles) ;;
  o <- get_self ;;
  _ <- attr "tmpdir_fastq" (tmpdir_fastq o) ;;
  let tmpdir := "." in
  let bismark_index := "%(bismark_index_dir)s/%(bismark_genome)s" in
  let tmpdir_fastq := "." in
  let base := [ ("self", PObj "<Bismark>"); ("outfile", PStr outfile);
                ("num_files", PObj "<list>"); ("nfiles", PInt nfiles);
                ("tmpdir", PStr tmpdir);
                ("bismark_index", PStr bismark_index);
                ("tmpdir_fastq", PStr tmpdir_fastq) ] in
  statement <-
    (if Nat.eqb nfiles 1 then
       infiles <- lift (rbind (item infiles 0) (fun g => item g 0)) ;;
       lift (format tpl_bismark_single
               (base ++ [("infiles", PStr infiles)])%list)
     else if Nat.eqb nfiles 2 then
       infiles1 <- lift (rbind (item infiles 0) (fun g => item g 0)) ;;
       infiles2 <- lift (rbind (item infiles 0) (fun g => item g 1)) ;;
       lift (format tpl_bismark_paired
               (base ++ [ ("infiles", PObj "<list>");
                          ("infiles1", PStr infiles1);
                          ("infiles2", PStr infiles2) ])%list)
     else
       raise (ValueError ("unexpected number read files to map: "
                            ++ str_of_nat nfiles ++ " "))) ;;
  modify_self (set_tmpdir tmpdir) ;;;
  ret statement.

(** [Bismark.postprocess(infiles, mapfiles, outfile)]: the statement is
    chosen by the first input, and for an archive by the groups of
    [mapfiles], each of which sets it again. *)
Definition Bismark_postprocess (env : Env) (infiles : list string)
    (mapfiles : list (list string)) (outfile : string) : M string :=
  o <- get_self ;;
  _ <- attr "tmpdir_fastq" (tmpdir_fastq o) ;;
  let tmpdir_fastq := "." in
  track <- lift (snip env (basename outfile) ".bam") ;;
  infile <- lift (item infiles 0) ;;
  let base := before_dot (basename infile) in
  let d := [ ("self", PObj "<Bismark>"); ("infiles", PObj "<list>");
             ("mapfiles", PObj "<list>"); ("outfile", PStr outfile);
             ("tmpdir_fastq", PStr tmpdir_fastq); ("track", PStr track);
             ("infile", PStr infile); ("base", PStr base) ] in
  if endswith infile ".fastq.gz" then
    lift (format tpl_bismark_post_single d)
  else if endswith infile ".fastq.1.gz" then
    lift (format tpl_bismark_post_paired d)
  else if endswith infile ".sra" then
    statement <-
      for_each
        (fun (statement : option string) (mapfile : list string) =>
           first <- lift (item mapfile 0) ;;
           let mapfile := basename first in
           s <- lift (format
                        (if endswith mapfile ".fastq.1.gz"
                         then tpl_bismark_post_sra_paired
                         else tpl_bismark_post_sra_single)
                        (("mapfile", PStr mapfile) :: d)) ;;
           ret (Some s))
        mapfiles None ;;
    match statement with
    | Some s => ret s
    | None => raise (UnboundLocalError "statement")
    end
  else ret "checkpoint;".

(** [Bismark.build]: [Mapper.build] with the groups of [preprocess]
    passed to [postprocess] as well. *)
Definition Bismark_build (env : Env) (infiles : list string)
    (outfile : string) : M string :=
  pre <- preprocess env infiles outfile ;;
  let cmd_preprocess := fst pre in
  let mapfiles := snd pre in
  cmd_mapper <- Bismark_mapper env mapfiles outfile ;;
  cmd_postprocess <- Bismark_postprocess env infiles mapfiles outfile ;;
  cmd_clean <- Mapper_cleanup env outfile ;;
  assert (endswith (strip cmd_preprocess) ";") EmptyString ;;;
  assert (endswith (strip cmd_mapper) ";") EmptyString ;;;
  (if truthy cmd_postprocess
   then assert (endswith (strip cmd_postprocess) ";") EmptyString
   else ret tt) ;;;
  (if truthy cmd_clean
   then assert (endswith (strip cmd_clean) ";") EmptyString
   else ret tt) ;;;
  ret (join checkpoint
         [cmd_preprocess; cmd_mapper; cmd_postprocess; cmd_clean]).

(** [Bismark(remove_unique)] *)
Definition new_Bismark (remove_unique : bool) : Self :=
  {| executable := EmptyString; datatype := "fastq";
     preserve_colourspace := false; compress := false; convert := false;
     strip_sequence := false; remove_non_unique := false;
     tmpdir_fastq := None; tmpdir := None; tmpdir_tophat := None;
     nogroup := false; outdir := "."; contaminants := None;
     strand := EmptyString; orient := EmptyString; threads := EmptyString;
     remove_unique := remove_unique; set_nh := false |}.

(** * Properties of the builder *)

(** ** Stepping through a method body *)

Lemma bind_Ok {A B} (m : M A) (k : A -> M B) st a st1 :
  m st = Ok (a, st1) -> bind m k st = k a st1.
Proof. intros H. unfold bind. now rewrite H. Qed.

Lemma bind_Raise {A B} (m : M A) (k : A -> M B) st e :
  m st = Raise e -> bind m k st = Raise e.
Proof. intros H. unfold bind. now rewrite H. Qed.

Lemma bind_inv {A B} (m : M A) (k : A -> M B) st r :
  bind m k st = Ok r ->
  exists a st1, m st = Ok (a, st1) /\ k a st1 = Ok r.
Proof.
  unfold bind. destruct (m st) as [[a st1]|e]; intros H.
  - now exists a, st1.
  - discriminate.
Qed.

Lemma lift_inv {A} (r : result A) st a st' :
  lift r st = Ok (a, st') -> r = Ok a /\ st' = st.
Proof.
  unfold lift. destruct r; intros H; inversion H; auto.
Qed.

Lemma lift_Ok {A} (r : result A) st a :
  r = Ok a -> lift r st = Ok (a, st).
Proof. intros ->. reflexivity. Qed.

Lemma ret_inv {A} (a b : A) st st' :
  ret a st = Ok (b, st') -> b = a /\ st' = st.
Proof. unfold ret. intros H; inversion H; auto. Qed.

Lemma raise_inv {A} e st (r : A * State) : raise e st = Ok r -> False.
Proof. unfold raise. discriminate. Qed.

Lemma get_self_inv st o st' :
  get_self st = Ok (o, st') -> o = self st /\ st' = st.
Proof. unfold get_self. intros H; inversion H; auto. Qed.

Lemma modify_self_inv f st u st' :
  modify_self f st = Ok (u, st') -> st' = mkState (f (self st)) (ntemp st).
Proof. unfold modify_self. intros H; inversion H; auto. Qed.

Lemma assert_inv b msg st u st' :
  assert b msg st = Ok (u, st') -> b = true /\ st' = st.
Proof.
  unfold assert. destruct b; intros H.
  - apply ret_inv in H. tauto.
  - now apply raise_inv in H.
Qed.

Lemma getTempDir_inv env st d st' :
  getTempDir env st = Ok (d, st') ->
  d = tempdir_name env (ntemp st)
  /\ st' = mkState (self st) (S (ntemp st)).
Proof. unfold getTempDir. intros H; inversion H; auto. Qed.

Lemma attr_inv name v st s st' :
  attr name v st = Ok (s, st') -> v = Some s /\ st' = st.
Proof.
  unfold attr. destruct v; intros H.
  - apply ret_inv in H. destruct H; subst; auto.
  - now apply raise_inv in H.
Qed.

(** Invert a hypothesis [H] that says that a sequence of statements
    returns: one equation for each statement. *)
Ltac inv_leaf H :=
  match type of H with
  | lift _ _ = Ok _ =>
      apply lift_inv in H; let E := fresh "E" in destruct H as [H E];
      try subst
  | get_self _ = Ok _ =>
      apply get_self_inv in H; destruct H; try subst
  | modify_self _ _ = Ok _ => apply modify_self_inv in H; try subst
  | getTempDir _ _ = Ok _ =>
      apply getTempDir_inv in H; destruct H; try subst
  | attr _ _ _ = Ok _ =>
      apply attr_inv in H; let E := fresh "E" in destruct H as [H E];
      try subst
  | assert _ _ _ = Ok _ =>
      apply assert_inv in H; let E := fresh "E" in destruct H as [H E];
      try subst
  | ret _ _ = Ok _ => apply ret_inv in H; destruct H; try subst
  | raise _ _ = Ok _ => apply raise_inv in H; contradiction
  | _ => idtac
  end.

Ltac inv_seq H :=
  repeat match type of H with
    | bind _ _ _ = Ok _ =>
        let a := fresh "a" in
        let s := fresh "s" in
        let E := fresh "E" in
        apply bind_inv in H; destruct H as (a & s & E & H);
        inv_leaf E
    end;
  inv_leaf H.

(** ** Strings *)

Lemma truthy_true s : truthy s = true <-> s <> EmptyString.
Proof. destruct s; simpl; split; congruence. Qed.

Lemma truthy_false s : truthy s = false <-> s = EmptyString.
Proof. destruct s; simpl; split; congruence. Qed.

Lemma terminated_truthy s : endswith (strip s) ";" = true -> truthy s = true.
Proof. destruct s; [ discriminate | reflexivity ]. Qed.

Lemma join_four sep a b c d :
  join sep [a; b; c; d] = a ++ sep ++ b ++ sep ++ c ++ sep ++ d.
Proof. reflexivity. Qed.

Lemma append_assoc (a b c : string) : (a ++ b) ++ c = a ++ (b ++ c).
Proof. induction a as [|x a IH]; simpl; [ reflexivity | now rewrite IH ]. Qed.

(** ** What [build] returns *)

Lemma build_eq C env infiles outfile st p m q c st4 :
  phases C env infiles outfile st p m q c st4 ->
  build C env infiles outfile st =
    if accepted p m q c
    then Ok (join checkpoint [p; m; q; c], st4)
    else Raise (AssertionError EmptyString).
Proof.
  intros (mapfiles & st1 & st2 & st3 & Hp & Hm & Hq & Hc).
  unfold build.
  rewrite (bind_Ok _ _ _ _ _ Hp). cbn [fst snd].
  rewrite (bind_Ok _ _ _ _ _ Hm).
  rewrite (bind_Ok _ _ _ _ _ Hq).
  rewrite (bind_Ok _ _ _ _ _ Hc).
  unfold accepted, bind, assert, ret, raise.
  destruct (endswith (strip p) ";"), (endswith (strip m) ";"),
    (truthy q), (endswith (strip q) ";"),
    (truthy c), (endswith (strip c) ";"); reflexivity.
Qed.

Lemma build_Ok_inv C env infiles outfile st p m q c st4 plan st' :
  phases C env infiles outfile st p m q c st4 ->
  build C env infiles outfile st = Ok (plan, st') ->
  plan = join checkpoint [p; m; q; c] /\ st' = st4
  /\ accepted p m q c = true.
Proof.
  intros Hph Hb. rewrite (build_eq _ _ _ _ _ _ _ _ _ _ Hph) in Hb.
  destruct (accepted p m q c); [ | discriminate ].
  injection Hb as <- <-. auto.
Qed.

(** C1, as the code has it: when the four phases return and [build]
    returns, the plan is the four statements in the order preprocess,
    align, postprocess, cleanup with the separator [" checkpoint; "]
    between each two of them.  Nothing is dropped: an empty statement
    keeps its place and its separator, and the statements of preprocess
    and align are never empty. *)
Theorem build_joins_all_four_fragments
    C env infiles outfile st p m q c st4 plan st' :
  phases C env infiles outfile st p m q c st4 ->
  build C env infiles outfile st = Ok (plan, st') ->
  plan = p ++ " checkpoint; " ++ m ++ " checkpoint; " ++ q
           ++ " checkpoint; " ++ c
  /\ p <> EmptyString /\ m <> EmptyString.
Proof.
  intros Hph Hb.
  destruct (build_Ok_inv _ _ _ _ _ _ _ _ _ _ _ _ Hph Hb) as (-> & _ & Hacc).
  split; [ reflexivity | ].
  unfold accepted in Hacc.
  apply andb_prop in Hacc. destruct Hacc as [Hacc _].
  apply andb_prop in Hacc. destruct Hacc as [Hacc _].
  apply andb_prop in Hacc. destruct Hacc as [Hp Hm].
  split; apply truthy_true; now apply terminated_truthy.
Qed.

Lemma build_joins_all_four_fragments_witness :
  exists p m q c st4 plan,
    phases Counter example_env ["a.fastq.gz"] "a.nreads" (start new_Counter)
      p m q c st4
    /\ build Counter example_env ["a.fastq.gz"] "a.nreads" (start new_Counter)
       = Ok (plan, st4)
    /\ (plan = p ++ " checkpoint; " ++ m ++ " checkpoint; " ++ q
                 ++ " checkpoint; " ++ c
        /\ p <> EmptyString /\ m <> EmptyString).
Proof.
  do 6 eexists.
  match goal with
  | |- ?A /\ ?B /\ _ => assert (Hph : A); [ | assert (Hb : B) ]
  end.
  - do 4 eexists. repeat split; lazy; reflexivity.
  - lazy; reflexivity.
  - exact (conj Hph (conj Hb
             (build_joins_all_four_fragments _ _ _ _ _ _ _ _ _ _ _ _ Hph Hb))).
Defined.

(** C1, as the claim states it, fails for [Counter], whose postprocess
    statement is empty: the plan keeps the empty statement and the
    separator after it, and is not the plan of the statements that are
    not empty. *)
Lemma build_keeps_empty_fragment :
  exists p m q c st4 plan,
    phases Counter example_env ["a.fastq.gz"] "a.nreads" (start new_Counter)
      p m q c st4
    /\ build Counter example_env ["a.fastq.gz"] "a.nreads" (start new_Counter)
       = Ok (plan, st4)
    /\ q = EmptyString
    /\ plan <> plan_of_nonempty [p; m; q; c].
Proof.
  do 6 eexists.
  split; [ do 4 eexists; repeat split; lazy; reflexivity | ].
  split; [ lazy; reflexivity | ].
  split; [ reflexivity | ].
  apply String.eqb_neq. vm_compute. reflexivity.
Qed.

Lemma accepted_false p m q c :
  accepted p m q c = false <->
  (endswith (strip p) ";" = false \/ endswith (strip m) ";" = false
   \/ (q <> EmptyString /\ endswith (strip q) ";" = false)
   \/ (c <> EmptyString /\ endswith (strip c) ";" = false)).
Proof.
  unfold accepted. rewrite <- !truthy_true.
  destruct (endswith (strip p) ";"), (endswith (strip m) ";"),
    (truthy q), (endswith (strip q) ";"),
    (truthy c), (endswith (strip c) ";"); simpl;
    intuition congruence.
Qed.

(** C5, as the code has it: when the four phases return, [build] fails
    exactly when an assertion rejects a statement, and then with
    [AssertionError].  The statements of preprocess and align must end
    with [;] once the blanks around them are stripped, so an empty one is
    rejected; the statements of postprocess and cleanup are checked only
    when they are not empty. *)
Theorem build_fails_iff_fragment_rejected
    C env infiles outfile st p m q c st4 :
  phases C env infiles outfile st p m q c st4 ->
  (build C env infiles outfile st = Raise (AssertionError EmptyString)
   <-> (endswith (strip p) ";" = false \/ endswith (strip m) ";" = false
        \/ (q <> EmptyString /\ endswith (strip q) ";" = false)
        \/ (c <> EmptyString /\ endswith (strip c) ";" = false)))
  /\ (forall e, build C env infiles outfile st = Raise e ->
                e = AssertionError EmptyString).
Proof.
  intros Hph. rewrite (build_eq _ _ _ _ _ _ _ _ _ _ Hph).
  rewrite <- accepted_false.
  destruct (accepted p m q c); split; try split;
    try discriminate; try reflexivity; intros; congruence.
Qed.

Lemma build_fails_iff_fragment_rejected_witness :
  exists p m q c st4,
    phases Mapper example_env ["a.fastq.gz"] "a.bam"
      (start (new_Mapper false false)) p m q c st4
    /\ ((build Mapper example_env ["a.fastq.gz"] "a.bam"
           (start (new_Mapper false false))
         = Raise (AssertionError EmptyString)
         <-> (endswith (strip p) ";" = false
              \/ endswith (strip m) ";" = false
              \/ (q <> EmptyString /\ endswith (strip q) ";" = false)
              \/ (c <> EmptyString /\ endswith (strip c) ";" = false)))
        /\ (forall e,
              build Mapper example_env ["a.fastq.gz"] "a.bam"
                (start (new_Mapper false false)) = Raise e ->
              e = AssertionError EmptyString)).
Proof.
  do 5 eexists.
  match goal with
  | |- ?A /\ _ => assert (Hph : A)
  end.
  - do 4 eexists. repeat split; lazy; reflexivity.
  - exact (conj Hph
             (build_fails_iff_fragment_rejected _ _ _ _ _ _ _ _ _ _ Hph)).
Defined.

(** C5, as the claim states it, fails for the class [Mapper] itself,
    whose [mapper] returns the empty string: no statement that is not
    empty lacks its terminator, and [build] fails all the same. *)
Lemma build_rejects_empty_align_fragment :
  exists p m q c st4,
    phases Mapper example_env ["a.fastq.gz"] "a.bam"
      (start (new_Mapper false false)) p m q c st4
    /\ m = EmptyString
    /\ some_unterminated [p; m; q; c] = false
    /\ build Mapper example_env ["a.fastq.gz"] "a.bam"
         (start (new_Mapper false false))
       = Raise (AssertionError EmptyString).
Proof.
  do 5 eexists.
  split; [ do 4 eexists; repeat split; lazy; reflexivity | ].
  repeat split; vm_compute; reflexivity.
Qed.

(** The cleanup statement is the end of every plan. *)
Lemma build_ends_with_cleanup
    C env infiles outfile st p m q c st4 plan st' :
  phases C env infiles outfile st p m q c st4 ->
  build C env infiles outfile st = Ok (plan, st') ->
  exists before, plan = before ++ c.
Proof.
  intros Hph Hb.
  destruct (build_Ok_inv _ _ _ _ _ _ _ _ _ _ _ _ Hph Hb) as (-> & _ & _).
  exists (p ++ checkpoint ++ m ++ checkpoint ++ q ++ checkpoint).
  rewrite join_four. now rewrite !append_assoc.
Qed.

(** ** Input names that [preprocess] does not know *)

Lemma preprocess_second_mate_alone env outfile st :
  preprocess env ["sample.fastq.2.gz"] outfile st
  = Raise (NotImplementedError "unknown file format sample.fastq.2.gz").
Proof. reflexivity. Qed.

(** C3, as the code has it: the name [sample.fastq.2.gz] matches none of
    the suffixes that [preprocess] tests (the only mark of a pair is
    [.fastq.1.gz]), so the plan of every class that inherits
    [Mapper.preprocess] fails with [NotImplementedError], the unknown
    file format of the specification, whatever the directory holds. *)
Theorem second_mate_alone_is_unknown_format C env outfile st :
  s_preprocess C = preprocess ->
  build C env ["sample.fastq.2.gz"] outfile st
  = Raise (NotImplementedError "unknown file format sample.fastq.2.gz")
  /\ error_kind (NotImplementedError "unknown file format sample.fastq.2.gz")
     = Some UnsupportedFormat.
Proof.
  intros Hpre. split; [ | reflexivity ].
  unfold build. rewrite Hpre.
  apply bind_Raise. apply preprocess_second_mate_alone.
Qed.

Lemma second_mate_alone_is_unknown_format_witness :
  s_preprocess BWA = preprocess
  /\ (build BWA example_env ["sample.fastq.2.gz"] "sample.bam"
        (start (new_BWA false false false))
      = Raise (NotImplementedError "unknown file format sample.fastq.2.gz")
      /\ error_kind
           (NotImplementedError "unknown file format sample.fastq.2.gz")
         = Some UnsupportedFormat).
Proof.
  split; [ reflexivity | ].
  apply (second_mate_alone_is_unknown_format BWA example_env "sample.bam"
           (start (new_BWA false false false))).
  reflexivity.
Defined.

(** C3, as the claim states it, fails: the error of the plan for
    [sample.fastq.2.gz] alone is not the one of a missing mate. *)
Lemma second_mate_alone_is_not_missing_mate :
  exists e,
    build BWA example_env ["sample.fastq.2.gz"] "sample.bam"
      (start (new_BWA false false false)) = Raise e
    /\ error_kind e <> Some MissingMate.
Proof.
  eexists. split; [ reflexivity | ]. simpl. discriminate.
Qed.

(** The error of a missing mate belongs to the first file of a pair. *)
Lemma first_mate_alone_is_missing_mate :
  exists e,
    build BWA example_env ["sample.fastq.1.gz"] "sample.bam"
      (start (new_BWA false false false)) = Raise e
    /\ error_kind e = Some MissingMate.
Proof.
  eexists. split; reflexivity.
Qed.

(** ** The number of files of the groups *)

Lemma fold_max_same n l :
  Forall (eq n) l -> fold_left Nat.max l n = n.
Proof.
  induction 1 as [|x l <- _ IH]; simpl; [ reflexivity | ].
  now rewrite Nat.max_id.
Qed.

Lemma fold_min_same n l :
  Forall (eq n) l -> fold_left Nat.min l n = n.
Proof.
  induction 1 as [|x l <- _ IH]; simpl; [ reflexivity | ].
  now rewrite Nat.min_id.
Qed.

Lemma count_files_uniform (infiles : list (list string)) n :
  infiles <> [] ->
  Forall (fun g => List.length g = n) infiles ->
  count_files infiles = Ok n.
Proof.
  intros Hne Hall. destruct infiles as [|g rest]; [ congruence | ].
  inversion Hall as [|? ? Hg Hrest]; subst.
  assert (Hsame : Forall (eq (List.length g)) (map (@List.length string) rest)).
  { apply Forall_map. eapply Forall_impl; [ | exact Hrest ].
    simpl. intros a Ha. now rewrite Ha. }
  unfold count_files. simpl.
  rewrite (fold_max_same _ _ Hsame), (fold_min_same _ _ Hsame).
  now rewrite Nat.eqb_refl.
Qed.

Lemma fold_max_bounds l : forall x y,
  In y (x :: l) -> y <= fold_left Nat.max l x.
Proof.
  induction l as [|z l IH]; simpl; intros x y Hin.
  - destruct Hin as [<- | []]. lia.
  - destruct Hin as [<- | [<- | Hin]].
    + etransitivity; [ | apply (IH (Nat.max x z) (Nat.max x z)); now left ].
      lia.
    + etransitivity; [ | apply (IH (Nat.max x z) (Nat.max x z)); now left ].
      lia.
    + apply IH. now right.
Qed.

Lemma fold_min_bounds l : forall x y,
  In y (x :: l) -> fold_left Nat.min l x <= y.
Proof.
  induction l as [|z l IH]; simpl; intros x y Hin.
  - destruct Hin as [<- | []]. lia.
  - destruct Hin as [<- | [<- | Hin]].
    + etransitivity; [ apply (IH (Nat.min x z) (Nat.min x z)); now left | ].
      lia.
    + etransitivity; [ apply (IH (Nat.min x z) (Nat.min x z)); now left | ].
      lia.
    + apply IH. now right.
Qed.

Lemma count_files_mixed infiles :
  mixed infiles ->
  count_files infiles
  = Raise (ValueError "mixing single and paired-ended data not possible.").
Proof.
  intros (g1 & g2 & H1 & H2 & Hne).
  destruct infiles as [|g rest]; [ contradiction | ].
  unfold count_files. simpl.
  set (x := List.length g). set (l := map (@List.length string) rest).
  assert (Hin : forall h, In h (g :: rest) -> In (List.length h) (x :: l)).
  { intros h Hh. change (x :: l) with (map (@List.length string) (g :: rest)).
    now apply in_map. }
  pose proof (fold_max_bounds l x _ (Hin _ H1)) as A1.
  pose proof (fold_max_bounds l x _ (Hin _ H2)) as A2.
  pose proof (fold_min_bounds l x _ (Hin _ H1)) as B1.
  pose proof (fold_min_bounds l x _ (Hin _ H2)) as B2.
  destruct (Nat.eqb_spec (fold_left Nat.max l x) (fold_left Nat.min l x))
    as [E|E]; simpl; [ lia | reflexivity ].
Qed.

(** ** [Sailfish.mapper] *)

Lemma sailfish_quant_format d :
  format tpl_sailfish_quant d = Ok "sailfish quant -i %(index)s".
Proof. reflexivity. Qed.

(** C7: on a read set whose groups all hold [n] files, [n] being neither
    one nor two (four, for one), [Sailfish.mapper] raises the
    [ValueError] of a number of files that it does not support, and
    returns no statement. *)
Theorem Sailfish_rejects_other_arities env infiles outfile st n :
  infiles <> [] ->
  Forall (fun g => List.length g = n) infiles ->
  n <> 1 -> n <> 2 ->
  Sailfish_mapper env infiles outfile st
  = Raise (ValueError "incorrect number of input files")
  /\ error_kind (ValueError "incorrect number of input files")
     = Some UnsupportedArity.
Proof.
  intros Hne Hall H1 H2. split; [ | reflexivity ].
  unfold Sailfish_mapper.
  rewrite (bind_Ok _ _ st (self st) st eq_refl).
  rewrite (bind_Ok _ _ st _ st (lift_Ok _ st _ (sailfish_quant_format _))).
  rewrite (bind_Ok _ _ st n st
             (lift_Ok _ st _ (count_files_uniform _ _ Hne Hall))).
  destruct (Nat.eqb_spec n 1) as [E|_]; [ contradiction | ].
  destruct (Nat.eqb_spec n 2) as [E|_]; [ contradiction | ].
  reflexivity.
Qed.

Lemma Sailfish_rejects_other_arities_witness :
  [["r.F3"; "r.F5"; "q.F3"; "q.F5"]] <> []
  /\ Forall (fun g => List.length g = 4) [["r.F3"; "r.F5"; "q.F3"; "q.F5"]]
  /\ 4 <> 1 /\ 4 <> 2
  /\ (Sailfish_mapper example_env [["r.F3"; "r.F5"; "q.F3"; "q.F5"]]
        "quant.sf"
        (start (new_Sailfish true "unknown" "towards" "4"))
      = Raise (ValueError "incorrect number of input files")
      /\ error_kind (ValueError "incorrect number of input files")
         = Some UnsupportedArity).
Proof.
  assert (H0 : [["r.F3"; "r.F5"; "q.F3"; "q.F5"]] <> []) by discriminate.
  assert (H1 : Forall (fun g : list string => List.length g = 4)
                 [["r.F3"; "r.F5"; "q.F3"; "q.F5"]]).
  { constructor; [ reflexivity | constructor ]. }
  assert (H2 : 4 <> 1) by lia.
  assert (H3 : 4 <> 2) by lia.
  exact (conj H0 (conj H1 (conj H2 (conj H3
           (Sailfish_rejects_other_arities example_env _ "quant.sf"
              (start (new_Sailfish true "unknown" "towards" "4")) 4
              H0 H1 H2 H3))))).
Defined.

(** ** [FastQc.mapper] *)

(** The template of the branch [if self.nogroup:] names [contaminats],
    which the method never binds. *)
Lemma FastQc_body_nogroup o infiles outfile f statement ix st :
  nogroup o = true ->
  FastQc_body o infiles outfile f statement ix st
  = Raise (KeyError "contaminats").
Proof.
  intros Hng. unfold FastQc_body. rewrite Hng.
  apply bind_Raise. reflexivity.
Qed.

(** The groups before the first file are passed over, and the first
    file raises. *)
Lemma FastQc_nogroup_some_file env infiles outfile st :
  nogroup (self st) = true ->
  Exists (fun g => g <> []) infiles ->
  FastQc_mapper env infiles outfile st = Raise (KeyError "contaminats").
Proof.
  intros Hng Hex. unfold FastQc_mapper.
  rewrite (bind_Ok _ _ st (self st) st eq_refl).
  apply bind_Raise.
  generalize (@nil string) as acc. generalize infiles at 1 as orig.
  induction Hex as [g rest Hg | g rest _ IH]; intros orig acc.
  - destruct g as [|x g]; [ congruence | ].
    cbn [for_each]. apply bind_Raise.
    unfold enumerate. cbn [List.length seq combine for_each].
    apply bind_Raise. now apply FastQc_body_nogroup.
  - destruct g as [|x g].
    + cbn [for_each]. unfold enumerate at 1.
      cbn [List.length seq combine for_each].
      unfold bind at 1. unfold ret at 1. apply IH.
    + cbn [for_each]. apply bind_Raise.
      unfold enumerate. cbn [List.length seq combine for_each].
      apply bind_Raise. now apply FastQc_body_nogroup.
Qed.

(** C10: with [nogroup] set, [FastQc.mapper] raises [KeyError] for the
    name [contaminats] on every list of file groups that is not empty (a
    file group holds at least one file), and returns no statement. *)
Theorem FastQc_nogroup_always_raises env infiles outfile st :
  nogroup (self st) = true ->
  infiles <> [] ->
  Forall (fun g => g <> []) infiles ->
  FastQc_mapper env infiles outfile st = Raise (KeyError "contaminats").
Proof.
  intros Hng Hne Hall.
  apply FastQc_nogroup_some_file; [ assumption | ].
  destruct infiles as [|g rest]; [ congruence | ].
  inversion Hall as [|? ? Hg _]; subst.
  now constructor.
Qed.

Lemma FastQc_nogroup_always_raises_witness :
  nogroup (self (start (new_FastQc true "." None))) = true
  /\ [["a.fastq.gz"]] <> []
  /\ Forall (fun g : list string => g <> []) [["a.fastq.gz"]]
  /\ FastQc_mapper example_env [["a.fastq.gz"]] "a.fastqc"
       (start (new_FastQc true "." None))
     = Raise (KeyError "contaminats").
Proof.
  assert (H0 : nogroup (self (start (new_FastQc true "." None))) = true)
    by reflexivity.
  assert (H1 : [["a.fastq.gz"]] <> []) by discriminate.
  assert (H2 : Forall (fun g : list string => g <> []) [["a.fastq.gz"]]).
  { constructor; [ discriminate | constructor ]. }
  exact (conj H0 (conj H1 (conj H2
           (FastQc_nogroup_always_raises example_env _ "a.fastqc" _
              H0 H1 H2)))).
Defined.

(** Without the option the template names [contaminants], and the
    statement is built. *)
Lemma FastQc_without_nogroup_example :
  exists cmd st',
    FastQc_mapper example_env [["a.fastq.gz"]] "a.fastqc"
      (start (new_FastQc false "." None)) = Ok (cmd, st')
    /\ occurs "rm -f None ;" cmd = true.
Proof. do 2 eexists. split; [ lazy; reflexivity | vm_compute; reflexivity ]. Qed.

(** When no group holds a file the loops do not run the template. *)
Lemma FastQc_nogroup_no_files env infiles outfile st :
  Forall (fun g => g = []) infiles ->
  FastQc_mapper env infiles outfile st = Ok (EmptyString, st).
Proof.
  intros Hall. unfold FastQc_mapper.
  rewrite (bind_Ok _ _ st (self st) st eq_refl).
  assert (H : forall acc,
             for_each
               (fun statement f =>
                  for_each (FastQc_body (self st) infiles outfile f)
                    (enumerate f) statement)
               infiles acc st = Ok (acc, st)).
  { generalize infiles at 1 as orig. intros orig.
    induction Hall as [|g rest -> _ IH]; intros acc; [ reflexivity | ].
    cbn [for_each]. unfold enumerate at 1. cbn [List.length seq combine for_each].
    unfold bind at 1. unfold ret at 1. apply IH. }
  rewrite (bind_Ok _ _ st _ st (H [])). reflexivity.
Qed.

(** ** Read sets whose groups differ in size *)

Lemma BWA_mapper_mixed env mapfiles outfile st :
  mixed mapfiles ->
  BWA_mapper env mapfiles outfile st
  = Raise (ValueError "mixing single and paired-ended data not possible.").
Proof.
  intros Hmix. unfold BWA_mapper. apply bind_Raise.
  unfold lift. now rewrite (count_files_mixed _ Hmix).
Qed.

Lemma Tophat_mapper_mixed env mapfiles outfile st :
  mixed mapfiles ->
  Tophat_mapper env mapfiles outfile st
  = Raise (ValueError "mixing single and paired-ended data not possible.").
Proof.
  intros Hmix. unfold Tophat_mapper.
  rewrite (bind_Ok _ _ st (self st) st eq_refl).
  apply bind_Raise.
  unfold lift. now rewrite (count_files_mixed _ Hmix).
Qed.

Lemma build_mapper_raises C env infiles outfile st p mapfiles st1 e :
  s_preprocess C env infiles outfile st = Ok ((p, mapfiles), st1) ->
  s_mapper C env mapfiles outfile st1 = Raise e ->
  build C env infiles outfile st = Raise e.
Proof.
  intros Hp Hm. unfold build.
  rewrite (bind_Ok _ _ _ _ _ Hp). cbn [fst snd].
  now apply bind_Raise.
Qed.

(** C8, as the code has it: the sizes of the groups are compared by the
    align phase of the aligners.  When [preprocess] returns groups that
    do not all have one size, [BWA.build] and [Tophat.build] raise the
    [ValueError] of mixed data from [mapper], and no statement of the
    align phase is returned. *)
Theorem aligners_reject_mixed_read_sets
    env infiles outfile st cmd mapfiles st1 :
  preprocess env infiles outfile st = Ok ((cmd, mapfiles), st1) ->
  mixed mapfiles ->
  BWA_mapper env mapfiles outfile st1
  = Raise (ValueError "mixing single and paired-ended data not possible.")
  /\ build BWA env infiles outfile st
     = Raise (ValueError "mixing single and paired-ended data not possible.")
  /\ Tophat_mapper env mapfiles outfile st1
     = Raise (ValueError "mixing single and paired-ended data not possible.")
  /\ build Tophat env infiles outfile st
     = Raise (ValueError "mixing single and paired-ended data not possible.")
  /\ error_kind
       (ValueError "mixing single and paired-ended data not possible.")
     = Some ArityMismatch.
Proof.
  intros Hpre Hmix.
  pose proof (BWA_mapper_mixed env mapfiles outfile st1 Hmix) as HB.
  pose proof (Tophat_mapper_mixed env mapfiles outfile st1 Hmix) as HT.
  split; [ exact HB | ].
  split; [ exact (build_mapper_raises BWA _ _ _ _ _ _ _ _ Hpre HB) | ].
  split; [ exact HT | ].
  split; [ exact (build_mapper_raises Tophat _ _ _ _ _ _ _ _ Hpre HT) | ].
  reflexivity.
Qed.

Lemma mixed_example :
  mixed [["a.fastq.gz"]; ["b.fastq.1.gz"; "b.fastq.2.gz"]].
Proof.
  exists ["a.fastq.gz"], ["b.fastq.1.gz"; "b.fastq.2.gz"].
  split; [ now left | split; [ right; now left | discriminate ] ].
Qed.

Lemma aligners_reject_mixed_read_sets_witness :
  exists cmd st1,
    preprocess example_env ["a.fastq.gz"; "b.fastq.1.gz"] "s.bam"
      (start (new_BWA false false false))
    = Ok ((cmd, [["a.fastq.gz"]; ["b.fastq.1.gz"; "b.fastq.2.gz"]]), st1)
    /\ mixed [["a.fastq.gz"]; ["b.fastq.1.gz"; "b.fastq.2.gz"]]
    /\ build BWA example_env ["a.fastq.gz"; "b.fastq.1.gz"] "s.bam"
         (start (new_BWA false false false))
       = Raise
           (ValueError "mixing single and paired-ended data not possible.").
Proof.
  do 2 eexists.
  match goal with
  | |- ?A /\ _ => assert (Hpre : A)
  end.
  - lazy; reflexivity.
  - exact (conj Hpre (conj mixed_example
             (proj1 (proj2
                (aligners_reject_mixed_read_sets _ _ _ _ _ _ _
                   Hpre mixed_example))))).
Defined.

(** C8, as the claim states it, fails for the classes whose [mapper]
    does not compare the sizes: [Counter] builds the plan of a job with a
    single-end group and a paired-end group. *)
Lemma Counter_builds_mixed_read_set :
  exists cmd mapfiles st1 plan st',
    preprocess example_env ["a.fastq.gz"; "b.fastq.1.gz"] "s.nreads"
      (start new_Counter) = Ok ((cmd, mapfiles), st1)
    /\ mixed mapfiles
    /\ build Counter example_env ["a.fastq.gz"; "b.fastq.1.gz"] "s.nreads"
         (start new_Counter) = Ok (plan, st').
Proof.
  do 5 eexists.
  split; [ lazy; reflexivity | ].
  split; [ exact mixed_example | lazy; reflexivity ].
Qed.

(** ** [BWA.mapper] *)

Lemma item_nth (g : list string) i :
  i < List.length g -> item g i = Ok (nth i g EmptyString).
Proof.
  intros Hi. unfold item. now rewrite (nth_error_nth' g EmptyString Hi).
Qed.

Lemma quoted_column_mates o i infiles :
  Forall (fun g => i < List.length g) infiles ->
  quoted_column o i infiles = Ok (mates o i infiles).
Proof.
  intros Hall. unfold quoted_column, mates.
  assert (H : comprehension
                (fun x => rbind (item x i) (fun s => Ok (quoteFile o s)))
                infiles
              = Ok (map (fun g => quoteFile o (nth i g EmptyString)) infiles)).
  { induction Hall as [|g rest Hg _ IH]; [ reflexivity | ].
    cbn [comprehension map]. rewrite (item_nth _ _ Hg). cbn [rbind].
    now rewrite IH. }
  now rewrite H.
Qed.

Lemma bwa_index_eq o :
  (if String.eqb (datatype o) "solid" then "%(bwa_index_dir)s/%(genome)s_cs"
   else if String.eqb (datatype o) "fasta" then "%(bwa_index_dir)s/%(genome)s"
        else "%(bwa_index_dir)s/%(genome)s") = bwa_index o.
Proof.
  unfold bwa_index.
  destruct (String.eqb (datatype o) "solid"),
    (String.eqb (datatype o) "fasta"); reflexivity.
Qed.

Lemma Forall_lt (infiles : list (list string)) n i :
  i < n ->
  Forall (fun g => List.length g = n) infiles ->
  Forall (fun g => i < List.length g) infiles.
Proof.
  intros Hi Hall. eapply Forall_impl; [ | exact Hall ].
  simpl. intros g Hg. now rewrite Hg.
Qed.

Section BWA_mapper.

Variables (env : Env) (infiles : list (list string)) (outfile : string).
Variables (st : State) (dir track : string).
Hypothesis Hdir : tmpdir_fastq (self st) = Some dir.
Hypothesis Htrack : snip env (basename outfile) ".bam" = Ok track.
Hypothesis Hne : infiles <> [].

Lemma BWA_mapper_paired :
  Forall (fun g => List.length g = 2) infiles ->
  BWA_mapper env infiles outfile st =
  Ok (BWA_paired_statement (bwa_index (self st))
        (mates (self st) 0 infiles) (mates (self st) 1 infiles)
        (dir ++ "bwa") track outfile,
      mkState (set_tmpdir (dir ++ "bwa") (self st)) (ntemp st)).
Proof.
  intros Hall. unfold BWA_mapper.
  rewrite (bind_Ok _ _ st 2 st
             (lift_Ok _ st _ (count_files_uniform _ _ Hne Hall))).
  rewrite (bind_Ok _ _ st (self st) st eq_refl).
  rewrite Hdir. cbn [attr].
  rewrite (bind_Ok _ _ st dir st eq_refl).
  rewrite (bind_Ok _ _ st track st (lift_Ok _ st _ Htrack)).
  cbn [Nat.eqb].
  rewrite bwa_index_eq.
  unfold bind at 1. unfold bind at 1.
  rewrite (lift_Ok _ st _
             (quoted_column_mates (self st) 0 infiles
                (Forall_lt _ 2 0 ltac:(lia) Hall))).
  unfold bind at 1.
  rewrite (lift_Ok _ st _
             (quoted_column_mates (self st) 1 infiles
                (Forall_lt _ 2 1 ltac:(lia) Hall))).
  unfold BWA_paired_statement.
  generalize (mates (self st) 0 infiles) (mates (self st) 1 infiles)
    (bwa_index (self st)) (dir ++ "bwa") (track ++ ".1") (track ++ ".2").
  intros reads1 reads2 index tmpdir track1 track2.
  match goal with
  | |- context [format tpl_bwa_paired ?d] =>
      assert (Hf : format tpl_bwa_paired d =
                   Ok (nl ++ pad
                       ++ join (" checkpoint;" ++ nl ++ pad)
                            [ BWA_aln index reads1 tmpdir track1 outfile;
                              BWA_aln index reads2 tmpdir track2 outfile;
                              BWA_sampe index reads1 reads2 tmpdir track1
                                track2 track outfile ]
                       ++ nl ++ pad))
  end.
  { unfold BWA_aln, BWA_sampe, pad, join. cbn [String.concat].
    rewrite !append_assoc. reflexivity. }
  unfold bind at 1. rewrite (lift_Ok _ st _ Hf). reflexivity.
Qed.

Lemma BWA_mapper_single :
  Forall (fun g => List.length g = 1) infiles ->
  BWA_mapper env infiles outfile st =
  Ok (BWA_single_statement (bwa_index (self st))
        (mates (self st) 0 infiles) (dir ++ "bwa") track outfile,
      mkState (set_tmpdir (dir ++ "bwa") (self st)) (ntemp st)).
Proof.
  intros Hall. unfold BWA_mapper.
  rewrite (bind_Ok _ _ st 1 st
             (lift_Ok _ st _ (count_files_uniform _ _ Hne Hall))).
  rewrite (bind_Ok _ _ st (self st) st eq_refl).
  rewrite Hdir. cbn [attr].
  rewrite (bind_Ok _ _ st dir st eq_refl).
  rewrite (bind_Ok _ _ st track st (lift_Ok _ st _ Htrack)).
  cbn [Nat.eqb].
  rewrite bwa_index_eq.
  unfold bind at 1. unfold bind at 1.
  rewrite (lift_Ok _ st _
             (quoted_column_mates (self st) 0 infiles
                (Forall_lt _ 1 0 ltac:(lia) Hall))).
  unfold BWA_single_statement.
  generalize (mates (self st) 0 infiles) (bwa_index (self st)) (dir ++ "bwa").
  intros reads index tmpdir.
  match goal with
  | |- context [format tpl_bwa_single ?d] =>
      assert (Hf : format tpl_bwa_single d =
                   Ok (nl ++ pad
                       ++ join (nl ++ pad)
                            [ BWA_aln index reads tmpdir track outfile;
                              BWA_samse reads tmpdir track outfile ]
                       ++ nl ++ pad))
  end.
  { unfold BWA_aln, BWA_samse, pad, join. cbn [String.concat].
    rewrite !append_assoc. reflexivity. }
  unfold bind at 1. rewrite (lift_Ok _ st _ Hf). reflexivity.
Qed.

Lemma BWA_mapper_other n :
  n <> 1 -> n <> 2 ->
  Forall (fun g => List.length g = n) infiles ->
  BWA_mapper env infiles outfile st
  = Raise (ValueError ("unexpected number read files to map: "
                         ++ str_of_nat n ++ " ")).
Proof.
  intros H1 H2 Hall. unfold BWA_mapper.
  rewrite (bind_Ok _ _ st n st
             (lift_Ok _ st _ (count_files_uniform _ _ Hne Hall))).
  rewrite (bind_Ok _ _ st (self st) st eq_refl).
  rewrite Hdir. cbn [attr].
  rewrite (bind_Ok _ _ st dir st eq_refl).
  rewrite (bind_Ok _ _ st track st (lift_Ok _ st _ Htrack)).
  destruct (Nat.eqb_spec n 1) as [E|_]; [ contradiction | ].
  destruct (Nat.eqb_spec n 2) as [E|_]; [ contradiction | ].
  reflexivity.
Qed.

End BWA_mapper.

(** C9: after [preprocess] has set the temporary directory, and for an
    output file that ends in [.bam], [BWA.mapper] aligns groups of two
    files in two passes, the first files of all groups and then the
    second files, each pass a [bwa aln] with a checkpoint after it, and
    merges the two results with [bwa sampe] into one SAM file; it aligns
    groups of one file in one pass; and it raises the [ValueError] of an
    unexpected number of files for groups of any other size. *)
Theorem BWA_aligns_pairs_in_two_passes
    env infiles outfile st dir track :
  tmpdir_fastq (self st) = Some dir ->
  snip env (basename outfile) ".bam" = Ok track ->
  infiles <> [] ->
  (Forall (fun g => List.length g = 2) infiles ->
   BWA_mapper env infiles outfile st =
   Ok (BWA_paired_statement (bwa_index (self st))
         (mates (self st) 0 infiles) (mates (self st) 1 infiles)
         (dir ++ "bwa") track outfile,
       mkState (set_tmpdir (dir ++ "bwa") (self st)) (ntemp st)))
  /\ (Forall (fun g => List.length g = 1) infiles ->
      BWA_mapper env infiles outfile st =
      Ok (BWA_single_statement (bwa_index (self st))
            (mates (self st) 0 infiles) (dir ++ "bwa") track outfile,
          mkState (set_tmpdir (dir ++ "bwa") (self st)) (ntemp st)))
  /\ (forall n, n <> 1 -> n <> 2 ->
      Forall (fun g => List.length g = n) infiles ->
      BWA_mapper env infiles outfile st
      = Raise (ValueError ("unexpected number read files to map: "
                             ++ str_of_nat n ++ " "))
      /\ error_kind (ValueError ("unexpected number read files to map: "
                                   ++ str_of_nat n ++ " "))
         = Some UnsupportedArity).
Proof.
  intros Hdir Htrack Hne.
  split; [ now apply BWA_mapper_paired | ].
  split; [ now apply BWA_mapper_single | ].
  intros n H1 H2 Hall.
  split; [ now apply (BWA_mapper_other _ _ _ _ dir track) | reflexivity ].
Qed.

Lemma BWA_aligns_pairs_in_two_passes_witness :
  tmpdir_fastq
    (self (mkState (set_tmpdir_fastq "/tmp/tmp0" (new_BWA false false false))
             1))
  = Some "/tmp/tmp0"
  /\ snip example_env (basename "s.bam") ".bam" = Ok "s"
  /\ [["b.fastq.1.gz"; "b.fastq.2.gz"]] <> []
  /\ BWA_mapper example_env [["b.fastq.1.gz"; "b.fastq.2.gz"]] "s.bam"
       (mkState (set_tmpdir_fastq "/tmp/tmp0" (new_BWA false false false)) 1)
     = Ok (BWA_paired_statement "%(bwa_index_dir)s/%(genome)s"
             "<( gunzip < b.fastq.1.gz )" "<( gunzip < b.fastq.2.gz )"
             "/tmp/tmp0bwa" "s" "s.bam",
           mkState
             (set_tmpdir "/tmp/tmp0bwa"
                (set_tmpdir_fastq "/tmp/tmp0" (new_BWA false false false)))
             1).
Proof.
  assert (H1 : tmpdir_fastq
                 (self (mkState
                          (set_tmpdir_fastq "/tmp/tmp0"
                             (new_BWA false false false)) 1))
               = Some "/tmp/tmp0") by reflexivity.
  assert (H2 : snip example_env (basename "s.bam") ".bam" = Ok "s")
    by reflexivity.
  assert (H3 : [["b.fastq.1.gz"; "b.fastq.2.gz"]] <> []) by discriminate.
  assert (H4 : Forall (fun g : list string => List.length g = 2)
                 [["b.fastq.1.gz"; "b.fastq.2.gz"]]).
  { constructor; [ reflexivity | constructor ]. }
  exact (conj H1 (conj H2 (conj H3
           (proj1 (BWA_aligns_pairs_in_two_passes example_env
                     [["b.fastq.1.gz"; "b.fastq.2.gz"]] "s.bam" _
                     "/tmp/tmp0" "s" H1 H2 H3) H4)))).
Defined.

(** ** The directories that [cleanup] removes *)

(** [BWA.mapper] records a work directory next to the temporary
    directory of [preprocess], and the [cleanup] that [BWA] inherits
    names the latter only. *)
Lemma BWA_mapper_work_directory env infiles outfile st m st' :
  BWA_mapper env infiles outfile st = Ok (m, st') ->
  exists dir,
    tmpdir_fastq (self st') = Some dir
    /\ tmpdir (self st') = Some (dir ++ "bwa")
    /\ Mapper_cleanup env outfile st' = Ok ("rm -rf " ++ dir ++ ";", st').
Proof.
  unfold BWA_mapper. intros H.
  inv_seq H.
  assert (Hs : s = st).
  { destruct (Nat.eqb a 1); [ inv_seq E2; reflexivity | ].
    destruct (Nat.eqb a 2); [ inv_seq E2; reflexivity | inv_seq E2 ]. }
  subst s. exists a0. cbn [self tmpdir_fastq tmpdir set_tmpdir].
  split; [ assumption | ]. split; [ reflexivity | ].
  unfold Mapper_cleanup, bind, get_self. cbn [self tmpdir_fastq set_tmpdir].
  rewrite E0. reflexivity.
Qed.


(** C6 at a single-end job of [BWA]: the plan ends with the cleanup
    statement, the align phase has made the directory [/tmp/tmp0bwa] and
    recorded it in [self.tmpdir], and the cleanup statement removes
    [/tmp/tmp0] only; the other directory is neither named in it nor
    below the one it removes.  [Butter.cleanup] names both. *)
Theorem BWA_cleanup_leaves_work_directory :
  exists plan st',
    build BWA example_env ["a.fastq.gz"] "a.bam"
      (start (new_BWA false false false)) = Ok (plan, st')
    /\ endswith plan " checkpoint; rm -rf /tmp/tmp0;" = true
    /\ occurs "mkdir -p /tmp/tmp0bwa;" plan = true
    /\ tmpdir_fastq (self st') = Some "/tmp/tmp0"
    /\ tmpdir (self st') = Some "/tmp/tmp0bwa"
    /\ Mapper_cleanup example_env "a.bam" st'
       = Ok ("rm -rf /tmp/tmp0;", st')
    /\ occurs "/tmp/tmp0bwa" "rm -rf /tmp/tmp0;" = false
    /\ startswith "/tmp/tmp0bwa" "/tmp/tmp0/" = false
    /\ Butter_cleanup example_env "a.bam" st'
       = Ok ("rm -rf /tmp/tmp0 /tmp/tmp0bwa;", st').
Proof.
  do 2 eexists. split; [ lazy; reflexivity | ].
  repeat split; vm_compute; reflexivity.
Qed.

(** ** [Mapper.preprocess] *)

(** *** The suffixes that the loop tests *)

Lemma startswith_inv s a p :
  startswith s (String a p) = true ->
  exists s', s = String a s' /\ startswith s' p = true.
Proof.
  destruct s as [|b s]; simpl; [ discriminate | ].
  intros H. apply andb_prop in H. destruct H as [H1 H2].
  apply Ascii.eqb_eq in H1. subst. eauto.
Qed.

Lemma csfasta_is_no_other_format infile :
  endswith infile ".csfasta.gz" = true ->
  endswith infile ".export.txt.gz" = false
  /\ endswith infile ".fa.gz" = false
  /\ endswith infile ".sra" = false
  /\ endswith infile ".fastq.gz" = false.
Proof.
  intros H. unfold endswith in *.
  set (r := rev_string EmptyString infile) in *. clearbody r.
  cbn [rev_string] in *.
  repeat (apply startswith_inv in H;
          let s' := fresh "s" in
          destruct H as (s' & -> & H)).
  repeat split; reflexivity.
Qed.

(** *** The conversion of colour space reads *)

(** One input file: the loop runs its body once. *)
Section OneInput.

Variables (env : Env) (infile outfile : string) (st : State).

Lemma preprocess_one_Raise e :
  first_step env infile outfile st = Raise e -> preprocess env [infile] outfile st = Raise e.
Proof.
  unfold first_step. intros H.
  cbv beta iota delta [preprocess bind assert getTempDir get_self ret
                         for_each List.length Nat.ltb Nat.leb].
  cbn [self ntemp]. now rewrite H.
Qed.

Lemma preprocess_one_Ok v s :
  first_step env infile outfile st = Ok (v, s) ->
  preprocess env [infile] outfile st =
  if Nat.ltb 0 (List.length (fastqfiles v))
  then Ok ((join "; " (statement v) ++ ";", fastqfiles v),
           mkState (set_tmpdir_fastq (tempdir_name env (ntemp st)) (self s))
             (ntemp s))
  else Raise (AssertionError "no fastq files for mapping").
Proof.
  unfold first_step. intros H.
  cbv beta iota delta [preprocess bind assert getTempDir get_self ret
                         for_each List.length Nat.ltb Nat.leb
                         modify_self raise].
  cbn [self ntemp]. rewrite H.
  destruct (fastqfiles v); reflexivity.
Qed.

End OneInput.

(** C4, first half, as the code has it: for a class that does not
    preserve colour space, the template of the conversion command ends in
    [%(extension)] without a type character, so that [preprocess] raises
    the [ValueError] of an incomplete format for every input that ends in
    [.csfasta.gz]: no [solid2fastq] command is recorded and no group is
    returned. *)
Theorem colourspace_conversion_raises env infile outfile st stem :
  preserve_colourspace (self st) = false ->
  endswith infile ".csfasta.gz" = true ->
  snip env infile ".csfasta.gz" = Ok stem ->
  preprocess env [infile] outfile st = Raise (ValueError "incomplete format").
Proof.
  intros Hpc Hsuf Hsnip.
  destruct (csfasta_is_no_other_format _ Hsuf) as (N1 & N2 & N3 & N4).
  apply preprocess_one_Raise. unfold first_step.
  unfold preprocess_step. rewrite N1, N2, N3, N4, Hsuf.
  unfold preprocess_csfasta.
  unfold bind at 1. cbn [get_self self]. rewrite Hpc.
  unfold bind at 1. rewrite (lift_Ok _ _ _ Hsnip).
  apply bind_Raise. reflexivity.
Qed.

Lemma colourspace_conversion_raises_witness :
  preserve_colourspace (self (start (new_BWA false false false))) = false
  /\ endswith "c.csfasta.gz" ".csfasta.gz" = true
  /\ snip example_env "c.csfasta.gz" ".csfasta.gz" = Ok "c"
  /\ preprocess example_env ["c.csfasta.gz"] "c.bam"
       (start (new_BWA false false false))
     = Raise (ValueError "incomplete format").
Proof.
  assert (H1 : preserve_colourspace (self (start (new_BWA false false false)))
               = false) by reflexivity.
  assert (H2 : endswith "c.csfasta.gz" ".csfasta.gz" = true) by reflexivity.
  assert (H3 : snip example_env "c.csfasta.gz" ".csfasta.gz" = Ok "c")
    by reflexivity.
  exact (conj H1 (conj H2 (conj H3
           (colourspace_conversion_raises example_env "c.csfasta.gz" "c.bam"
              (start (new_BWA false false false)) "c" H1 H2 H3)))).
Defined.

(** The sibling branch for paired colour space reads ([.csfasta.F3.gz])
    has the complete conversion [%(extension)s]: the same template with
    its last character in place formats. *)
Lemma solid2fastq_f3_template :
  tpl_solid2fastq_f3 = tpl_solid2fastq_single ++ "s".
Proof. reflexivity. Qed.

(** The other branch: a class that preserves colour space keeps the reads
    and their quality file as a group of two files in the temporary
    directory, and a quality file that does not exist is an error. *)
Lemma colourspace_preserved env infile outfile st stem :
  preserve_colourspace (self st) = true ->
  endswith infile ".csfasta.gz" = true ->
  snip env infile ".csfasta.gz" = Ok stem ->
  (path_exists env (stem ++ ".qual.gz") = false ->
   preprocess env [infile] outfile st
   = Raise (ValueError ("no quality file for " ++ infile)))
  /\ (path_exists env (stem ++ ".qual.gz") = true ->
      exists cmd,
        preprocess env [infile] outfile st
        = Ok ((cmd,
               [[tempdir_name env (ntemp st) ++ "/"
                   ++ splitext_root (basename outfile) ++ ".csfasta"
                   ++ (if compress (self st) then ".gz" else EmptyString);
                 tempdir_name env (ntemp st) ++ "/"
                   ++ splitext_root (basename outfile) ++ ".qual"
                   ++ (if compress (self st) then ".gz" else EmptyString)]]),
              mkState
                (set_tmpdir_fastq (tempdir_name env (ntemp st))
                   (set_datatype "solid" (self st)))
                (S (ntemp st)))).
Proof.
  intros Hpc Hsuf Hsnip.
  destruct (csfasta_is_no_other_format _ Hsuf) as (N1 & N2 & N3 & N4).
  split; intros Hq.
  - apply preprocess_one_Raise. unfold first_step.
    unfold preprocess_step. rewrite N1, N2, N3, N4, Hsuf.
    unfold preprocess_csfasta.
    unfold bind at 1. cbn [get_self self]. rewrite Hpc.
    unfold bind at 1. rewrite (lift_Ok _ _ _ Hsnip).
    rewrite Hq. reflexivity.
  - eexists. erewrite preprocess_one_Ok.
    2:{ unfold first_step.
        unfold preprocess_step. rewrite N1, N2, N3, N4, Hsuf.
        unfold preprocess_csfasta.
        unfold bind at 1. cbn [get_self self]. rewrite Hpc.
        unfold bind at 1. rewrite (lift_Ok _ _ _ Hsnip).
        rewrite Hq. cbn [negb]. reflexivity. }
    reflexivity.
Qed.

(** *** The sizes of the groups that [preprocess] returns *)

Lemma for_each_invariant {A V : Type} (body : V -> A -> M V)
    (P : V -> Prop) (l : list A) :
  (forall v x st v' st',
     In x l -> P v -> body v x st = Ok (v', st') -> P v') ->
  forall v st v' st',
    P v -> for_each body l v st = Ok (v', st') -> P v'.
Proof.
  induction l as [|x l IH]; intros Hbody v st v' st' Hv H.
  - apply ret_inv in H. destruct H; now subst.
  - cbn [for_each] in H. apply bind_inv in H.
    destruct H as (v1 & st1 & H1 & H).
    apply (IH (fun v0 y s v0' s' Hy => Hbody v0 y s v0' s' (or_intror Hy))
             v1 st1 v' st').
    + apply (Hbody v x st v1 st1); [ now left | assumption | assumption ].
    + assumption.
Qed.

Lemma sorted_length l : List.length (sorted l) = List.length l.
Proof.
  assert (Hins : forall x m,
            List.length (insert_sorted x m) = S (List.length m)).
  { intros x m. induction m as [|y m IH]; [ reflexivity | ].
    simpl. destruct (String.leb x y); simpl; [ reflexivity | now rewrite IH ]. }
  induction l as [|x l IH]; [ reflexivity | ].
  simpl. now rewrite Hins, IH.
Qed.

Section Steps.

Variables (env : Env) (outfile tmpdir_fastq compress_cmd extension : string).

Lemma colour_paired_body_inv infile bn v f suffix st v' f' st' :
  colour_paired_body env outfile tmpdir_fastq compress_cmd extension
    infile bn (v, f) suffix st = Ok ((v', f'), st') ->
  fastqfiles v' = fastqfiles v /\ List.length f' = S (List.length f).
Proof.
  unfold colour_paired_body. intros H.
  destruct (negb (path_exists env ((bn ++ "." ++ suffix) ++ ".gz")));
    [ now apply raise_inv in H | ].
  inv_seq H. injection H as -> ->.
  split; [ reflexivity | ].
  rewrite length_app. simpl. lia.
Qed.

Lemma preprocess_sra_adds v infile st v' st' :
  endswith infile ".sra" = true ->
  preprocess_sra env outfile tmpdir_fastq compress_cmd extension v infile st
  = Ok (v', st') ->
  step_adds env infile v v'.
Proof.
  unfold preprocess_sra. intros Hsra H.
  inv_seq H. destruct a as [f fmt].
  inv_seq H.
  destruct (str_in "sanger" fmt && convert _).
  - destruct (map _ (sorted f)) as [|x1 [|x2 [|x3 l]]] eqn:Hmap.
    + inv_seq H. now left.
    + inv_seq H. eapply or_intror, ex_intro, conj; [ reflexivity | ].
      now left.
    + inv_seq H. eapply or_intror, ex_intro, conj; [ reflexivity | ].
      right; now left.
    + inv_seq H. now left.
  - inv_seq H. eapply or_intror, ex_intro, conj; [ reflexivity | ].
    right; right; right. split; [ assumption | ].
    eexists _, f, fmt. split; [ eassumption | ].
    now rewrite length_map, sorted_length.
Qed.

Lemma preprocess_step_adds v infile st v' st' :
  preprocess_step env outfile tmpdir_fastq compress_cmd extension v infile st
  = Ok (v', st') ->
  step_adds env infile v v'.
Proof.
  unfold preprocess_step. intros H.
  destruct (endswith infile ".export.txt.gz").
  { inv_seq H. eapply or_intror, ex_intro, conj; [ reflexivity | now left ]. }
  destruct (endswith infile ".fa.gz").
  { inv_seq H. eapply or_intror, ex_intro, conj; [ reflexivity | now left ]. }
  destruct (endswith infile ".sra") eqn:Hsra.
  { now apply (preprocess_sra_adds _ _ _ _ _ Hsra H). }
  destruct (endswith infile ".fastq.gz").
  { inv_seq H.
    destruct (negb (str_in "sanger" _) && convert _); inv_seq H;
      (eapply or_intror, ex_intro, conj; [ reflexivity | now left ]). }
  destruct (endswith infile ".csfasta.gz").
  { unfold preprocess_csfasta in H. inv_seq H.
    destruct (preserve_colourspace (self _)).
    - inv_seq H.
      destruct (negb (path_exists env _)); inv_seq H.
      eapply or_intror, ex_intro, conj; [ reflexivity | right; now left ].
    - inv_seq H.
      eapply or_intror, ex_intro, conj; [ reflexivity | now left ]. }
  destruct (endswith infile ".csfasta.F3.gz").
  { unfold preprocess_csfasta_F3 in H. inv_seq H.
    destruct (preserve_colourspace (self _)).
    - inv_seq H. cbn [for_each] in E0.
      destruct a0 as [v4 f4].
      apply bind_inv in E0. destruct E0 as ([v1 f1] & s1 & E1 & E0).
      apply bind_inv in E0. destruct E0 as ([v2 f2] & s2 & E2 & E0).
      apply bind_inv in E0. destruct E0 as ([v3 f3] & s3 & E3 & E0).
      apply bind_inv in E0. destruct E0 as ([v5 f5] & s4 & E4 & E0).
      apply ret_inv in E0. destruct E0 as [E0 _]. injection E0 as -> ->.
      apply colour_paired_body_inv in E1, E2, E3, E4.
      destruct E1 as [F1 L1], E2 as [F2 L2], E3 as [F3 L3], E4 as [F4 L4].
      right. exists f5. cbn [fst snd add_fastqfiles fastqfiles].
      split; [ congruence | ].
      right; right; left. simpl in L1. lia.
    - inv_seq H.
      eapply or_intror, ex_intro, conj; [ reflexivity | now left ]. }
  destruct (endswith infile ".fastq.1.gz").
  { unfold preprocess_paired in H. inv_seq H.
    destruct (negb (path_exists env _)); inv_seq H.
    destruct (negb (str_in "sanger" _)); inv_seq H;
      (eapply or_intror, ex_intro, conj; [ reflexivity | right; now left ]). }
  now apply raise_inv in H.
Qed.

End Steps.

(** C2, as the code has it: every group that [preprocess] returns holds
    one, two or four files, or, for an archive, as many files as
    [Sra.peek] finds in it, and there is at least one group.  The sizes
    of different groups are not compared. *)
Theorem preprocess_group_sizes env infiles outfile st cmd mapfiles st' :
  preprocess env infiles outfile st = Ok ((cmd, mapfiles), st') ->
  Forall (group_size_ok env infiles) mapfiles /\ mapfiles <> [].
Proof.
  unfold preprocess. intros H. inv_seq H.
  injection H as -> ->.
  split.
  - pose proof (for_each_invariant
                  (preprocess_step env outfile (tempdir_name env (ntemp st))
                     (if compress (self st) then "| gzip" else EmptyString)
                     (if compress (self st) then ".gz" else EmptyString))
                  (fun v => Forall (group_size_ok env infiles) (fastqfiles v))
                  infiles) as Inv.
    eapply Inv; [ | | exact E0 ]; [ | constructor ].
    intros v x s0 v1 s1 Hin Hv Hstep.
    apply preprocess_step_adds in Hstep.
    destruct Hstep as [Heq | (g & Heq & Hg)]; rewrite Heq; [ assumption | ].
    apply Forall_app. split; [ assumption | ].
    constructor; [ | constructor ].
    unfold group_size_ok.
    destruct Hg as [Hg | [Hg | [Hg | (Hs & o & f & fmt & Hp & Hl)]]];
      [ tauto | tauto | tauto | ].
    right; right; right. now exists x, o, f, fmt.
  - destruct (fastqfiles a0); [ discriminate | discriminate ].
Qed.

Lemma preprocess_group_sizes_witness :
  exists cmd st',
    preprocess example_env ["a.fastq.gz"; "b.fastq.1.gz"] "s.bam"
      (start (new_BWA false false false))
    = Ok ((cmd, [["a.fastq.gz"]; ["b.fastq.1.gz"; "b.fastq.2.gz"]]), st')
    /\ (Forall (group_size_ok example_env ["a.fastq.gz"; "b.fastq.1.gz"])
          [["a.fastq.gz"]; ["b.fastq.1.gz"; "b.fastq.2.gz"]]
        /\ [["a.fastq.gz"]; ["b.fastq.1.gz"; "b.fastq.2.gz"]] <> []).
Proof.
  do 2 eexists.
  match goal with
  | |- ?A /\ _ => assert (Hpre : A)
  end.
  - lazy; reflexivity.
  - exact (conj Hpre (preprocess_group_sizes _ _ _ _ _ _ _ Hpre)).
Defined.

(** C2, as the claim states it, fails: for a single-end file and the
    first file of a pair, [preprocess] returns a group of one file and a
    group of two files, and raises nothing. *)
Lemma preprocess_returns_mixed_read_set :
  exists cmd mapfiles st',
    preprocess example_env ["a.fastq.gz"; "b.fastq.1.gz"] "s.bam"
      (start (new_BWA false false false)) = Ok ((cmd, mapfiles), st')
    /\ mixed mapfiles.
Proof.
  do 3 eexists. split; [ lazy; reflexivity | exact mixed_example ].
Qed.

(** The group of an archive has the size of the archive: three files
    here. *)
Lemma preprocess_archive_of_three_files :
  exists cmd g st',
    preprocess three_files_env ["r.sra"] "r.bam"
      (start (new_BWA false false false)) = Ok ((cmd, [g]), st')
    /\ List.length g = 3.
Proof.
  do 3 eexists. split; [ lazy; reflexivity | reflexivity ].
Qed.

(** * More properties *)

(** ** Prefixes, suffixes and white space *)

Lemma append_empty_r (s : string) : s ++ EmptyString = s.
Proof. induction s as [|c s IH]; simpl; [ reflexivity | now rewrite IH ]. Qed.

Lemma startswith_app (p s : string) : startswith (p ++ s) p = true.
Proof.
  induction p as [|c p IH]; simpl; [ now destruct s | ].
  now rewrite Ascii.eqb_refl, IH.
Qed.

Lemma rev_string_acc (s acc : string) :
  rev_string acc s = rev_string EmptyString s ++ acc.
Proof.
  revert acc. induction s as [|c s IH]; intros acc; simpl; [ reflexivity | ].
  rewrite IH, (IH (String c EmptyString)).
  now rewrite append_assoc.
Qed.

Lemma rev_string_app (a b : string) :
  rev_string EmptyString (a ++ b)
  = rev_string EmptyString b ++ rev_string EmptyString a.
Proof.
  induction a as [|c a IH]; simpl.
  - now rewrite append_empty_r.
  - rewrite rev_string_acc, IH, (rev_string_acc a (String c EmptyString)).
    now rewrite append_assoc.
Qed.

Lemma endswith_app (p suf : string) : endswith (p ++ suf) suf = true.
Proof.
  unfold endswith. rewrite rev_string_app. apply startswith_app.
Qed.

Lemma rstrip_all_space ws : all_space ws = true -> rstrip ws = EmptyString.
Proof.
  induction ws as [|c ws IH]; simpl; [ reflexivity | ].
  intros H. apply andb_prop in H. destruct H as [Hc Hws].
  now rewrite (IH Hws), Hc.
Qed.

Lemma rstrip_terminated b ws :
  all_space ws = true -> rstrip (b ++ ";" ++ ws) = b ++ ";".
Proof.
  intros Hws. induction b as [|c b IH].
  - simpl. now rewrite (rstrip_all_space _ Hws).
  - cbn [append rstrip]. cbn [append] in IH. rewrite IH.
    destruct b; reflexivity.
Qed.

Lemma lstrip_terminated b : endswith (lstrip (b ++ ";")) ";" = true.
Proof.
  induction b as [|c b IH]; [ reflexivity | ].
  cbn [append lstrip]. destruct (is_space c); [ exact IH | ].
  apply (endswith_app (String c b) ";").
Qed.

(** A string that ends with [;] and white space passes the test of
    [build]. *)
Lemma terminated_accepted b ws :
  all_space ws = true -> endswith (strip (b ++ ";" ++ ws)) ";" = true.
Proof.
  intros Hws. unfold strip. rewrite (rstrip_terminated _ _ Hws).
  apply lstrip_terminated.
Qed.

Lemma terminated_accepted_0 b : endswith (strip (b ++ ";")) ";" = true.
Proof.
  rewrite <- (append_empty_r (b ++ ";")), append_assoc.
  now apply terminated_accepted.
Qed.

(** ** The formatting of a template that ends with its terminator *)

Lemma format_all_space st ws d :
  all_space ws = true ->
  match st with
  | FText => format_with st ws d = Ok ws
  | FKey _ => format_with st ws d = Raise (ValueError "incomplete format key")
  | _ => True
  end.
Proof.
  revert st. induction ws as [|c ws IH]; intros st H.
  - destruct st; reflexivity.
  - cbn [all_space] in H. apply andb_prop in H. destruct H as [Hc Hws].
    assert (Hp : Ascii.eqb c "%" = false /\ Ascii.eqb c ")" = false).
    { unfold is_space in Hc.
      split; apply Ascii.eqb_neq; intros E; rewrite E in Hc;
        vm_compute in Hc; discriminate Hc. }
    destruct Hp as [Hp Hk].
    destruct st; cbn [format_with]; [ | exact I | | exact I ].
    + rewrite Hp. now rewrite (IH FText Hws).
    + rewrite Hk. exact (IH (FKey _) Hws).
Qed.

Lemma rbind_inv {A B} (r : result A) (k : A -> result B) b :
  rbind r k = Ok b -> exists a, r = Ok a /\ k a = Ok b.
Proof. destruct r as [a|e]; simpl; [ eauto | discriminate ]. Qed.

Lemma format_with_terminated t ws d :
  all_space ws = true ->
  forall st a,
    format_with st (t ++ ";" ++ ws) d = Ok a ->
    exists b, a = b ++ ";" ++ ws.
Proof.
  intros Hws. induction t as [|c t IH]; intros st a H.
  - change (EmptyString ++ ";" ++ ws) with (String ";" ws) in H.
    destruct st; cbn [format_with] in H.
    + change (Ascii.eqb ";" "%") with false in H. cbv iota in H.
      apply rbind_inv in H. destruct H as (s & E & H).
      rewrite (format_all_space FText ws d Hws) in E.
      injection E as <-. injection H as <-. now exists EmptyString.
    + discriminate H.
    + change (Ascii.eqb ";" ")") with false in H. cbv iota in H.
      now rewrite (format_all_space (FKey _) ws d Hws) in H.
    + discriminate H.
  - change (String c t ++ ";" ++ ws) with (String c (t ++ ";" ++ ws)) in H.
    destruct st; cbn [format_with] in H.
    + destruct (Ascii.eqb c "%").
      * exact (IH _ _ H).
      * apply rbind_inv in H. destruct H as (s & E & H).
        injection H as <-.
        destruct (IH _ _ E) as [b ->]. now exists (String c b).
    + destruct (Ascii.eqb c "%").
      * apply rbind_inv in H. destruct H as (s & E & H).
        injection H as <-.
        destruct (IH _ _ E) as [b ->]. now exists (String c b).
      * destruct (Ascii.eqb c "("); [ exact (IH _ _ H) | discriminate H ].
    + destruct (Ascii.eqb c ")").
      * destruct (lookup name d); [ exact (IH _ _ H) | discriminate H ].
      * exact (IH _ _ H).
    + apply rbind_inv in H. destruct H as (piece & _ & H).
      apply rbind_inv in H. destruct H as (s & E & H).
      injection H as <-.
      destruct (IH _ _ E) as [b ->]. exists (piece ++ b).
      now rewrite append_assoc.
Qed.

(** A template is [t] followed by its terminator and white space: the
    whole of it but the last [1 + length ws] characters. *)
Lemma format_terminated template ws d a :
  all_space ws = true ->
  template
  = take (String.length template - S (String.length ws)) template
    ++ ";" ++ ws ->
  format template d = Ok a ->
  endswith (strip a) ";" = true.
Proof.
  intros Hws Ht H. rewrite Ht in H.
  destruct (format_with_terminated _ _ _ Hws _ _ H) as [b ->].
  now apply terminated_accepted.
Qed.

(** ** More on [Mapper.preprocess] *)

(** From [H : endswith s lit = true] to the falsity of the tests of
    suffixes that differ from [lit] in one of its last characters. *)
Ltac peel_suffix H :=
  unfold endswith in H |- *;
  match type of H with
  | startswith (rev_string EmptyString ?s) _ = true =>
      let r := fresh "r" in
      set (r := rev_string EmptyString s) in *; clearbody r;
      cbn [rev_string] in H |- *;
      repeat (apply startswith_inv in H;
              let s' := fresh "s" in
              destruct H as (s' & -> & H))
  end.


Lemma sra_is_no_other_format infile :
  endswith infile ".sra" = true ->
  endswith infile ".export.txt.gz" = false
  /\ endswith infile ".fa.gz" = false.
Proof. intros H. peel_suffix H. repeat split; reflexivity. Qed.

Lemma same_options_refl o : same_options o o.
Proof. unfold same_options. repeat split. Qed.

Lemma for_each_invariant_st {A V : Type} (body : V -> A -> M V)
    (P : V -> State -> Prop) (l : list A) :
  (forall v x st v' st',
     In x l -> P v st -> body v x st = Ok (v', st') -> P v' st') ->
  forall v st v' st',
    P v st -> for_each body l v st = Ok (v', st') -> P v' st'.
Proof.
  induction l as [|x l IH]; intros Hbody v st v' st' Hv H.
  - apply ret_inv in H. destruct H; now subst.
  - cbn [for_each] in H. apply bind_inv in H.
    destruct H as (v1 & st1 & H1 & H).
    apply (IH (fun v0 y s v0' s' Hy => Hbody v0 y s v0' s' (or_intror Hy))
             v1 st1 v' st').
    + apply (Hbody v x st v1 st1); [ now left | assumption | assumption ].
    + assumption.
Qed.

Lemma for_each_each {A V : Type} (body : V -> A -> M V) (l : list A) :
  forall v st r,
    for_each body l v st = Ok r ->
    Forall (fun x => exists v0 s0 r0, body v0 x s0 = Ok r0) l.
Proof.
  induction l as [|x l IH]; intros v st r H; [ constructor | ].
  cbn [for_each] in H. apply bind_inv in H.
  destruct H as (v1 & st1 & H1 & H).
  constructor; [ now exists v, st, (v1, st1) | exact (IH _ _ _ H) ].
Qed.

Section StepFacts.

Variables (env : Env) (outfile dir compress_cmd extension : string).

Lemma colour_paired_body_state infile bn vf suffix st vf' st' :
  colour_paired_body env outfile dir compress_cmd extension
    infile bn vf suffix st = Ok (vf', st') ->
  st' = st
  /\ fastqfiles (fst vf') = fastqfiles (fst vf)
  /\ exists more, statement (fst vf') = (statement (fst vf) ++ more)%list.
Proof.
  unfold colour_paired_body. destruct vf as [v f]. intros H.
  destruct (negb (path_exists env ((bn ++ "." ++ suffix) ++ ".gz")));
    [ now apply raise_inv in H | ].
  inv_seq H.
  split; [ reflexivity | ]. split; [ reflexivity | ].
  eexists. reflexivity.
Qed.

Lemma preprocess_step_recognised v infile st r :
  preprocess_step env outfile dir compress_cmd extension v infile st
  = Ok r ->
  recognised infile = true.
Proof.
  unfold preprocess_step, recognised. intros H.
  destruct (endswith infile ".export.txt.gz"); [ reflexivity | ].
  destruct (endswith infile ".fa.gz"); [ reflexivity | ].
  destruct (endswith infile ".sra"); [ reflexivity | ].
  destruct (endswith infile ".fastq.gz"); [ reflexivity | ].
  destruct (endswith infile ".csfasta.gz"); [ reflexivity | ].
  destruct (endswith infile ".csfasta.F3.gz"); [ reflexivity | ].
  destruct (endswith infile ".fastq.1.gz"); [ reflexivity | ].
  now apply raise_inv in H.
Qed.


Ltac step_done :=
  unfold same_options;
  cbn [self ntemp set_datatype fastqfiles statement add_fastqfiles
       add_statement set_track executable preserve_colourspace compress
       convert strip_sequence remove_non_unique tmpdir_fastq
       tmpdir tmpdir_tophat nogroup outdir contaminants strand orient
       threads remove_unique set_nh datatype fst snd];
  repeat match goal with |- _ /\ _ => split end;
  try reflexivity;
  try (left; reflexivity);
  try (right; left; reflexivity);
  try (eexists; rewrite <- ?app_assoc; reflexivity);
  try (exists []; now rewrite app_nil_r);
  try (intros _; eexists; reflexivity).

Lemma preprocess_step_state v infile st v' st' :
  preprocess_step env outfile dir compress_cmd extension v infile st
  = Ok (v', st') ->
  same_options (self st) (self st')
  /\ tmpdir_fastq (self st') = tmpdir_fastq (self st)
  /\ (datatype (self st') = datatype (self st)
      \/ datatype (self st') = "fasta"
      \/ (datatype (self st') = "solid"
          /\ preserve_colourspace (self st) = true))
  /\ ntemp st' = (if endswith infile ".sra" then S (ntemp st) else ntemp st)
  /\ (exists more, statement v' = (statement v ++ more)%list)
  /\ (convert (self st) = false ->
      exists g, fastqfiles v' = (fastqfiles v ++ [g])%list).
Proof.
  unfold preprocess_step. intros H.
  destruct (endswith infile ".sra") eqn:Hsra.
  { destruct (sra_is_no_other_format _ Hsra) as [N1 N2].
    rewrite N1, N2 in H. unfold preprocess_sra in H.
    inv_seq H. destruct a as [f fmt]. inv_seq H.
    cbn [self] in H.
    destruct (convert (self st)) eqn:Hconv.
    - destruct (str_in "sanger" fmt); cbn [andb] in H.
      + destruct (map _ (sorted f)) as [|x1 [|x2 [|x3 l]]];
          inv_seq H; step_done; intros; discriminate.
      + inv_seq H; step_done; intros; discriminate.
    - rewrite andb_false_r in H. inv_seq H. step_done. }
  destruct (endswith infile ".export.txt.gz").
  { inv_seq H. step_done. }
  destruct (endswith infile ".fa.gz").
  { inv_seq H. step_done. }
  destruct (endswith infile ".fastq.gz").
  { inv_seq H.
    destruct (negb (str_in "sanger" _) && convert _); inv_seq H; step_done. }
  destruct (endswith infile ".csfasta.gz").
  { unfold preprocess_csfasta in H. inv_seq H.
    destruct (preserve_colourspace (self st)) eqn:Hpc.
    - inv_seq H.
      destruct (negb (path_exists env _)); inv_seq H. step_done.
      right; right. now split.
    - inv_seq H. step_done. }
  destruct (endswith infile ".csfasta.F3.gz").
  { unfold preprocess_csfasta_F3 in H. inv_seq H.
    destruct (preserve_colourspace (self st)) eqn:Hpc.
    - inv_seq H. cbn [for_each] in E0.
      apply bind_inv in E0. destruct E0 as (vf1 & s1 & E1 & E0).
      apply bind_inv in E0. destruct E0 as (vf2 & s2 & E2 & E0).
      apply bind_inv in E0. destruct E0 as (vf3 & s3 & E3 & E0).
      apply bind_inv in E0. destruct E0 as (vf4 & s4 & E4 & E0).
      apply ret_inv in E0. destruct E0 as [-> ->].
      apply colour_paired_body_state in E1, E2, E3, E4.
      destruct E1 as (-> & F1 & m1 & M1), E2 as (-> & F2 & m2 & M2),
        E3 as (-> & F3 & m3 & M3), E4 as (-> & F4 & m4 & M4).
      cbn [fst] in M1, F1. step_done.
      + right; right. now split.
      + exists (m1 ++ m2 ++ m3 ++ m4)%list.
        rewrite M4, M3, M2, M1. now rewrite <- !app_assoc.
      + intros _. exists (snd vf4). now rewrite F4, F3, F2, F1.
    - inv_seq H. step_done. }
  destruct (endswith infile ".fastq.1.gz").
  { unfold preprocess_paired in H. inv_seq H.
    destruct (negb (path_exists env _)); inv_seq H.
    destruct (negb (str_in "sanger" _)); inv_seq H; step_done. }
  now apply raise_inv in H.
Qed.

End StepFacts.

Lemma for_each_fold {A V : Type} (body : V -> A -> M V)
    (P : list A -> V -> State -> Prop) :
  (forall done x v st v' st',
     P done v st -> body v x st = Ok (v', st') ->
     P (done ++ [x])%list v' st') ->
  forall l done v st v' st',
    P done v st -> for_each body l v st = Ok (v', st') ->
    P (done ++ l)%list v' st'.
Proof.
  intros Hbody. induction l as [|x l IH]; intros done v st v' st' Hv H.
  - apply ret_inv in H. destruct H; subst. now rewrite app_nil_r.
  - cbn [for_each] in H. apply bind_inv in H.
    destruct H as (v1 & st1 & H1 & H).
    replace (done ++ x :: l)%list with ((done ++ [x]) ++ l)%list
      by now rewrite <- app_assoc.
    apply (IH _ v1 st1); [ | assumption ].
    now apply (Hbody done x v st).
Qed.

Lemma count_sra_snoc done x :
  count_sra (done ++ [x])
  = (if endswith x ".sra" then S (count_sra done) else count_sra done).
Proof.
  unfold count_sra. rewrite filter_app, length_app. cbn [filter].
  destruct (endswith x ".sra"); cbn [List.length]; lia.
Qed.

Lemma same_options_trans a b c :
  same_options a b -> same_options b c -> same_options a c.
Proof. unfold same_options. intuition congruence. Qed.

Lemma preprocess_loop_keeps env outfile dir cc ext infiles v0 st0 v st :
  for_each (preprocess_step env outfile dir cc ext) infiles v0 st0
  = Ok (v, st) ->
  loop_keeps st0 v0 infiles v st.
Proof.
  intros H.
  apply (for_each_fold _ (loop_keeps st0 v0)) with (done := []) in H.
  - exact H.
  - clear. intros done x v st v' st' (Hopt & Htmp & Hdt & Hn & Hs & Hle & Heq)
      Hstep.
    pose proof (preprocess_step_adds _ _ _ _ _ _ _ _ _ _ Hstep) as Hadd.
    apply preprocess_step_state in Hstep.
    destruct Hstep as (Sopt & Stmp & Sdt & Sn & Ss & Sg).
    assert (Hpc : preserve_colourspace (self st)
                  = preserve_colourspace (self st0)) by apply Hopt.
    assert (Hcv : convert (self st) = convert (self st0)) by apply Hopt.
    unfold loop_keeps. rewrite count_sra_snoc, length_app. cbn [List.length].
    split; [ exact (same_options_trans _ _ _ Hopt Sopt) | ].
    split; [ congruence | ].
    split.
    { destruct Sdt as [E | [E | [E Ep]]];
        [ rewrite E; exact Hdt | right; now left | ].
      right; right. split; congruence. }
    split; [ rewrite Sn, Hn; destruct (endswith x ".sra"); lia | ].
    split.
    { destruct Hs as [m1 M1], Ss as [m2 M2]. exists (m1 ++ m2)%list.
      now rewrite M2, M1, <- app_assoc. }
    split.
    { destruct Hadd as [E | (g & E & _)]; rewrite E, ?length_app;
        cbn [List.length]; lia. }
    intros Hc. rewrite <- Hcv in Hc. destruct (Sg Hc) as [g E].
    rewrite E, length_app. cbn [List.length].
    rewrite Heq by congruence. lia.
  - unfold loop_keeps. cbn [List.length count_sra filter].
    split; [ apply same_options_refl | ].
    split; [ reflexivity | ]. split; [ now left | ].
    split; [ lia | ].
    split; [ exists []; now rewrite app_nil_r | ].
    split; [ lia | intros _; lia ].
Qed.

(** What [preprocess] returns, in terms of the loop. *)
Lemma preprocess_inv env infiles outfile st cmd mapfiles st' :
  preprocess env infiles outfile st = Ok ((cmd, mapfiles), st') ->
  infiles <> []
  /\ exists v s,
       for_each
         (preprocess_step env outfile (tempdir_name env (ntemp st))
            (if compress (self st) then "| gzip" else EmptyString)
            (if compress (self st) then ".gz" else EmptyString))
         infiles
         (mkPreVars ["mkdir -p " ++ tempdir_name env (ntemp st)] []
            (splitext_root (basename outfile)))
         (mkState (self st) (S (ntemp st))) = Ok (v, s)
       /\ cmd = join "; " (statement v) ++ ";"
       /\ mapfiles = fastqfiles v
       /\ mapfiles <> []
       /\ st' = mkState (set_tmpdir_fastq (tempdir_name env (ntemp st))
                           (self s)) (ntemp s).
Proof.
  unfold preprocess. intros H. inv_seq H. injection H as -> ->.
  split; [ destruct infiles; [ discriminate | discriminate ] | ].
  exists a0, s. cbn [self] in E0.
  split; [ exact E0 | ]. split; [ reflexivity | ]. split; [ reflexivity | ].
  split; [ destruct (fastqfiles a0); [ discriminate | discriminate ] | ].
  reflexivity.
Qed.

(** *** What a call of [preprocess] that returns has checked and done *)

(** The witnesses below run [preprocess] on a single-end file and the
    first file of a pair. *)
Ltac run_example :=
  match goal with
  | |- ?A /\ _ => assert (Hrun : A); [ lazy; reflexivity | ]
  end.

(** X1: [preprocess] returns only for a list of inputs that is not empty
    and in which every name ends with one of the seven suffixes that the
    loop tests. *)
Theorem preprocess_accepts_only_recognised
    env infiles outfile st cmd mapfiles st' :
  preprocess env infiles outfile st = Ok ((cmd, mapfiles), st') ->
  infiles <> [] /\ Forall (fun f => recognised f = true) infiles.
Proof.
  intros H. apply preprocess_inv in H.
  destruct H as (Hne & v & s & Hloop & _).
  split; [ exact Hne | ].
  apply for_each_each in Hloop.
  eapply Forall_impl; [ | exact Hloop ].
  intros f (v0 & s0 & r0 & Hstep).
  exact (preprocess_step_recognised _ _ _ _ _ _ _ _ _ Hstep).
Qed.

Lemma preprocess_accepts_only_recognised_witness :
  exists cmd mapfiles st',
    preprocess example_env ["a.fastq.gz"; "b.fastq.1.gz"] "s.bam"
      (start (new_BWA false false false)) = Ok ((cmd, mapfiles), st')
    /\ (["a.fastq.gz"; "b.fastq.1.gz"] <> []
        /\ Forall (fun f => recognised f = true)
             ["a.fastq.gz"; "b.fastq.1.gz"]).
Proof.
  do 3 eexists. run_example.
  exact (conj Hrun
           (preprocess_accepts_only_recognised _ _ _ _ _ _ _ Hrun)).
Defined.



Lemma join_head sep x more :
  exists tail, join sep (x :: more) = x ++ tail.
Proof.
  destruct more as [|y more].
  - exists EmptyString. cbn. now rewrite append_empty_r.
  - eexists. reflexivity.
Qed.

(** X3: the statement that [preprocess] returns starts with the command
    that makes the temporary directory and passes the test that [build]
    makes of it: stripped, it ends with [;]. *)
Theorem preprocess_statement_shape env infiles outfile st cmd mapfiles st' :
  preprocess env infiles outfile st = Ok ((cmd, mapfiles), st') ->
  startswith cmd ("mkdir -p " ++ tempdir_name env (ntemp st)) = true
  /\ endswith (strip cmd) ";" = true.
Proof.
  intros H. apply preprocess_inv in H.
  destruct H as (_ & v & s & Hloop & -> & _).
  split; [ | apply terminated_accepted_0 ].
  apply preprocess_loop_keeps in Hloop.
  destruct Hloop as (_ & _ & _ & _ & (more & Hmore) & _).
  rewrite Hmore. cbn [statement app].
  destruct (join_head "; " ("mkdir -p " ++ tempdir_name env (ntemp st)) more)
    as [tail ->].
  rewrite append_assoc. apply startswith_app.
Qed.

Lemma preprocess_statement_shape_witness :
  exists cmd mapfiles st',
    preprocess example_env ["a.fastq.gz"; "b.fastq.1.gz"] "s.bam"
      (start (new_BWA false false false)) = Ok ((cmd, mapfiles), st')
    /\ (startswith cmd
          ("mkdir -p "
           ++ tempdir_name example_env
                (ntemp (start (new_BWA false false false)))) = true
        /\ endswith (strip cmd) ";" = true).
Proof.
  do 3 eexists. run_example.
  exact (conj Hrun (preprocess_statement_shape _ _ _ _ _ _ _ Hrun)).
Defined.

(** X4: [preprocess] records in [self.tmpdir_fastq] the first temporary
    directory that it asks for, and asks for one more for every archive
    among the inputs; the [cleanup] of [Mapper] that follows removes the
    recorded directory and nothing else. *)
Theorem preprocess_then_cleanup env infiles outfile st cmd mapfiles st' :
  preprocess env infiles outfile st = Ok ((cmd, mapfiles), st') ->
  tmpdir_fastq (self st') = Some (tempdir_name env (ntemp st))
  /\ ntemp st' = S (ntemp st) + count_sra infiles
  /\ Mapper_cleanup env outfile st'
     = Ok ("rm -rf " ++ tempdir_name env (ntemp st) ++ ";", st').
Proof.
  intros H. apply preprocess_inv in H.
  destruct H as (_ & v & s & Hloop & _ & _ & _ & ->).
  apply preprocess_loop_keeps in Hloop.
  destruct Hloop as (_ & _ & _ & Hn & _).
  cbn [self ntemp] in *.
  split; [ reflexivity | ]. split; [ exact Hn | reflexivity ].
Qed.

Lemma preprocess_then_cleanup_witness :
  exists cmd mapfiles st',
    preprocess example_env ["r.sra"; "b.fastq.1.gz"] "s.bam"
      (start (new_BWA false false false)) = Ok ((cmd, mapfiles), st')
    /\ (tmpdir_fastq (self st')
        = Some (tempdir_name example_env
                  (ntemp (start (new_BWA false false false))))
        /\ ntemp st'
           = S (ntemp (start (new_BWA false false false)))
             + count_sra ["r.sra"; "b.fastq.1.gz"]
        /\ Mapper_cleanup example_env "s.bam" st'
           = Ok ("rm -rf "
                 ++ tempdir_name example_env
                      (ntemp (start (new_BWA false false false))) ++ ";",
                 st')).
Proof.
  do 3 eexists. run_example.
  exact (conj Hrun (preprocess_then_cleanup _ _ _ _ _ _ _ Hrun)).
Defined.

(** [cleanup] before [preprocess]: the attribute is not there. *)
Lemma cleanup_before_preprocess env outfile st :
  tmpdir_fastq (self st) = None ->
  Mapper_cleanup env outfile st = Raise (AttributeError "tmpdir_fastq").
Proof.
  intros H. unfold Mapper_cleanup, bind, get_self. now rewrite H.
Qed.

(** X5: [preprocess] changes two attributes of the object and no other:
    [tmpdir_fastq], and [datatype], which stays as it was or becomes
    [fasta] or, in a class that preserves colour space only, [solid]. *)
Theorem preprocess_keeps_options env infiles outfile st cmd mapfiles st' :
  preprocess env infiles outfile st = Ok ((cmd, mapfiles), st') ->
  same_options (self st) (self st')
  /\ (datatype (self st') = datatype (self st)
      \/ datatype (self st') = "fasta"
      \/ (datatype (self st') = "solid"
          /\ preserve_colourspace (self st) = true)).
Proof.
  intros H. apply preprocess_inv in H.
  destruct H as (_ & v & s & Hloop & _ & _ & _ & ->).
  apply preprocess_loop_keeps in Hloop.
  destruct Hloop as (Hopt & _ & Hdt & _).
  cbn [self] in *. split; [ | exact Hdt ].
  unfold same_options in *. cbn. exact Hopt.
Qed.

Lemma preprocess_keeps_options_witness :
  exists cmd mapfiles st',
    preprocess example_env ["c.csfasta.gz"] "s.bam" (start new_Tophat)
    = Ok ((cmd, mapfiles), st')
    /\ (same_options (self (start new_Tophat)) (self st')
        /\ (datatype (self st') = datatype (self (start new_Tophat))
            \/ datatype (self st') = "fasta"
            \/ (datatype (self st') = "solid"
                /\ preserve_colourspace (self (start new_Tophat)) = true))).
Proof.
  do 3 eexists. run_example.
  exact (conj Hrun (preprocess_keeps_options _ _ _ _ _ _ _ Hrun)).
Defined.

(** X6: [preprocess] returns at most one group for each input, and
    exactly one for each input when the object does not convert
    qualities ([convert] is false, as in every class of the module). *)
Theorem preprocess_group_count env infiles outfile st cmd mapfiles st' :
  preprocess env infiles outfile st = Ok ((cmd, mapfiles), st') ->
  List.length mapfiles <= List.length infiles
  /\ (convert (self st) = false ->
      List.length mapfiles = List.length infiles).
Proof.
  intros H. apply preprocess_inv in H.
  destruct H as (_ & v & s & Hloop & _ & -> & _).
  apply preprocess_loop_keeps in Hloop.
  destruct Hloop as (_ & _ & _ & _ & _ & Hle & Heq).
  cbn [self fastqfiles List.length] in *.
  split; [ lia | intros Hc; rewrite (Heq Hc); lia ].
Qed.

Lemma preprocess_group_count_witness :
  exists cmd mapfiles st',
    preprocess example_env ["a.fastq.gz"; "b.fastq.1.gz"] "s.bam"
      (start (new_BWA false false false)) = Ok ((cmd, mapfiles), st')
    /\ (List.length mapfiles <= List.length ["a.fastq.gz"; "b.fastq.1.gz"]
        /\ (convert (self (start (new_BWA false false false))) = false ->
            List.length mapfiles
            = List.length ["a.fastq.gz"; "b.fastq.1.gz"])).
Proof.
  do 3 eexists. run_example.
  exact (conj Hrun (preprocess_group_count _ _ _ _ _ _ _ Hrun)).
Defined.

(** ** The assertions of [build] on the statements of the classes *)

Lemma terminated_strip s : terminated s -> endswith (strip s) ";" = true.
Proof. intros (b & ws & Hws & ->). now apply terminated_accepted. Qed.

Lemma terminated_prefix a s : terminated s -> terminated (a ++ s).
Proof.
  intros (b & ws & Hws & ->). exists (a ++ b), ws.
  split; [ assumption | now rewrite append_assoc ].
Qed.

Lemma terminated_literal b : terminated (b ++ ";").
Proof.
  exists b, EmptyString. split; [ reflexivity | ].
  now rewrite append_empty_r.
Qed.

Lemma join_last sep l x : exists a, join sep (l ++ [x]) = a ++ x.
Proof.
  induction l as [|y l IH].
  - now exists EmptyString.
  - destruct IH as [a IH]. cbn [app].
    destruct (l ++ [x])%list as [|z l'] eqn:E.
    + now destruct l.
    + exists (y ++ sep ++ a). change (join sep (y :: z :: l'))
        with (y ++ sep ++ join sep (z :: l')).
      rewrite IH. now rewrite !append_assoc.
Qed.

Lemma terminated_join sep l x : terminated x -> terminated (join sep (l ++ [x])).
Proof.
  intros H. destruct (join_last sep l x) as [a ->].
  now apply terminated_prefix.
Qed.

(** A template that ends with its terminator and the white space [ws]
    gives a statement that does. *)
Lemma format_is_terminated template ws d a :
  all_space ws = true ->
  template
  = take (String.length template - S (String.length ws)) template
    ++ ";" ++ ws ->
  format template d = Ok a ->
  terminated a.
Proof.
  intros Hws Ht H. rewrite Ht in H.
  destruct (format_with_terminated _ _ _ Hws _ _ H) as [b ->].
  now exists b, ws.
Qed.

(** [closes H ws]: the statement formatted in [H] is terminated, the
    template ending with [;] and [ws]. *)
Ltac closes H ws :=
  apply (format_is_terminated _ ws) in H; [ | reflexivity | reflexivity ].

Ltac closes_last ws :=
  match goal with
  | H : format _ _ = Ok ?a |- terminated (join _ (_ ++ [?a])) =>
      closes H ws; now apply terminated_join
  | H : format _ _ = Ok ?a |- terminated (join _ [_; ?a]) =>
      closes H ws; now apply (terminated_join _ [_])
  | H : format _ _ = Ok ?a |- terminated ?a =>
      now closes H ws
  end.

Lemma BWA_mapper_terminated env infiles outfile st m st' :
  BWA_mapper env infiles outfile st = Ok (m, st') -> terminated m.
Proof.
  unfold BWA_mapper. intros H. inv_seq H.
  destruct (Nat.eqb a 1); [ | destruct (Nat.eqb a 2) ]; inv_seq E2.
  - closes_last (nl ++ pad).
  - closes_last (nl ++ pad).
Qed.

Lemma BWAMEM_mapper_terminated env infiles outfile st m st' :
  BWAMEM_mapper env infiles outfile st = Ok (m, st') -> terminated m.
Proof.
  unfold BWAMEM_mapper. intros H. inv_seq H.
  destruct (Nat.eqb a 1); [ | destruct (Nat.eqb a 2) ]; inv_seq E2.
  - closes_last (nl ++ pad).
  - closes_last (nl ++ pad).
Qed.

Lemma BWA_postprocess_terminated env infiles outfile st q st' :
  BWA_postprocess env infiles outfile st = Ok (q, st') -> terminated q.
Proof.
  unfold BWA_postprocess. intros H. inv_seq H.
  closes_last EmptyString.
Qed.

(** Invert the hypotheses that say that a conditional returns. *)
Ltac inv_ifs :=
  repeat match goal with
    | H : (if ?c then _ else _) _ = Ok _ |- _ => destruct c; inv_seq H
    end.

Lemma Butter_mapper_terminated env infiles outfile st m st' :
  Butter_mapper env infiles outfile st = Ok (m, st') -> terminated m.
Proof.
  unfold Butter_mapper. intros H.
  destruct (Nat.ltb 1 (List.length infiles)); inv_seq H. inv_ifs.
  match goal with
  | H : format tpl_butter_run _ = Ok ?a |- _ =>
      closes H (nl ++ pad); now apply (terminated_join " " [_; _])
  end.
Qed.

Lemma Tophat_mapper_terminated env infiles outfile st m st' :
  Tophat_mapper env infiles outfile st = Ok (m, st') -> terminated m.
Proof.
  unfold Tophat_mapper. intros H. inv_seq H. inv_ifs;
    closes_last (nl ++ pad).
Qed.

Lemma Tophat_postprocess_terminated env infiles outfile st q st' :
  Tophat_postprocess env infiles outfile st = Ok (q, st') -> terminated q.
Proof.
  unfold Tophat_postprocess. intros H. inv_seq H.
  closes_last (nl ++ "        ").
Qed.

Lemma Sailfish_mapper_terminated env infiles outfile st m st' :
  Sailfish_mapper env infiles outfile st = Ok (m, st') -> terminated m.
Proof.
  unfold Sailfish_mapper. intros H. inv_seq H. inv_ifs;
    match goal with
    | H : format tpl_sailfish_run _ = Ok ?a |- _ =>
        closes H EmptyString; now apply (terminated_join " " [_])
    end.
Qed.

Lemma Sailfish_postprocess_terminated env infiles outfile st q st' :
  Sailfish_postprocess env infiles outfile st = Ok (q, st') -> terminated q.
Proof.
  unfold Sailfish_postprocess. intros H. inv_seq H.
  closes_last EmptyString.
Qed.

Lemma FastqScreen_mapper_terminated env infiles outfile st m st' :
  FastqScreen_mapper env infiles outfile st = Ok (m, st') -> terminated m.
Proof.
  unfold FastqScreen_mapper. intros H.
  destruct (Nat.ltb 1 (List.length infiles)); inv_seq H.
  closes_last EmptyString.
Qed.

Lemma Mapper_cleanup_terminated env outfile st c st' :
  Mapper_cleanup env outfile st = Ok (c, st') -> terminated c.
Proof.
  unfold Mapper_cleanup. intros H. inv_seq H.
  apply (terminated_literal ("rm -rf " ++ _)).
Qed.

Lemma Butter_cleanup_terminated env outfile st c st' :
  Butter_cleanup env outfile st = Ok (c, st') -> terminated c.
Proof.
  unfold Butter_cleanup. intros H. inv_seq H.
  match goal with
  | |- terminated ("rm -rf " ++ ?x ++ " " ++ ?y ++ ";") =>
      exists ("rm -rf " ++ x ++ " " ++ y), EmptyString
  end.
  split; [ reflexivity | ].
  now rewrite append_empty_r, !append_assoc.
Qed.

Lemma Counter_mapper_terminated env infiles outfile st m st' :
  infiles <> [] ->
  Counter_mapper env infiles outfile st = Ok (m, st') -> terminated m.
Proof.
  unfold Counter_mapper. intros Hne H. inv_seq H.
  assert (Inv : ([] ++ infiles)%list <> [] ->
                exists l x, a = (l ++ [x])%list /\ terminated x).
  { pose proof (for_each_fold
      (fun statement f =>
         cmd <- lift (format tpl_counter
                        [ ("self", PObj "<Counter>");
                          ("infiles", PObj "<list>");
                          ("outfile", PStr outfile);
                          ("statement", PObj "<list>");
                          ("f", PObj "<list>");
                          ("x", PStr (join " " f)) ]) ;;
         ret (statement ++ [cmd])%list)
      (fun done v _ =>
         done <> [] -> exists l x, v = (l ++ [x])%list /\ terminated x))
      as F.
    eapply F; [ | | exact E ].
    - intros done x v s0 v' s0' _ Hb _. inv_seq Hb.
      exists v. eexists. split; [ reflexivity | ].
      closes_last EmptyString.
    - intros C. now contradiction C. }
  destruct (Inv Hne) as (l & x & -> & Hx).
  now apply terminated_join.
Qed.

Lemma preprocess_terminated env infiles outfile st cmd mapfiles st' :
  preprocess env infiles outfile st = Ok ((cmd, mapfiles), st') ->
  terminated cmd /\ mapfiles <> [].
Proof.
  intros H. apply preprocess_inv in H.
  destruct H as (_ & v & s & _ & -> & -> & Hne & _).
  split; [ apply terminated_literal | assumption ].
Qed.

(** ** Plans that are never malformed *)


Lemma closing_classes_accepted C env infiles outfile st p m q c st4 :
  In C closing_classes ->
  phases C env infiles outfile st p m q c st4 ->
  accepted p m q c = true.
Proof.
  intros HC Hph.
  destruct Hph as (mapfiles & st1 & st2 & st3 & Hp & Hm & Hq & Hc).
  assert (Hacc : terminated p /\ terminated m
                 /\ (q = EmptyString \/ terminated q) /\ terminated c).
  { cbn [closing_classes In] in HC.
    repeat (destruct HC as [<- | HC]); try contradiction;
      cbn [s_preprocess s_mapper s_postprocess s_cleanup BWA BWAMEM Butter
           Tophat Sailfish FastqScreen Counter] in Hp, Hm, Hq, Hc;
      destruct (preprocess_terminated _ _ _ _ _ _ _ Hp) as [Tp Hne];
      (split; [ exact Tp | ]).
    - split; [ now apply BWA_mapper_terminated in Hm | ].
      split; [ right; now apply BWA_postprocess_terminated in Hq | ].
      now apply Mapper_cleanup_terminated in Hc.
    - split; [ now apply BWAMEM_mapper_terminated in Hm | ].
      split; [ right; now apply BWA_postprocess_terminated in Hq | ].
      now apply Mapper_cleanup_terminated in Hc.
    - split; [ now apply Butter_mapper_terminated in Hm | ].
      split; [ right; now apply BWA_postprocess_terminated in Hq | ].
      now apply Butter_cleanup_terminated in Hc.
    - split; [ now apply Tophat_mapper_terminated in Hm | ].
      split; [ right; now apply Tophat_postprocess_terminated in Hq | ].
      now apply Mapper_cleanup_terminated in Hc.
    - split; [ now apply Sailfish_mapper_terminated in Hm | ].
      split; [ right; now apply Sailfish_postprocess_terminated in Hq | ].
      now apply Mapper_cleanup_terminated in Hc.
    - split; [ now apply FastqScreen_mapper_terminated in Hm | ].
      split; [ left; apply ret_inv in Hq; now destruct Hq | ].
      now apply Mapper_cleanup_terminated in Hc.
    - split; [ now apply (Counter_mapper_terminated _ _ _ _ _ _ Hne) in Hm | ].
      split; [ left; apply ret_inv in Hq; now destruct Hq | ].
      now apply Mapper_cleanup_terminated in Hc. }
  destruct Hacc as (Tp & Tm & Tq & Tc).
  unfold accepted.
  rewrite (terminated_strip _ Tp), (terminated_strip _ Tm),
    (terminated_strip _ Tc).
  destruct Tq as [-> | Tq]; [ | rewrite (terminated_strip _ Tq) ];
    cbn [truthy negb andb orb]; now rewrite ?orb_true_r.
Qed.

(** X7: for [BWA], [BWAMEM], [Butter], [Tophat], [Sailfish],
    [FastqScreen] and [Counter] the assertions of [build] cannot fail:
    whenever the four methods return, [build] returns the four
    statements joined by the checkpoint separator. *)
Theorem closing_classes_always_build
    C env infiles outfile st p m q c st4 :
  In C closing_classes ->
  phases C env infiles outfile st p m q c st4 ->
  build C env infiles outfile st = Ok (join checkpoint [p; m; q; c], st4).
Proof.
  intros HC Hph. rewrite (build_eq _ _ _ _ _ _ _ _ _ _ Hph).
  now rewrite (closing_classes_accepted _ _ _ _ _ _ _ _ _ _ HC Hph).
Qed.

Lemma closing_classes_always_build_witness :
  exists p m q c st4,
    In BWA closing_classes
    /\ phases BWA example_env ["b.fastq.1.gz"] "b.bam"
         (start (new_BWA false false false)) p m q c st4
    /\ build BWA example_env ["b.fastq.1.gz"] "b.bam"
         (start (new_BWA false false false))
       = Ok (join checkpoint [p; m; q; c], st4).
Proof.
  do 5 eexists.
  assert (HC : In BWA closing_classes) by (left; reflexivity).
  split; [ exact HC | ].
  match goal with
  | |- ?A /\ _ => assert (Hph : A)
  end.
  - do 4 eexists. repeat split; lazy; reflexivity.
  - exact (conj Hph
             (closing_classes_always_build _ _ _ _ _ _ _ _ _ _ HC Hph)).
Defined.

(** X8: a class that keeps [Mapper.mapper], as the base class [Mapper]
    does, never builds a plan: the empty statement of the mapper fails
    the second assertion of [build], unless a method has raised
    before. *)
Theorem inherited_mapper_never_builds C env infiles outfile st :
  s_mapper C = Mapper_mapper ->
  exists e, build C env infiles outfile st = Raise e.
Proof.
  intros HC.
  destruct (build C env infiles outfile st) as [[plan st'] | e] eqn:H;
    [ exfalso | now exists e ].
  unfold build in H. rewrite HC in H. inv_seq H.
  match goal with
  | E : Mapper_mapper _ _ _ _ = Ok (?m, _), A : endswith (strip ?m) _ = true
    |- _ => unfold Mapper_mapper in E; apply ret_inv in E;
            destruct E as [E _]; (rewrite E in A || rewrite <- E in A);
            discriminate A
  end.
Qed.

Lemma inherited_mapper_never_builds_witness :
  s_mapper Mapper = Mapper_mapper
  /\ exists e,
       build Mapper example_env ["a.fastq.gz"] "a.bam" (start (new_Mapper false false))
       = Raise e.
Proof.
  assert (H : s_mapper Mapper = Mapper_mapper) by reflexivity.
  exact (conj H (inherited_mapper_never_builds Mapper example_env
                   ["a.fastq.gz"] "a.bam" (start (new_Mapper false false)) H)).
Defined.

(** ** The groups that the mappers accept *)

Lemma count_files_inv infiles n :
  count_files infiles = Ok n -> groups_of n infiles.
Proof.
  unfold count_files, groups_of. intros H.
  destruct infiles as [|g rest]; [ discriminate H | ].
  split; [ discriminate | ].
  cbn [map py_max py_min rbind] in H.
  set (x := List.length g) in *.
  set (l := map (@List.length string) rest) in *.
  destruct (Nat.eqb (fold_left Nat.max l x) (fold_left Nat.min l x)) eqn:E;
    cbn [negb] in H; [ | discriminate H ].
  injection H as H. apply Nat.eqb_eq in E.
  assert (B : forall y, In y (x :: l) -> y = n).
  { intros y Hy. pose proof (fold_max_bounds l x y Hy).
    pose proof (fold_min_bounds l x y Hy). lia. }
  apply Forall_forall. intros h Hh. apply B.
  change (x :: l) with (map (@List.length string) (g :: rest)).
  now apply in_map.
Qed.

Lemma count_files_iff infiles n :
  count_files infiles = Ok n <-> groups_of n infiles.
Proof.
  split; [ apply count_files_inv | ].
  intros [Hne Hall]. now apply count_files_uniform.
Qed.

(** Invert the conditionals that return, keeping the tests. *)
Ltac inv_tests :=
  repeat match goal with
    | H : (if ?c then _ else _) _ = Ok _ |- _ =>
        let C := fresh "C" in destruct c eqn:C; inv_seq H
    end.

(** The number of files of the groups, from the test that has passed. *)
Ltac by_count k :=
  match goal with
  | C : Nat.eqb ?n k = true, E : count_files _ = Ok ?n |- _ =>
      apply Nat.eqb_eq in C; rewrite C in E; now apply count_files_inv
  end.

(** X9: [BWA.mapper] and [BWAMEM.mapper] return only when there is a
    group and every group has one file, or every group has two. *)
Theorem BWA_mappers_accept_one_or_two env infiles outfile st m st' :
  BWA_mapper env infiles outfile st = Ok (m, st')
  \/ BWAMEM_mapper env infiles outfile st = Ok (m, st') ->
  groups_of 1 infiles \/ groups_of 2 infiles.
Proof.
  intros [H | H]; [ unfold BWA_mapper in H | unfold BWAMEM_mapper in H ];
    inv_seq H; inv_tests;
    first [ left; by_count 1 | right; by_count 2 ].
Qed.

Lemma BWA_mappers_accept_one_or_two_witness :
  exists m st',
    (BWA_mapper example_env [["/tmp/tmp0/a.fastq"]] "a.bam"
       (mkState (set_tmpdir_fastq "/tmp/tmp0" (new_BWA false false false)) 1)
     = Ok (m, st')
     \/ BWAMEM_mapper example_env [["/tmp/tmp0/a.fastq"]] "a.bam"
          (mkState (set_tmpdir_fastq "/tmp/tmp0" (new_BWA false false false))
             1)
        = Ok (m, st'))
    /\ (groups_of 1 [["/tmp/tmp0/a.fastq"]]
        \/ groups_of 2 [["/tmp/tmp0/a.fastq"]]).
Proof.
  do 2 eexists.
  match goal with
  | |- ?A \/ ?B /\ _ => assert (Hrun : A); [ lazy; reflexivity | ]
  | |- (?A \/ ?B) /\ _ => assert (Hrun : A); [ lazy; reflexivity | ]
  end.
  exact (conj (or_introl Hrun)
           (BWA_mappers_accept_one_or_two _ _ _ _ _ _ (or_introl Hrun))).
Defined.

Lemma Tophat_mapper_arity env infiles outfile st m st' :
  Tophat_mapper env infiles outfile st = Ok (m, st') ->
  groups_of 1 infiles \/ groups_of 2 infiles \/ groups_of 4 infiles.
Proof.
  unfold Tophat_mapper. intros H. inv_seq H. inv_tests;
    first [ left; by_count 1
          | right; left; by_count 2
          | right; right; by_count 4 ].
Qed.

(** X10: [Tophat.mapper], and with it [Tophat2.mapper] and
    [Tophat2_fusion.mapper], return only when there is a group and every
    group has one file, or every group two, or every group four. *)
Theorem Tophat_mappers_accept_one_two_or_four
    env infiles outfile st m st' :
  Tophat_mapper env infiles outfile st = Ok (m, st')
  \/ Tophat2_mapper env infiles outfile st = Ok (m, st')
  \/ Tophat2_fusion_mapper env infiles outfile st = Ok (m, st') ->
  groups_of 1 infiles \/ groups_of 2 infiles \/ groups_of 4 infiles.
Proof.
  intros [H | [H | H]].
  - now apply Tophat_mapper_arity in H.
  - unfold Tophat2_mapper in H. apply bind_inv in H.
    destruct H as (m0 & s0 & H & _). now apply Tophat_mapper_arity in H.
  - unfold Tophat2_fusion_mapper in H. apply bind_inv in H.
    destruct H as (m0 & s0 & H & _). now apply Tophat_mapper_arity in H.
Qed.

Lemma Tophat_mappers_accept_one_two_or_four_witness :
  exists m st',
    (Tophat_mapper example_env [["a.1.gz"; "a.2.gz"; "a.3.gz"; "a.4.gz"]]
       "a.bam" (mkState (set_tmpdir_fastq "/tmp/tmp0" new_Tophat) 1)
     = Ok (m, st')
     \/ Tophat2_mapper example_env
          [["a.1.gz"; "a.2.gz"; "a.3.gz"; "a.4.gz"]]
          "a.bam" (mkState (set_tmpdir_fastq "/tmp/tmp0" new_Tophat) 1)
        = Ok (m, st')
     \/ Tophat2_fusion_mapper example_env
          [["a.1.gz"; "a.2.gz"; "a.3.gz"; "a.4.gz"]]
          "a.bam" (mkState (set_tmpdir_fastq "/tmp/tmp0" new_Tophat) 1)
        = Ok (m, st'))
    /\ (groups_of 1 [["a.1.gz"; "a.2.gz"; "a.3.gz"; "a.4.gz"]]
        \/ groups_of 2 [["a.1.gz"; "a.2.gz"; "a.3.gz"; "a.4.gz"]]
        \/ groups_of 4 [["a.1.gz"; "a.2.gz"; "a.3.gz"; "a.4.gz"]]).
Proof.
  do 2 eexists.
  match goal with
  | |- (?A \/ _) /\ _ => assert (Hrun : A); [ lazy; reflexivity | ]
  end.
  exact (conj (or_introl Hrun)
           (Tophat_mappers_accept_one_two_or_four _ _ _ _ _ _
              (or_introl Hrun))).
Defined.

Lemma single_group (infiles : list (list string)) n :
  Nat.ltb 1 (List.length infiles) = false -> groups_of n infiles ->
  exists g, infiles = [g] /\ List.length g = n.
Proof.
  intros Hl [Hne Hall]. destruct infiles as [|g [|h rest]].
  - congruence.
  - exists g. split; [ reflexivity | ]. now inversion Hall.
  - discriminate Hl.
Qed.

(** X11: [Butter.mapper] returns only for one group of one file. *)
Theorem Butter_mapper_accepts_one_file env infiles outfile st m st' :
  Butter_mapper env infiles outfile st = Ok (m, st') ->
  exists f, infiles = [[f]].
Proof.
  unfold Butter_mapper. intros H.
  destruct (Nat.ltb 1 (List.length infiles)) eqn:Hl; inv_seq H. inv_tests.
  assert (G : groups_of 1 infiles) by by_count 1.
  destruct (single_group _ _ Hl G) as (g & -> & Hg).
  destruct g as [|f [|? ?]]; try discriminate Hg. now exists f.
Qed.

Lemma Butter_mapper_accepts_one_file_witness :
  exists m st',
    Butter_mapper example_env [["/tmp/tmp0/a.fastq.gz"]] "a.bam"
      (mkState (set_tmpdir_fastq "/tmp/tmp0" (new_BWA false false false)) 1)
    = Ok (m, st')
    /\ exists f, [["/tmp/tmp0/a.fastq.gz"]] = [[f]].
Proof.
  do 2 eexists. run_example.
  exact (conj Hrun (Butter_mapper_accepts_one_file _ _ _ _ _ _ Hrun)).
Defined.

(** X12: [FastqScreen.mapper] returns only for one group, of one file
    or of two. *)
Theorem FastqScreen_mapper_accepts_one_group env infiles outfile st m st' :
  FastqScreen_mapper env infiles outfile st = Ok (m, st') ->
  (exists f, infiles = [[f]]) \/ (exists f1 f2, infiles = [[f1; f2]]).
Proof.
  unfold FastqScreen_mapper. intros H.
  destruct (Nat.ltb 1 (List.length infiles)) eqn:Hl; inv_seq H. inv_tests.
  - assert (G : groups_of 1 infiles) by by_count 1.
    destruct (single_group _ _ Hl G) as (g & -> & Hg).
    destruct g as [|f [|? ?]]; try discriminate Hg. left. now exists f.
  - assert (G : groups_of 2 infiles) by by_count 2.
    destruct (single_group _ _ Hl G) as (g & -> & Hg).
    destruct g as [|f1 [|f2 [|? ?]]]; try discriminate Hg.
    right. now exists f1, f2.
Qed.

Lemma FastqScreen_mapper_accepts_one_group_witness :
  exists m st',
    FastqScreen_mapper example_env [["a.fastq.1.gz"; "a.fastq.2.gz"]]
      "a.txt" (start new_Counter) = Ok (m, st')
    /\ ((exists f, [["a.fastq.1.gz"; "a.fastq.2.gz"]] = [[f]])
        \/ (exists f1 f2, [["a.fastq.1.gz"; "a.fastq.2.gz"]] = [[f1; f2]])).
Proof.
  do 2 eexists. run_example.
  exact (conj Hrun (FastqScreen_mapper_accepts_one_group _ _ _ _ _ _ Hrun)).
Defined.

(** ** [Sailfish.mapper] *)

(** X13: [Sailfish.mapper] returns only when the strand is one of the
    three that it names and every group has one file, or every group has
    two and the orientation is one of the three that it names. *)
Theorem Sailfish_mapper_needs_named_library env infiles outfile st m st' :
  Sailfish_mapper env infiles outfile st = Ok (m, st') ->
  str_in (strand (self st)) ["sense"; "antisense"; "unknown"] = true
  /\ (groups_of 1 infiles
      \/ (groups_of 2 infiles
          /\ str_in (orient (self st)) ["towards"; "away"; "same"] = true)).
Proof.
  unfold Sailfish_mapper. intros H. inv_seq H. inv_tests;
    (split;
     [ cbn [str_in existsb];
       repeat match goal with
         | C : String.eqb _ _ = _ |- _ => rewrite C
         end; reflexivity
     | first [ left; by_count 1
             | right; split;
               [ by_count 2
               | cbn [str_in existsb];
                 repeat match goal with
                   | C : String.eqb _ _ = _ |- _ => rewrite C
                   end; reflexivity ] ] ]).
Qed.

Lemma Sailfish_mapper_needs_named_library_witness :
  exists m st',
    Sailfish_mapper example_env [["a.fastq.1.gz"; "a.fastq.2.gz"]] "a.sf"
      (start (new_Sailfish true "unknown" "towards" "4")) = Ok (m, st')
    /\ str_in (strand (self (start (new_Sailfish true "unknown" "towards"
                                      "4"))))
         ["sense"; "antisense"; "unknown"] = true
    /\ (groups_of 1 [["a.fastq.1.gz"; "a.fastq.2.gz"]]
        \/ (groups_of 2 [["a.fastq.1.gz"; "a.fastq.2.gz"]]
            /\ str_in (orient (self (start (new_Sailfish true "unknown"
                                              "towards" "4"))))
                 ["towards"; "away"; "same"] = true)).
Proof.
  do 2 eexists. run_example.
  exact (conj Hrun (Sailfish_mapper_needs_named_library _ _ _ _ _ _ Hrun)).
Defined.

(** X14: [Sailfish.mapper] reads the first group only: the groups after
    the first count for the test on the numbers of files and for nothing
    else, and their files are in no statement. *)
Theorem Sailfish_mapper_reads_first_group env g rest outfile st n :
  groups_of n (g :: rest) ->
  Sailfish_mapper env (g :: rest) outfile st
  = Sailfish_mapper env [g] outfile st.
Proof.
  intros [Hne Hall].
  assert (H1 : count_files (g :: rest) = Ok n)
    by now apply count_files_uniform.
  assert (H2 : count_files [g] = Ok n).
  { apply count_files_uniform; [ discriminate | ].
    inversion Hall; subst. now constructor. }
  unfold Sailfish_mapper. rewrite H1, H2.
  assert (U : unpack_pair (g :: rest) = unpack_pair [g]) by reflexivity.
  rewrite U. reflexivity.
Qed.

Lemma Sailfish_mapper_reads_first_group_witness :
  groups_of 1 [["a.fastq.gz"]; ["b.fastq.gz"]]
  /\ Sailfish_mapper example_env [["a.fastq.gz"]; ["b.fastq.gz"]] "a.sf"
       (start (new_Sailfish true "unknown" "towards" "4"))
     = Sailfish_mapper example_env [["a.fastq.gz"]] "a.sf"
         (start (new_Sailfish true "unknown" "towards" "4")).
Proof.
  assert (G : groups_of 1 [["a.fastq.gz"]; ["b.fastq.gz"]]).
  { split; [ discriminate | repeat constructor ]. }
  exact (conj G (Sailfish_mapper_reads_first_group example_env _ _ "a.sf"
                   (start (new_Sailfish true "unknown" "towards" "4")) 1 G)).
Defined.

(** ** [BWA.postprocess] after [BWA.mapper] *)

Lemma BWA_postprocess_returns env infiles outfile st t outf d :
  snip env (basename outfile) ".bam" = Ok t ->
  snip env outfile ".bam" = Ok outf ->
  tmpdir (self st) = Some d ->
  exists q, BWA_postprocess env infiles outfile st = Ok (q, st).
Proof.
  intros Ht Ho Hd. unfold BWA_postprocess.
  unfold bind at 1. unfold lift at 1. rewrite Ht.
  unfold bind at 1. unfold lift at 1. rewrite Ho.
  unfold bind at 1. unfold get_self at 1.
  rewrite Hd. unfold bind at 1. unfold attr at 1, ret at 1.
  destruct (remove_non_unique (self st)), (strip_sequence (self st)),
    (set_nh (self st)); eexists; lazy; reflexivity.
Qed.

Lemma BWA_mapper_state env infiles outfile st m st' :
  BWA_mapper env infiles outfile st = Ok (m, st') ->
  exists dir t,
    tmpdir_fastq (self st) = Some dir
    /\ snip env (basename outfile) ".bam" = Ok t
    /\ st' = mkState (set_tmpdir (dir ++ "bwa") (self st)) (ntemp st).
Proof.
  unfold BWA_mapper. intros H. inv_seq H.
  match goal with
  | E : tmpdir_fastq (self st) = Some ?d,
    T : snip env (basename outfile) ".bam" = Ok ?t |- _ =>
      exists d, t; split; [ exact E | ]; split; [ exact T | ]
  end.
  inv_ifs; destruct st; reflexivity.
Qed.

(** X15: once [BWA.mapper] has returned, [BWA.postprocess] returns for
    every output file from which [P.snip] takes the suffix [.bam]: the
    mapper has set the attribute [tmpdir] that [postprocess] reads, and
    [postprocess] leaves the object as it is. *)
Theorem BWA_postprocess_after_mapper
    env mapfiles infiles outfile st m st' outf :
  BWA_mapper env mapfiles outfile st = Ok (m, st') ->
  snip env outfile ".bam" = Ok outf ->
  exists q, BWA_postprocess env infiles outfile st' = Ok (q, st').
Proof.
  intros Hm Ho.
  destruct (BWA_mapper_state _ _ _ _ _ _ Hm) as (dir & t & Hd & Ht & ->).
  now apply (BWA_postprocess_returns _ _ _ _ t outf (dir ++ "bwa")).
Qed.

Lemma BWA_postprocess_after_mapper_witness :
  exists m st' outf,
    BWA_mapper example_env [["/tmp/tmp0/a.fastq"]] "a.bam"
      (mkState (set_tmpdir_fastq "/tmp/tmp0" (new_BWA false false false)) 1)
    = Ok (m, st')
    /\ snip example_env "a.bam" ".bam" = Ok outf
    /\ exists q,
         BWA_postprocess example_env ["a.fastq"] "a.bam" st' = Ok (q, st').
Proof.
  do 3 eexists. run_example.
  match goal with
  | |- _ /\ ?A /\ _ => assert (Hs : A); [ lazy; reflexivity | ]
  end.
  exact (conj Hrun (conj Hs
           (BWA_postprocess_after_mapper _ _ ["a.fastq"] _ _ _ _ _
              Hrun Hs))).
Defined.

(** X16: [BWA.postprocess], which [BWAMEM] and [Butter] inherit,
    returns exactly when [P.snip] takes the suffix [.bam] from the output
    file and from its base name and the attribute [tmpdir] is set, which
    only a mapper does: on a new object it raises. *)
Theorem BWA_postprocess_returns_iff env infiles outfile st :
  (exists q st', BWA_postprocess env infiles outfile st = Ok (q, st'))
  <-> (exists t outf d,
         snip env (basename outfile) ".bam" = Ok t
         /\ snip env outfile ".bam" = Ok outf
         /\ tmpdir (self st) = Some d).
Proof.
  split.
  - intros (q & st' & H). unfold BWA_postprocess in H. inv_seq H.
    match goal with
    | T : snip env (basename outfile) ".bam" = Ok ?t,
      O : snip env outfile ".bam" = Ok ?o,
      D : tmpdir (self st) = Some ?d |- _ =>
        exists t, o, d; auto
    end.
  - intros (t & outf & d & Ht & Ho & Hd).
    destruct (BWA_postprocess_returns env infiles outfile st t outf d
                Ht Ho Hd) as [q Hq].
    now exists q, st.
Qed.

(** ** The merge loop of [mergeAndFilterGTF] *)

Lemma neighbours_last_end P n s e1 e2 :
  neighbours P (n ++ [mkExon s e1]) -> neighbours P (n ++ [mkExon s e2]).
Proof.
  induction n as [|a n IH]; [ trivial | ].
  destruct n as [|b n].
  - cbn. unfold gap. cbn. tauto.
  - cbn [app neighbours] in *. intros [H1 H2]. split; [ exact H1 | ].
    now apply IH.
Qed.

Lemma neighbours_snoc P n l e :
  neighbours P (n ++ [l]) -> P (gap l e) ->
  neighbours P ((n ++ [l]) ++ [e]).
Proof.
  induction n as [|a n IH]; intros H Hg.
  - cbn. auto.
  - destruct n as [|b n].
    + cbn in *. tauto.
    + cbn [app neighbours] in *. destruct H as [H1 H2].
      split; [ exact H1 | ]. now apply IH.
Qed.

Lemma merge_loop_gaps max rest : forall l n merged out ok merged',
  merge_loop max l n merged rest = (out, ok, merged') ->
  neighbours (fun d => (5 <= d)%Z /\ intron_too_long max d = false)
    (n ++ [l]) ->
  neighbours (fun d => (5 <= d)%Z /\ intron_too_long max d = false) out.
Proof.
  induction rest as [|e rest IH]; intros l n merged out ok merged' H Hn;
    cbn [merge_loop] in H.
  - now injection H as <- _ _.
  - destruct (intron_too_long max (ex_start e - ex_end l)) eqn:Hlong.
    + now injection H as <- _ _.
    + destruct (ex_start e - ex_end l <? 5)%Z eqn:Hd.
      * apply IH in H; [ exact H | ].
        destruct l as [s e1]. now apply (neighbours_last_end _ _ _ e1).
      * apply IH in H; [ exact H | ].
        apply neighbours_snoc; [ exact Hn | ].
        unfold gap. split; [ | exact Hlong ].
        apply Z.ltb_ge in Hd. exact Hd.
Qed.

Lemma merge_loop_count max rest : forall l n merged out merged',
  merge_loop max l n merged rest = (out, true, merged') ->
  List.length out + merged'
  = List.length n + 1 + merged + List.length rest.
Proof.
  induction rest as [|e rest IH]; intros l n merged out merged' H;
    cbn [merge_loop] in H.
  - injection H as <- <-. rewrite length_app. cbn [List.length]. lia.
  - destruct (intron_too_long max (ex_start e - ex_end l));
      [ discriminate H | ].
    destruct (ex_start e - ex_end l <? 5)%Z.
    + apply IH in H. cbn [List.length]. lia.
    + apply IH in H. rewrite length_app in H. cbn [List.length] in *. lia.
Qed.

Lemma insert_by_start_length x l :
  List.length (insert_by_start x l) = S (List.length l).
Proof.
  induction l as [|y l IH]; [ reflexivity | ]. cbn [insert_by_start].
  destruct (ex_start x <=? ex_start y)%Z; cbn [List.length]; lia.
Qed.

Lemma sorted_by_start_length l :
  List.length (sorted_by_start l) = List.length l.
Proof.
  induction l as [|x l IH]; [ reflexivity | ].
  cbn [sorted_by_start fold_right]. fold (sorted_by_start l).
  rewrite insert_by_start_length. now rewrite IH.
Qed.

(** X17: in the exons that the merge loop of [mergeAndFilterGTF] makes
    of the exons of a feature, two neighbours are at least five bases
    apart, and not further than [max_intron_size] when there is one. *)
Theorem merge_exons_gaps max exons out ok merged :
  merge_exons max exons = Ok (out, ok, merged) ->
  neighbours (fun d => (5 <= d)%Z /\ intron_too_long max d = false) out.
Proof.
  unfold merge_exons. intros H.
  destruct (sorted_by_start exons) as [|first rest]; [ discriminate H | ].
  injection H as H. apply merge_loop_gaps in H; [ exact H | ].
  exact I.
Qed.

Lemma merge_exons_gaps_witness :
  merge_exons (Some 50%Z)
    [mkExon 100 120; mkExon 10 20; mkExon 60 80; mkExon 22 30]
  = Ok ([mkExon 10 30; mkExon 60 80; mkExon 100 120], true, 1)
  /\ neighbours
       (fun d => (5 <= d)%Z /\ intron_too_long (Some 50%Z) d = false)
       [mkExon 10 30; mkExon 60 80; mkExon 100 120].
Proof.
  assert (H : merge_exons (Some 50%Z)
                [mkExon 100 120; mkExon 10 20; mkExon 60 80; mkExon 22 30]
              = Ok ([mkExon 10 30; mkExon 60 80; mkExon 100 120], true, 1))
    by reflexivity.
  exact (conj H (merge_exons_gaps _ _ _ _ _ H)).
Defined.

(** X18: when the merge loop keeps the transcript, every exon of the
    feature is among the exons it makes or was counted in [c.merged]:
    the two numbers add up to the number of exons read. *)
Theorem merge_exons_count max exons out merged :
  merge_exons max exons = Ok (out, true, merged) ->
  List.length out + merged = List.length exons.
Proof.
  unfold merge_exons. intros H.
  pose proof (sorted_by_start_length exons) as L.
  destruct (sorted_by_start exons) as [|first rest]; [ discriminate H | ].
  injection H as H. apply merge_loop_count in H.
  cbn [List.length] in *. lia.
Qed.

Lemma merge_exons_count_witness :
  merge_exons (Some 50%Z)
    [mkExon 100 120; mkExon 10 20; mkExon 60 80; mkExon 22 30]
  = Ok ([mkExon 10 30; mkExon 60 80; mkExon 100 120], true, 1)
  /\ List.length [mkExon 10 30; mkExon 60 80; mkExon 100 120] + 1
     = List.length
         [mkExon 100 120; mkExon 10 20; mkExon 60 80; mkExon 22 30].
Proof.
  assert (H : merge_exons (Some 50%Z)
                [mkExon 100 120; mkExon 10 20; mkExon 60 80; mkExon 22 30]
              = Ok ([mkExon 10 30; mkExon 60 80; mkExon 100 120], true, 1))
    by reflexivity.
  exact (conj H (merge_exons_count _ _ _ _ H)).
Defined.

Lemma insert_by_start_In x y l :
  In x (insert_by_start y l) <-> x = y \/ In x l.
Proof.
  induction l as [|z l IH]; cbn [insert_by_start].
  - cbn. intuition congruence.
  - destruct (ex_start y <=? ex_start z)%Z; cbn [In] in *;
      [ intuition congruence | ].
    rewrite IH. intuition congruence.
Qed.

Lemma sorted_by_start_In x l : In x (sorted_by_start l) <-> In x l.
Proof.
  induction l as [|y l IH]; [ reflexivity | ].
  cbn [sorted_by_start fold_right]. fold (sorted_by_start l).
  rewrite insert_by_start_In, IH. cbn. intuition congruence.
Qed.

Lemma insert_by_start_sorted x l :
  StronglySorted le_start l -> StronglySorted le_start (insert_by_start x l).
Proof.
  induction 1 as [|y l Hs IH Hy]; cbn [insert_by_start].
  - repeat constructor.
  - destruct (ex_start x <=? ex_start y)%Z eqn:E.
    + apply Z.leb_le in E. constructor; [ now constructor | ].
      constructor; [ exact E | ].
      eapply Forall_impl; [ | exact Hy ]. unfold le_start. intros; lia.
    + apply Z.leb_gt in E. constructor; [ exact IH | ].
      apply Forall_forall. intros z Hz. apply insert_by_start_In in Hz.
      destruct Hz as [-> | Hz]; [ unfold le_start; lia | ].
      now apply (proj1 (Forall_forall _ _) Hy).
Qed.

Lemma sorted_by_start_sorted l : StronglySorted le_start (sorted_by_start l).
Proof.
  induction l as [|x l IH]; [ constructor | ].
  cbn [sorted_by_start fold_right]. now apply insert_by_start_sorted.
Qed.

Lemma within_grows x n l l' :
  within l l' -> Exists (within x) (n ++ [l]) -> Exists (within x) (n ++ [l']).
Proof.
  intros Hl H. apply Exists_app in H. apply Exists_app.
  destruct H as [H | H]; [ now left | right ].
  inversion H as [? ? Hx | ? ? Hx]; subst; [ | inversion Hx ].
  constructor. unfold within in *. lia.
Qed.

Lemma merge_loop_covers max rest : forall l n merged out merged' seen,
  StronglySorted le_start rest ->
  Forall (le_start l) rest ->
  (forall x, In x seen -> Exists (within x) (n ++ [l])) ->
  merge_loop max l n merged rest = (out, true, merged') ->
  forall x, In x seen \/ In x rest -> Exists (within x) out.
Proof.
  induction rest as [|e rest IH];
    intros l n merged out merged' seen Hs Hl Hseen H x Hx;
    cbn [merge_loop] in H.
  - injection H as <- _. destruct Hx as [Hx | []]. now apply Hseen.
  - inversion Hs as [|? ? Hs' He]; subst.
    inversion Hl as [|? ? Hle Hl']; subst.
    destruct (intron_too_long max (ex_start e - ex_end l));
      [ discriminate H | ].
    destruct (ex_start e - ex_end l <? 5)%Z.
    + apply (IH _ _ _ _ _ (e :: seen) Hs') with (x := x) in H.
      * exact H.
      * exact Hl'.
      * intros y [<- | Hy].
        -- apply Exists_app. right. constructor.
           unfold within, le_start in *. cbn. lia.
        -- apply (within_grows y n l); [ | now apply Hseen ].
           unfold within. cbn. lia.
      * cbn [In] in *. tauto.
    + apply (IH _ _ _ _ _ (e :: seen) Hs') with (x := x) in H.
      * exact H.
      * exact He.
      * intros y [<- | Hy].
        -- apply Exists_app. right. constructor. unfold within. lia.
        -- apply Exists_app. left. now apply Hseen.
      * cbn [In] in *. tauto.
Qed.

(** X19: when the merge loop keeps the transcript, every exon of the
    feature lies within one of the exons that the loop makes: no base
    of an exon is lost. *)
Theorem merge_exons_covers max exons out merged :
  merge_exons max exons = Ok (out, true, merged) ->
  Forall (fun e => Exists (within e) out) exons.
Proof.
  unfold merge_exons. intros H. apply Forall_forall. intros x Hx.
  apply sorted_by_start_In in Hx.
  pose proof (sorted_by_start_sorted exons) as Hs.
  destruct (sorted_by_start exons) as [|first rest]; [ discriminate H | ].
  injection H as H. inversion Hs as [|? ? Hs' Hf]; subst.
  apply (merge_loop_covers _ _ _ _ _ _ _ [first] Hs' Hf) with (x := x)
    in H; [ exact H | | ].
  - intros y [<- | []]. constructor. unfold within. lia.
  - destruct Hx as [<- | Hx]; [ left; now left | now right ].
Qed.

Lemma merge_exons_covers_witness :
  merge_exons (Some 50%Z)
    [mkExon 100 120; mkExon 10 20; mkExon 60 80; mkExon 22 30]
  = Ok ([mkExon 10 30; mkExon 60 80; mkExon 100 120], true, 1)
  /\ Forall
       (fun e =>
          Exists (within e) [mkExon 10 30; mkExon 60 80; mkExon 100 120])
       [mkExon 100 120; mkExon 10 20; mkExon 60 80; mkExon 22 30].
Proof.
  assert (H : merge_exons (Some 50%Z)
                [mkExon 100 120; mkExon 10 20; mkExon 60 80; mkExon 22 30]
              = Ok ([mkExon 10 30; mkExon 60 80; mkExon 100 120], true, 1))
    by reflexivity.
  exact (conj H (merge_exons_covers _ _ _ _ H)).
Defined.

(** ** The function [_map] of [resetGTFAttributes] *)

Lemma length_append (a b : string) :
  String.length (a ++ b) = String.length a + String.length b.
Proof. induction a as [|c a IH]; cbn; [ reflexivity | now rewrite IH ]. Qed.

Lemma dict_get_long_keys val m g :
  dict_get val m = Some g ->
  long_keys (S (String.length val)) m < long_keys (String.length val) m.
Proof.
  unfold long_keys. induction m as [|[k v] m IH]; [ discriminate | ].
  cbn [dict_get filter fst]. intros H.
  assert (Mono : List.length
                   (filter (fun kv => Nat.leb (S (String.length val))
                                        (String.length (fst kv))) m)
                 <= List.length
                      (filter (fun kv => Nat.leb (String.length val)
                                           (String.length (fst kv))) m)).
  { clear. induction m as [|[k v] m IH]; [ reflexivity | ].
    cbn [filter fst].
    destruct (Nat.leb (S (String.length val)) (String.length k)) eqn:A.
    - apply Nat.leb_le in A.
      replace (Nat.leb (String.length val) (String.length k)) with true
        by (symmetry; apply Nat.leb_le; lia).
      cbn [List.length]. lia.
    - destruct (Nat.leb (String.length val) (String.length k));
        cbn [List.length]; lia. }
  destruct (String.eqb k val) eqn:E.
  - apply String.eqb_eq in E. subst k.
    replace (Nat.leb (S (String.length val)) (String.length val)) with false
      by (symmetry; apply Nat.leb_gt; lia).
    rewrite Nat.leb_refl. cbn [List.length]. lia.
  - specialize (IH H).
    destruct (Nat.leb (S (String.length val)) (String.length k)) eqn:A.
    + apply Nat.leb_le in A.
      replace (Nat.leb (String.length val) (String.length k)) with true
        by (symmetry; apply Nat.leb_le; lia).
      cbn [List.length]. lia.
    + destruct (Nat.leb (String.length val) (String.length k));
        cbn [List.length]; lia.
Qed.

Lemma long_keys_le n m : long_keys n m <= List.length m.
Proof. unfold long_keys. apply filter_length_le. Qed.

Lemma map_val_total gene_id m : forall fuel val,
  long_keys (String.length val) m <= fuel ->
  exists val', map_val fuel gene_id m val = Some val'.
Proof.
  induction fuel as [|fuel IH]; intros val Hf; cbn [map_val].
  - destruct (dict_get val m) as [g|] eqn:E; [ | now exists val ].
    apply dict_get_long_keys in E. lia.
  - destruct (dict_get val m) as [g|] eqn:E; [ | now exists val ].
    destruct (String.eqb gene_id g); [ now exists val | ].
    apply IH. apply dict_get_long_keys in E.
    rewrite length_append. cbn [String.length].
    replace (String.length val + 1) with (S (String.length val)) by lia.
    lia.
Qed.

(** X20: the loop of [_map] ends: with as many rounds as the dictionary
    has bindings, or more, [_map] returns. *)
Theorem inner_map_returns extra gene_id val m :
  exists val' m',
    _map (List.length m + extra) gene_id val m = Some (val', m').
Proof.
  unfold _map.
  destruct (map_val_total gene_id m (List.length m + extra) val)
    as [val' ->].
  - pose proof (long_keys_le (String.length val) m). lia.
  - now exists val', (dict_set val' gene_id m).
Qed.

Lemma map_val_inv gene_id m : forall fuel val val',
  map_val fuel gene_id m val = Some val' ->
  (exists k, val' = val ++ repeat_string "a" k)
  /\ (dict_get val' m = None \/ dict_get val' m = Some gene_id).
Proof.
  induction fuel as [|fuel IH]; intros val val' H; cbn [map_val] in H.
  - destruct (dict_get val m) as [g|] eqn:E.
    + destruct (String.eqb gene_id g) eqn:G; [ | discriminate H ].
      injection H as <-. apply String.eqb_eq in G. subst g.
      split; [ exists 0; cbn; now rewrite append_empty_r | now right ].
    + injection H as <-.
      split; [ exists 0; cbn; now rewrite append_empty_r | now left ].
  - destruct (dict_get val m) as [g|] eqn:E.
    + destruct (String.eqb gene_id g) eqn:G.
      * injection H as <-. apply String.eqb_eq in G. subst g.
        split; [ exists 0; cbn; now rewrite append_empty_r | now right ].
      * apply IH in H. destruct H as [[k ->] H].
        split; [ | exact H ]. exists (S k). cbn [repeat_string].
        now rewrite append_assoc.
    + injection H as <-.
      split; [ exists 0; cbn; now rewrite append_empty_r | now left ].
Qed.

(** X21: [_map] never gives an identifier of one gene to another: the
    value that it stores is [val] followed by a number of [a], it is
    bound to the gene afterwards, and every binding that the dictionary
    had is still there. *)
Theorem inner_map_keeps_bindings fuel gene_id val m val' m' :
  _map fuel gene_id val m = Some (val', m') ->
  (exists k, val' = val ++ repeat_string "a" k)
  /\ dict_get val' m' = Some gene_id
  /\ forall key g, dict_get key m = Some g -> dict_get key m' = Some g.
Proof.
  unfold _map. intros H.
  destruct (map_val fuel gene_id m val) as [v|] eqn:E; [ | discriminate H ].
  injection H as <- <-. apply map_val_inv in E. destruct E as [Hk Hv].
  split; [ exact Hk | ]. unfold dict_set. cbn [dict_get].
  split; [ now rewrite String.eqb_refl | ].
  intros key g Hg. destruct (String.eqb v key) eqn:K; [ | exact Hg ].
  apply String.eqb_eq in K. subst key.
  destruct Hv as [Hv | Hv]; congruence.
Qed.

Lemma inner_map_keeps_bindings_witness :
  _map 2 "g2" "TSS1" [("TSS1a", "g3"); ("TSS1", "g1")]
  = Some ("TSS1aa", [("TSS1aa", "g2"); ("TSS1a", "g3"); ("TSS1", "g1")])
  /\ (exists k, "TSS1aa" = "TSS1" ++ repeat_string "a" k)
  /\ dict_get "TSS1aa" [("TSS1aa", "g2"); ("TSS1a", "g3"); ("TSS1", "g1")]
     = Some "g2"
  /\ forall key g,
       dict_get key [("TSS1a", "g3"); ("TSS1", "g1")] = Some g ->
       dict_get key [("TSS1aa", "g2"); ("TSS1a", "g3"); ("TSS1", "g1")]
       = Some g.
Proof.
  assert (H : _map 2 "g2" "TSS1" [("TSS1a", "g3"); ("TSS1", "g1")]
              = Some ("TSS1aa",
                      [("TSS1aa", "g2"); ("TSS1a", "g3"); ("TSS1", "g1")]))
    by reflexivity.
  exact (conj H (inner_map_keeps_bindings _ _ _ _ _ _ H)).
Defined.

(** ** [getSequencingInformation] *)

(** X22: [getSequencingInformation] never returns.  Without a file of
    the track the test of [second_pair] raises, the name being unbound;
    with one, [getReadLengthFromFastq] raises when it opens the file,
    for the name [iterate], or the file is missing or does not open. *)
Theorem getSequencingInformation_never_returns fs track :
  exists e,
    getSequencingInformation fs track = inl e
    /\ (e = SeqUnboundLocalError "second_pair"
        <-> file_exists fs (track ++ ".fastq.gz") = false
            /\ file_exists fs (track ++ ".fastq.1.gz") = false
            /\ file_exists fs (track ++ ".csfasta.gz") = false).
Proof.
  unfold getSequencingInformation, getReadLengthFromFastq.
  destruct (file_exists fs (track ++ ".fastq.gz")) eqn:E1.
  - cbn. destruct (file_opens fs (track ++ ".fastq.gz"));
      eexists; (split; [ reflexivity | ]);
      (split; [ discriminate | intros (H & _); discriminate H ]).
  - destruct (file_exists fs (track ++ ".fastq.1.gz")) eqn:E2.
    + assert (T : truthy (track ++ ".fastq.2.gz") = true)
        by (destruct track; reflexivity).
      rewrite T.
      destruct (file_exists fs (track ++ ".fastq.2.gz"));
        cbn [negb];
        [ destruct (file_opens fs (track ++ ".fastq.2.gz")) | ];
        eexists; (split; [ reflexivity | ]);
        (split; [ discriminate | intros (_ & H & _); discriminate H ]).
    + destruct (file_exists fs (track ++ ".csfasta.gz")) eqn:E3.
      * cbn. destruct (file_opens fs (track ++ ".csfasta.gz"));
          eexists; (split; [ reflexivity | ]);
          (split; [ discriminate | intros (_ & _ & H); discriminate H ]).
      * eexists. split; [ reflexivity | ]. tauto.
Qed.

(** ** [splitGeneSet] *)

Lemma append_cancel_l (a x y : string) : a ++ x = a ++ y -> x = y.
Proof.
  induction a as [|c a IH]; cbn; [ trivial | ].
  intros H. injection H as H. now apply IH.
Qed.

Lemma append_cancel_r (s : string) : forall x y, x ++ s = y ++ s -> x = y.
Proof.
  induction x as [|c x IH]; intros [|d y] H; cbn in H.
  - reflexivity.
  - apply (f_equal String.length) in H. cbn in H.
    rewrite length_append in H. lia.
  - apply (f_equal String.length) in H. cbn in H.
    rewrite length_append in H. lia.
  - injection H as -> H. f_equal. now apply IH.
Qed.

Lemma split_name_inj outprefix a b :
  split_name outprefix a = split_name outprefix b -> a = b.
Proof.
  unfold split_name. intros H. apply append_cancel_l in H.
  apply (append_cancel_l ".") in H. now apply append_cancel_r in H.
Qed.

Lemma split_name_eqb outprefix a b :
  String.eqb (split_name outprefix a) (split_name outprefix b)
  = String.eqb a b.
Proof.
  destruct (String.eqb a b) eqn:E.
  - apply String.eqb_eq in E. subst. apply String.eqb_refl.
  - apply String.eqb_neq. intros H. apply split_name_inj in H.
    apply String.eqb_neq in E. contradiction.
Qed.

Lemma split_loop_snoc outprefix done line v :
  split_loop outprefix (done ++ [line]) v
  = rbind (split_loop outprefix done v)
      (fun v' => split_step outprefix v' line).
Proof.
  revert v. induction done as [|l done IH]; intros v;
    cbn [app split_loop rbind].
  - destruct (split_step outprefix v line); reflexivity.
  - destruct (split_step outprefix v l) as [v'|e]; cbn [rbind];
      [ apply IH | reflexivity ].
Qed.

(** The run of [k] at the end of the lines read so far. *)
Lemma last_run_snoc k done line :
  last_run k (done ++ [line])
  = if has_key k line then
      (if match hd_error (rev done) with
          | Some l => has_key k l
          | None => false
          end
       then last_run k done ++ [line] else [line])%list
    else last_run k done.
Proof.
  unfold last_run. rewrite rev_app_distr. cbn [rev app drop_while].
  destruct (has_key k line) eqn:E; cbn [negb]; [ | reflexivity ].
  cbn [take_while]. rewrite E. cbn [rev].
  destruct (rev done) as [|l r]; cbn [hd_error take_while drop_while];
    [ reflexivity | ].
  destruct (has_key k l) eqn:F; cbn [negb take_while rev];
    [ | reflexivity ].
  now rewrite F.
Qed.

(** What the loop has done after the lines [done]: [last] is the first
    column of the last line, the open file is the file of that column,
    and the file of every first column read holds its last run. *)
Lemma split_loop_runs outprefix d done :
  exists v,
    split_loop outprefix done (mkSplitVars None None d) = Ok v
    /\ last v = option_map first_field (hd_error (rev done))
    /\ open_file v
       = option_map (fun l => split_name outprefix (first_field l))
           (hd_error (rev done))
    /\ forall k,
         disk_get (split_name outprefix k) (written v)
         = if existsb (has_key k) done then Some (last_run k done)
           else disk_get (split_name outprefix k) d.
Proof.
  induction done as [|line done IH] using rev_ind.
  - eexists. cbn. repeat split; reflexivity.
  - destruct IH as (v & Hv & Hlast & Hopen & Hdisk).
    rewrite split_loop_snoc, Hv. cbn [rbind].
    rewrite rev_app_distr. cbn [rev app hd_error option_map].
    unfold split_step.
    destruct (match last v with
              | Some l => String.eqb (first_field line) l
              | None => false
              end) eqn:Same.
    + (* [this == last] *)
      rewrite Hlast in Same.
      destruct (hd_error (rev done)) as [l|] eqn:Hd;
        cbn [option_map] in *; [ | discriminate Same ].
      apply String.eqb_eq in Same.
      unfold write_line. rewrite Hopen.
      eexists. split; [ reflexivity | ]. cbn [last open_file written].
      split; [ now rewrite Hlast, Same | ].
      split; [ now rewrite Same | ].
      intros k. cbn [disk_get]. rewrite split_name_eqb.
      rewrite existsb_app. cbn [existsb]. rewrite orb_false_r.
      rewrite last_run_snoc, Hd.
      change (has_key k line) with (String.eqb (first_field line) k).
      change (has_key k l) with (String.eqb (first_field l) k).
      rewrite Same.
      destruct (String.eqb (first_field l) k) eqn:K.
      * rewrite orb_true_r, Hdisk.
        apply String.eqb_eq in K. subst k.
        assert (Hex : existsb (has_key (first_field l)) done = true).
        { apply existsb_exists. exists l. split.
          - apply in_rev. destruct (rev done) as [|l0 r];
              [ discriminate Hd | injection Hd as ->; now left ].
          - apply String.eqb_refl. }
        now rewrite Hex.
      * rewrite orb_false_r. apply Hdisk.
    + (* another first column: its file is opened *)
      unfold write_line. cbn [open_file written last disk_get].
      rewrite String.eqb_refl.
      eexists. split; [ reflexivity | ]. cbn [last open_file written].
      split; [ reflexivity | ]. split; [ reflexivity | ].
      intros k. cbn [disk_get app]. rewrite split_name_eqb.
      rewrite existsb_app. cbn [existsb]. rewrite orb_false_r.
      rewrite last_run_snoc.
      change (has_key k line) with (String.eqb (first_field line) k).
      destruct (String.eqb (first_field line) k) eqn:K.
      * rewrite orb_true_r. apply String.eqb_eq in K. subst k.
        rewrite Hlast in Same.
        destruct (hd_error (rev done)) as [l|]; cbn [option_map] in Same;
          [ | reflexivity ].
        unfold has_key. rewrite String.eqb_sym, Same. reflexivity.
      * rewrite orb_false_r. apply Hdisk.
Qed.

Lemma grouped_snoc ks : forall k,
  grouped (ks ++ [k]) ->
  grouped ks /\ (In k ks -> hd_error (rev ks) = Some k).
Proof.
  induction ks as [|a r IH]; intros k H.
  - split; [ exact I | intros [] ].
  - cbn [app grouped] in H. destruct H as [Ha Hr].
    destruct (IH k Hr) as [Gr Hk].
    assert (Hin : In k r -> hd_error (rev (a :: r)) = Some k).
    { intros Hi. specialize (Hk Hi). cbn [rev].
      destruct (rev r) as [|x t]; [ discriminate Hk | exact Hk ]. }
    split.
    + cbn [grouped]. split; [ | exact Gr ].
      intros Hi. specialize (Ha (in_or_app _ _ _ (or_introl Hi))).
      destruct r as [|b r']; [ contradiction | exact Ha ].
    + intros [<- | Hi]; [ | now apply Hin ].
      assert (Hlast : In a (r ++ [a])) by (apply in_or_app; right; now left).
      specialize (Ha Hlast).
      destruct r as [|b r']; [ reflexivity | ].
      cbn [app hd_error] in Ha. injection Ha as ->.
      apply Hin. now left.
Qed.

Lemma grouped_last_run lines :
  grouped (map first_field lines) ->
  forall k, last_run k lines = filter (has_key k) lines.
Proof.
  induction lines as [|line done IH] using rev_ind; intros G k;
    [ reflexivity | ].
  rewrite map_app in G. cbn [map] in G.
  apply grouped_snoc in G. destruct G as [G Hk].
  rewrite last_run_snoc, filter_app. cbn [filter].
  rewrite (IH G k).
  destruct (has_key k line) eqn:K; [ | now rewrite app_nil_r ].
  destruct (match hd_error (rev done) with
            | Some l => has_key k l
            | None => false
            end) eqn:C; [ reflexivity | ].
  destruct (filter (has_key k) done) as [|x t] eqn:F; [ reflexivity | ].
  exfalso.
  assert (Hx : In x (filter (has_key k) done)) by (rewrite F; now left).
  apply filter_In in Hx. destruct Hx as [Hx Kx].
  unfold has_key in K, Kx. apply String.eqb_eq in K, Kx.
  assert (Hi : In (first_field line) (map first_field done)).
  { rewrite K, <- Kx. now apply in_map. }
  specialize (Hk Hi). rewrite <- map_rev in Hk.
  destruct (rev done) as [|l r]; [ discriminate Hk | ].
  cbn [map hd_error] in Hk, C. injection Hk as Hk.
  unfold has_key in C. rewrite Hk, K, String.eqb_refl in C.
  discriminate C.
Qed.

Lemma existsb_has_key k lines :
  In k (map first_field lines) -> existsb (has_key k) lines = true.
Proof.
  intros H. apply in_map_iff in H. destruct H as (l & <- & Hl).
  apply existsb_exists. exists l. split; [ exact Hl | ].
  apply String.eqb_refl.
Qed.

(** X23: [splitGeneSet] leaves in the file of a first column the last
    run of the lines with that column: when the column comes again
    after another one, its file is opened for writing again and the
    lines of the earlier run are lost. *)
Theorem splitGeneSet_writes_last_runs env infile outprefix lines d :
  snip env infile ".gtf.gz" = Ok outprefix ->
  exists d',
    splitGeneSet env infile lines d = Ok d'
    /\ forall k,
         In k (map first_field lines) ->
         disk_get (split_name outprefix k) d' = Some (last_run k lines).
Proof.
  intros Hs. unfold splitGeneSet. rewrite Hs. cbn [rbind].
  destruct (split_loop_runs outprefix d lines) as (v & -> & _ & _ & Hd).
  cbn [rbind]. exists (written v). split; [ reflexivity | ].
  intros k Hk. rewrite Hd. now rewrite (existsb_has_key _ _ Hk).
Qed.

Lemma splitGeneSet_writes_last_runs_witness :
  snip example_env "genes.gtf.gz" ".gtf.gz" = Ok "genes"
  /\ exists d',
       splitGeneSet example_env "genes.gtf.gz"
         ["chr1" ++ tab ++ "a"; "chr2" ++ tab ++ "b";
          "chr1" ++ tab ++ "c"] [] = Ok d'
       /\ forall k,
            In k (map first_field
                    ["chr1" ++ tab ++ "a"; "chr2" ++ tab ++ "b";
                     "chr1" ++ tab ++ "c"]) ->
            disk_get (split_name "genes" k) d'
            = Some (last_run k
                      ["chr1" ++ tab ++ "a"; "chr2" ++ tab ++ "b";
                       "chr1" ++ tab ++ "c"]).
Proof.
  assert (H : snip example_env "genes.gtf.gz" ".gtf.gz" = Ok "genes")
    by reflexivity.
  exact (conj H (splitGeneSet_writes_last_runs _ _ _ _ [] H)).
Defined.

(** X24: when the lines with the same first column follow each other,
    [splitGeneSet] loses no line: the file of a first column holds the
    lines with that column, in their order. *)
Theorem splitGeneSet_partitions env infile outprefix lines d :
  snip env infile ".gtf.gz" = Ok outprefix ->
  grouped (map first_field lines) ->
  exists d',
    splitGeneSet env infile lines d = Ok d'
    /\ forall k,
         In k (map first_field lines) ->
         disk_get (split_name outprefix k) d'
         = Some (filter (has_key k) lines).
Proof.
  intros Hs G. unfold splitGeneSet. rewrite Hs. cbn [rbind].
  destruct (split_loop_runs outprefix d lines) as (v & -> & _ & _ & Hd).
  cbn [rbind]. exists (written v). split; [ reflexivity | ].
  intros k Hk. rewrite Hd, (existsb_has_key _ _ Hk).
  now rewrite (grouped_last_run _ G).
Qed.

Lemma splitGeneSet_partitions_witness :
  snip example_env "genes.gtf.gz" ".gtf.gz" = Ok "genes"
  /\ grouped (map first_field
                ["chr1" ++ tab ++ "a"; "chr1" ++ tab ++ "c";
                 "chr2" ++ tab ++ "b"])
  /\ exists d',
       splitGeneSet example_env "genes.gtf.gz"
         ["chr1" ++ tab ++ "a"; "chr1" ++ tab ++ "c";
          "chr2" ++ tab ++ "b"] [] = Ok d'
       /\ forall k,
            In k (map first_field
                    ["chr1" ++ tab ++ "a"; "chr1" ++ tab ++ "c";
                     "chr2" ++ tab ++ "b"]) ->
            disk_get (split_name "genes" k) d'
            = Some (filter (has_key k)
                      ["chr1" ++ tab ++ "a"; "chr1" ++ tab ++ "c";
                       "chr2" ++ tab ++ "b"]).
Proof.
  assert (H : snip example_env "genes.gtf.gz" ".gtf.gz" = Ok "genes")
    by reflexivity.
  assert (G : grouped (map first_field
                         ["chr1" ++ tab ++ "a"; "chr1" ++ tab ++ "c";
                          "chr2" ++ tab ++ "b"])).
  { cbn. repeat split; try reflexivity;
      intros K; repeat destruct K as [K | K];
      try discriminate K; contradiction. }
  exact (conj H (conj G (splitGeneSet_partitions _ _ _ _ [] H G))).
Defined.

(** ** [Tophat2.mapper] and [Tophat2_fusion.mapper] *)

Lemma sub_literal_skip pat repl : forall s k,
  sub_literal pat repl k s = sub_literal pat repl 0 (drop k s).
Proof.
  induction s as [|c r IH]; intros k.
  - destruct k; reflexivity.
  - destruct k as [|k]; [ reflexivity | ].
    cbn [sub_literal drop]. apply IH.
Qed.

Lemma drop_length k : forall s, String.length (drop k s) <= String.length s.
Proof.
  induction k as [|k IH]; intros s; [ destruct s; cbn; lia | ].
  destruct s as [|c r]; cbn [drop String.length]; [ lia | ].
  specialize (IH r). lia.
Qed.

(** The pattern and the replacement start with the character [%], which
    is nowhere else in the pattern. *)
Lemma sub_literal_startswith ptail rtail : forall q s,
  has_char "%" q = false ->
  startswith (sub_literal (String "%" ptail) (String "%" rtail) 0 s) q
  = startswith s q.
Proof.
  induction q as [|a q IH]; intros s Hq.
  - destruct (sub_literal (String "%" ptail) (String "%" rtail) 0 s);
      destruct s; reflexivity.
  - cbn [has_char] in Hq. apply orb_false_elim in Hq.
    destruct Hq as [Ha Hq].
    destruct s as [|b r]; [ reflexivity | ].
    cbn [sub_literal].
    destruct (startswith (String b r) (String "%" ptail)) eqn:M.
    + cbn [startswith] in M.
      apply andb_prop in M. destruct M as [M _].
      apply Ascii.eqb_eq in M. subst b.
      cbn [append startswith].
      rewrite Ascii.eqb_sym, Ha. reflexivity.
    + cbn [startswith]. now rewrite IH.
Qed.

Lemma sub_literal_no_new_match ptail rtail c r :
  has_char "%" ptail = false ->
  startswith (String c r) (String "%" ptail) = false ->
  startswith
    (String c (sub_literal (String "%" ptail) (String "%" rtail) 0 r))
    (String "%" ptail) = false.
Proof.
  intros Hp. cbn [startswith].
  now rewrite sub_literal_startswith.
Qed.

Lemma sub_literal_removes ptail rtail :
  has_char "%" ptail = false ->
  (forall t, occurs (String "%" ptail) t = false ->
             occurs (String "%" ptail) (String "%" rtail ++ t) = false) ->
  forall n s, String.length s <= n ->
  occurs (String "%" ptail)
    (sub_literal (String "%" ptail) (String "%" rtail) 0 s) = false.
Proof.
  intros Hp Hrepl. induction n as [|n IH]; intros s Hn.
  - destruct s; [ reflexivity | cbn in Hn; lia ].
  - destruct s as [|c r]; [ reflexivity | ].
    cbn [String.length] in Hn. cbn [sub_literal].
    destruct (startswith (String c r) (String "%" ptail)) eqn:M.
    + apply Hrepl. rewrite sub_literal_skip. apply IH.
      pose proof (drop_length (String.length (String "%" ptail) - 1) r).
      lia.
    + cbn [occurs]. rewrite (sub_literal_no_new_match _ _ _ _ Hp M).
      cbn [orb]. apply IH. lia.
Qed.

(** X25: the statements of [Tophat2.mapper] and of
    [Tophat2_fusion.mapper] name no option of [tophat]: no placeholder
    that starts with [%(tophat_] is left in them. *)
Theorem Tophat2_mappers_rename_every_option env infiles outfile st m st' :
  Tophat2_mapper env infiles outfile st = Ok (m, st')
  \/ Tophat2_fusion_mapper env infiles outfile st = Ok (m, st') ->
  occurs "%(tophat_" m = false.
Proof.
  intros [H | H];
    [ unfold Tophat2_mapper in H | unfold Tophat2_fusion_mapper in H ];
    apply bind_inv in H; destruct H as (m0 & s0 & _ & H);
    apply ret_inv in H; destruct H as [-> _].
  - eapply (sub_literal_removes "(tophat_" "(tophat2_");
      [ reflexivity | | apply Nat.le_refl ].
    intros t Ht. cbn. exact Ht.
  - eapply (sub_literal_removes "(tophat_" "(tophat2_fusion_");
      [ reflexivity | | apply Nat.le_refl ].
    intros t Ht. cbn. exact Ht.
Qed.

Lemma Tophat2_mappers_rename_every_option_witness :
  exists m st',
    (Tophat2_mapper example_env [["a.fastq.gz"]] "a.bam"
       (mkState (set_tmpdir_fastq "/tmp/tmp0" new_Tophat2) 1) = Ok (m, st')
     \/ Tophat2_fusion_mapper example_env [["a.fastq.gz"]] "a.bam"
          (mkState (set_tmpdir_fastq "/tmp/tmp0" new_Tophat2) 1)
        = Ok (m, st'))
    /\ occurs "%(tophat_" m = false.
Proof.
  do 2 eexists.
  match goal with
  | |- (?A \/ _) /\ _ => assert (Hrun : A); [ lazy; reflexivity | ]
  end.
  exact (conj (or_introl Hrun)
           (Tophat2_mappers_rename_every_option _ _ _ _ _ _
              (or_introl Hrun))).
Defined.

(** ** [class Bismark] *)

Lemma Bismark_mapper_terminated env infiles outfile st m st' :
  Bismark_mapper env infiles outfile st = Ok (m, st') -> terminated m.
Proof.
  unfold Bismark_mapper. intros H. inv_seq H. inv_ifs;
    closes_last (nl ++ pad).
Qed.

Lemma Bismark_postprocess_terminated env infiles mapfiles outfile st q st' :
  Bismark_postprocess env infiles mapfiles outfile st = Ok (q, st') ->
  terminated q.
Proof.
  unfold Bismark_postprocess. intros H. inv_seq H.
  destruct (endswith a1 ".fastq.gz");
    [ inv_seq H; closes_last EmptyString | ].
  destruct (endswith a1 ".fastq.1.gz");
    [ inv_seq H; closes_last EmptyString | ].
  destruct (endswith a1 ".sra"); inv_seq H;
    [ | apply (terminated_literal "checkpoint") ].
  match goal with
  | E : for_each _ _ None _ = Ok (?v, _) |- _ =>
      assert (Inv : match v with Some s => terminated s | None => True end)
  end.
  { pose proof (for_each_invariant
      (fun (statement : option string) (mapfile : list string) =>
         first <- lift (item mapfile 0) ;;
         s <- lift (format
                      (if endswith (basename first) ".fastq.1.gz"
                       then tpl_bismark_post_sra_paired
                       else tpl_bismark_post_sra_single)
                      (("mapfile", PStr (basename first))
                       :: [ ("self", PObj "<Bismark>");
                            ("infiles", PObj "<list>");
                            ("mapfiles", PObj "<list>");
                            ("outfile", PStr outfile);
                            ("tmpdir_fastq", PStr ".");
                            ("track", PStr a0);
                            ("infile", PStr a1);
                            ("base", PStr (before_dot (basename a1))) ])) ;;
         ret (Some s))
      (fun v => match v with Some s => terminated s | None => True end))
      as F.
    eapply F; [ | | eassumption ]; [ | exact I ].
    intros v x s0 v' s0' _ _ Hb. inv_seq Hb.
    destruct (endswith (basename a3) ".fastq.1.gz");
      closes_last EmptyString. }
  match goal with
  | E : for_each _ _ None _ = Ok (?v, _) |- _ => destruct v; inv_seq H
  end.
  exact Inv.
Qed.

(** X26: the assertions of [Bismark.build] cannot fail: whenever the
    four methods return, [build] returns the four statements joined by
    the checkpoint separator. *)
Theorem Bismark_build_always_builds
    env infiles outfile st p mapfiles st1 m st2 q st3 c st4 :
  preprocess env infiles outfile st = Ok ((p, mapfiles), st1) ->
  Bismark_mapper env mapfiles outfile st1 = Ok (m, st2) ->
  Bismark_postprocess env infiles mapfiles outfile st2 = Ok (q, st3) ->
  Mapper_cleanup env outfile st3 = Ok (c, st4) ->
  Bismark_build env infiles outfile st
  = Ok (join checkpoint [p; m; q; c], st4).
Proof.
  intros Hp Hm Hq Hc. unfold Bismark_build.
  rewrite (bind_Ok _ _ _ _ _ Hp). cbn [fst snd].
  rewrite (bind_Ok _ _ _ _ _ Hm).
  rewrite (bind_Ok _ _ _ _ _ Hq).
  rewrite (bind_Ok _ _ _ _ _ Hc).
  destruct (preprocess_terminated _ _ _ _ _ _ _ Hp) as [Tp _].
  apply Bismark_mapper_terminated in Hm.
  apply Bismark_postprocess_terminated in Hq.
  apply Mapper_cleanup_terminated in Hc.
  pose proof (terminated_strip _ Tp) as Sp.
  pose proof (terminated_strip _ Hm) as Sm.
  pose proof (terminated_strip _ Hq) as Sq.
  pose proof (terminated_strip _ Hc) as Sc.
  unfold bind, assert, ret. rewrite Sp, Sm, Sq, Sc.
  rewrite (terminated_truthy _ Sq), (terminated_truthy _ Sc).
  reflexivity.
Qed.

Lemma Bismark_build_always_builds_witness :
  exists p mapfiles st1 m st2 q st3 c st4,
    preprocess example_env ["a.fastq.gz"] "a.bam" (start (new_Bismark false))
    = Ok ((p, mapfiles), st1)
    /\ Bismark_mapper example_env mapfiles "a.bam" st1 = Ok (m, st2)
    /\ Bismark_postprocess example_env ["a.fastq.gz"] mapfiles "a.bam" st2
       = Ok (q, st3)
    /\ Mapper_cleanup example_env "a.bam" st3 = Ok (c, st4)
    /\ Bismark_build example_env ["a.fastq.gz"] "a.bam"
         (start (new_Bismark false))
       = Ok (join checkpoint [p; m; q; c], st4).
Proof.
  do 9 eexists.
  match goal with
  | |- ?A /\ _ => assert (Hp : A); [ lazy; reflexivity | ]
  end.
  match goal with
  | |- _ /\ ?A /\ _ => assert (Hm : A); [ lazy; reflexivity | ]
  end.
  match goal with
  | |- _ /\ _ /\ ?A /\ _ => assert (Hq : A); [ lazy; reflexivity | ]
  end.
  match goal with
  | |- _ /\ _ /\ _ /\ ?A /\ _ => assert (Hc : A); [ lazy; reflexivity | ]
  end.
  exact (conj Hp (conj Hm (conj Hq (conj Hc
           (Bismark_build_always_builds _ _ _ _ _ _ _ _ _ _ _ _ _
              Hp Hm Hq Hc))))).
Defined.

(** X27: [Bismark.mapper] maps the first group only: with groups of
    equal size, the result is the one for the first group alone. *)
Theorem Bismark_mapper_reads_first_group env g rest outfile st n :
  groups_of n (g :: rest) ->
  Bismark_mapper env (g :: rest) outfile st
  = Bismark_mapper env [g] outfile st.
Proof.
  intros [Hne Hall].
  assert (H1 : count_files (g :: rest) = Ok n)
    by now apply count_files_uniform.
  assert (H2 : count_files [g] = Ok n).
  { apply count_files_uniform; [ discriminate | ].
    inversion Hall; subst. now constructor. }
  unfold Bismark_mapper. rewrite H1, H2. reflexivity.
Qed.

Lemma Bismark_mapper_reads_first_group_witness :
  groups_of 1 [["a.fastq.gz"]; ["b.fastq.gz"]]
  /\ Bismark_mapper example_env [["a.fastq.gz"]; ["b.fastq.gz"]] "a.bam"
       (mkState (set_tmpdir_fastq "/tmp/tmp0" (new_Bismark false)) 1)
     = Bismark_mapper example_env [["a.fastq.gz"]] "a.bam"
         (mkState (set_tmpdir_fastq "/tmp/tmp0" (new_Bismark false)) 1).
Proof.
  assert (G : groups_of 1 [["a.fastq.gz"]; ["b.fastq.gz"]]).
  { split; [ discriminate | repeat constructor ]. }
  exact (conj G (Bismark_mapper_reads_first_group example_env _ _ "a.bam"
                   (mkState (set_tmpdir_fastq "/tmp/tmp0"
                               (new_Bismark false)) 1) 1 G)).
Defined.

Lemma bind_ext {A B} (m : M A) (k1 k2 : A -> M B) st :
  (forall a s, k1 a s = k2 a s) -> bind m k1 st = bind m k2 st.
Proof. intros H. unfold bind. destruct (m st) as [[a s]|e]; auto. Qed.

Lemma for_each_app {A V} (body : V -> A -> M V) l1 l2 : forall v st,
  for_each body (l1 ++ l2) v st
  = bind (for_each body l1 v) (fun v' => for_each body l2 v') st.
Proof.
  induction l1 as [|x l1 IH]; intros v st; [ reflexivity | ].
  cbn [app for_each]. unfold bind at 1 2 3.
  destruct (body v x st) as [[v1 s1]|e]; [ | reflexivity ].
  rewrite IH. reflexivity.
Qed.

Lemma for_each_total {A V} (body : V -> A -> M V) l :
  (forall v x st, In x l -> exists v', body v x st = Ok (v', st)) ->
  forall v st, exists v', for_each body l v st = Ok (v', st).
Proof.
  induction l as [|x l IH]; intros Hb v st; [ now exists v | ].
  cbn [for_each]. destruct (Hb v x st (or_introl eq_refl)) as [v1 H1].
  rewrite (bind_Ok _ _ _ _ _ H1).
  apply IH. intros v0 y s Hy. apply Hb. now right.
Qed.

(** X28: [Bismark.postprocess] reads the last group only: the groups
    before it, each with a file, leave no trace in the statement, which
    for an archive names the first file of the last group. *)
Theorem Bismark_postprocess_reads_last_group
    env infiles mapfiles g outfile st :
  Forall (fun x => x <> []) mapfiles ->
  Bismark_postprocess env infiles (mapfiles ++ [g]) outfile st
  = Bismark_postprocess env infiles [g] outfile st.
Proof.
  intros Hne. unfold Bismark_postprocess.
  apply bind_ext. intros o s0.
  apply bind_ext. intros d s1.
  apply bind_ext. intros track s2.
  apply bind_ext. intros infile s3.
  destruct (endswith infile ".fastq.gz"); [ reflexivity | ].
  destruct (endswith infile ".fastq.1.gz"); [ reflexivity | ].
  destruct (endswith infile ".sra"); [ | reflexivity ].
  match goal with
  | |- bind (for_each ?b _ None) _ _ = _ =>
      destruct (for_each_total b mapfiles) with (v := @None string)
        (st := s3) as [v' Hv']
  end.
  - intros v x s Hx.
    pose proof (proj1 (Forall_forall _ _) Hne x Hx) as Hx0.
    destruct x as [|first x]; [ congruence | ].
    destruct (endswith (basename first) ".fastq.1.gz") eqn:E;
      eexists; unfold bind, lift, item, ret; cbn [nth_error];
      rewrite E; lazy; reflexivity.
  - unfold bind at 1. rewrite for_each_app.
    unfold bind at 1. rewrite Hv'. reflexivity.
Qed.

Lemma Bismark_postprocess_reads_last_group_witness :
  Forall (fun x : list string => x <> []) [["/tmp/tmp1/r_1.fastq.gz"]]
  /\ Bismark_postprocess example_env ["a.sra"]
       ([["/tmp/tmp1/r_1.fastq.gz"]] ++ [["/tmp/tmp1/r_2.fastq.gz"]])
       "a.bam" (mkState (set_tmpdir_fastq "/tmp/tmp0" (new_Bismark false)) 2)
     = Bismark_postprocess example_env ["a.sra"]
         [["/tmp/tmp1/r_2.fastq.gz"]]
         "a.bam"
         (mkState (set_tmpdir_fastq "/tmp/tmp0" (new_Bismark false)) 2).
Proof.
  assert (H : Forall (fun x : list string => x <> [])
                [["/tmp/tmp1/r_1.fastq.gz"]]).
  { repeat constructor. discriminate. }
  exact (conj H (Bismark_postprocess_reads_last_group example_env ["a.sra"]
                   _ _ "a.bam" _ H)).
Defined.

(** ** Reads that need no conversion *)

Lemma fastq_is_no_other_format infile :
  endswith infile ".fastq.gz" = true ->
  endswith infile ".export.txt.gz" = false
  /\ endswith infile ".fa.gz" = false
  /\ endswith infile ".sra" = false.
Proof. intros H. peel_suffix H. repeat split; reflexivity. Qed.

Lemma preprocess_step_fastq env outfile dir compress_cmd extension v f st :
  plain_fastq env f -> convert (self st) = false ->
  preprocess_step env outfile dir compress_cmd extension v f st
  = Ok (add_fastqfiles [f] v, st).
Proof.
  intros (Hs & fmt & Hf) Hc.
  destruct (fastq_is_no_other_format _ Hs) as (N1 & N2 & N3).
  unfold preprocess_step. rewrite N1, N2, N3, Hs.
  rewrite (bind_Ok _ _ _ _ _ (lift_Ok _ st _ Hf)).
  unfold bind, get_self. rewrite Hc, andb_false_r. reflexivity.
Qed.

Lemma preprocess_loop_fastq env outfile dir compress_cmd extension st :
  convert (self st) = false ->
  forall infiles v,
    Forall (plain_fastq env) infiles ->
    for_each (preprocess_step env outfile dir compress_cmd extension)
      infiles v st
    = Ok (mkPreVars (statement v)
            (fastqfiles v ++ map (fun f => [f]) infiles) (track v), st).
Proof.
  intros Hc. induction infiles as [|f infiles IH]; intros v Hall.
  - cbn [for_each map]. rewrite app_nil_r. now destruct v.
  - inversion Hall as [|? ? Hf Hrest]; subst. cbn [for_each].
    rewrite (bind_Ok _ _ _ _ _
               (preprocess_step_fastq _ _ _ _ _ v f st Hf Hc)).
    rewrite (IH _ Hrest). cbn [add_fastqfiles statement fastqfiles track map].
    now rewrite <- app_assoc.
Qed.

Lemma preprocess_fastq env infiles outfile st :
  infiles <> [] ->
  Forall (plain_fastq env) infiles ->
  convert (self st) = false ->
  preprocess env infiles outfile st
  = Ok (("mkdir -p " ++ tempdir_name env (ntemp st) ++ ";",
         map (fun f => [f]) infiles),
        mkState (set_tmpdir_fastq (tempdir_name env (ntemp st)) (self st))
          (S (ntemp st))).
Proof.
  intros Hne Hall Hc. unfold preprocess.
  destruct infiles as [|f rest]; [ congruence | ].
  unfold bind at 1. cbn [List.length Nat.ltb Nat.leb assert ret].
  unfold bind at 1. unfold getTempDir at 1.
  unfold bind at 1. unfold get_self at 1. cbn [self ntemp].
  unfold bind at 1.
  rewrite (preprocess_loop_fastq env outfile _ _ _
             (mkState (self st) (S (ntemp st))) Hc (f :: rest) _ Hall).
  cbn [statement fastqfiles track app map].
  unfold bind, modify_self, assert, ret. cbn [List.length Nat.ltb Nat.leb].
  cbn [self ntemp join String.concat]. reflexivity.
Qed.

(** X29: [preprocess] passes files of single-end reads on as they are:
    for inputs that all end in [.fastq.gz] and whose quality format can
    be told, its statement makes the temporary directory and nothing
    else, and every input is a group of its own, in the order of the
    inputs. *)
Theorem preprocess_passes_fastq_on env infiles outfile st :
  infiles <> [] ->
  Forall (plain_fastq env) infiles ->
  convert (self st) = false ->
  preprocess env infiles outfile st
  = Ok (("mkdir -p " ++ tempdir_name env (ntemp st) ++ ";",
         map (fun f => [f]) infiles),
        mkState (set_tmpdir_fastq (tempdir_name env (ntemp st)) (self st))
          (S (ntemp st))).
Proof. exact (preprocess_fastq env infiles outfile st). Qed.

Lemma preprocess_passes_fastq_on_witness :
  ["a.fastq.gz"; "b.fastq.gz"] <> []
  /\ Forall (plain_fastq example_env) ["a.fastq.gz"; "b.fastq.gz"]
  /\ convert (self (start new_Counter)) = false
  /\ preprocess example_env ["a.fastq.gz"; "b.fastq.gz"] "a.nreads"
       (start new_Counter)
     = Ok (("mkdir -p " ++ tempdir_name example_env (ntemp (start new_Counter))
              ++ ";",
            map (fun f => [f]) ["a.fastq.gz"; "b.fastq.gz"]),
           mkState
             (set_tmpdir_fastq
                (tempdir_name example_env (ntemp (start new_Counter)))
                (self (start new_Counter)))
             (S (ntemp (start new_Counter)))).
Proof.
  assert (H0 : ["a.fastq.gz"; "b.fastq.gz"] <> []) by discriminate.
  assert (H1 : Forall (plain_fastq example_env)
                 ["a.fastq.gz"; "b.fastq.gz"]).
  { repeat constructor; eexists; reflexivity. }
  assert (H2 : convert (self (start new_Counter)) = false) by reflexivity.
  exact (conj H0 (conj H1 (conj H2
           (preprocess_passes_fastq_on example_env _ "a.nreads" _
              H0 H1 H2)))).
Defined.


